(** * whisper-srt: the subtitle service, embedded and verified

    A shallow embedding of
      - [whispersubtitle/core/generator.py]  (timestamps, wrapping, rendering,
        model loading and transcription),
      - [whispersubtitle/api/worker.py]      (the Celery task
        [generate_subtitle_task] and [download_media]),
      - [whispersubtitle/api/app.py]         (submission, status query,
        listing and deletion),
      - [whispersubtitle/utils/obs_storage.py] ([OBSStorage.upload_file]).

    Python [str] is [string] (one [ascii] per character), Python [int] is
    [Z], a dict with a fixed key set is a record, the file system is a finite
    map from paths to files, and the external collaborators (HTTP, ffmpeg,
    whisper, the object store) are fields of a [World] record. *)

From Stdlib Require Import ZArith Lia Ascii Sorted.
From stdpp Require Import gmap strings list pretty.

Local Open Scope Z_scope.

(** ** Python string primitives *)

Module Py.

(** [str.isspace] on the ASCII range: TAB..CR, FS..US and the blank. *)
Definition isspace (a : ascii) : bool :=
  match a with
  | "009" | "010" | "011" | "012" | "013"
  | "028" | "029" | "030" | "031" | " " => true
  | _ => false
  end%char.

(** [len(s)] *)
Definition len (s : string) : Z := Z.of_nat (String.length s).

(** Truth value of an optional string: [None] and [""] are falsy. *)
Definition truthy (o : option string) : bool :=
  match o with
  | Some (String _ _) => true
  | _ => false
  end.

Fixpoint lstrip (s : string) : string :=
  match s with
  | String a s' => if isspace a then lstrip s' else s
  | EmptyString => EmptyString
  end.

Fixpoint rstrip (s : string) : string :=
  match s with
  | String a s' =>
      match rstrip s' with
      | EmptyString => if isspace a then EmptyString else String a EmptyString
      | r => String a r
      end
  | EmptyString => EmptyString
  end.

(** [s.strip()] *)
Definition strip (s : string) : string := rstrip (lstrip s).

(** [s.split()]: the maximal runs of non-blank characters. [cur] is the
    word being read. *)
Fixpoint split_go (cur : string) (s : string) : list string :=
  match s with
  | EmptyString => match cur with EmptyString => [] | _ => [cur] end
  | String a s' =>
      if isspace a
      then match cur with EmptyString => [] | _ => [cur] end
             ++ split_go EmptyString s'
      else split_go (cur +:+ String a EmptyString) s'
  end.

Definition split (s : string) : list string := split_go EmptyString s.

(** [sep.join(l)] *)
Fixpoint join (sep : string) (l : list string) : string :=
  match l with
  | [] => EmptyString
  | [x] => x
  | x :: r => x +:+ sep +:+ join sep r
  end.

Fixpoint startswith (s pre : string) : bool :=
  match pre, s with
  | EmptyString, _ => true
  | String a pre', String b s' => bool_decide (a = b) && startswith s' pre'
  | String _ _, EmptyString => false
  end.

(** [s.endswith(suf)]: [suf] is [s] or ends what follows the first
    character of [s]. *)
Fixpoint endswith (s suf : string) : bool :=
  bool_decide (s = suf)
  || match s with
     | String _ s' => endswith s' suf
     | EmptyString => false
     end.

Definition lower_char (a : ascii) : ascii :=
  let n := Ascii.N_of_ascii a in
  if ((65 <=? n) && (n <=? 90))%N then Ascii.ascii_of_N (n + 32) else a.

(** [s.lower()] on ASCII letters. *)
Fixpoint lower (s : string) : string :=
  match s with
  | EmptyString => EmptyString
  | String a s' => String (lower_char a) (lower s')
  end.

(** Split at the last occurrence of [c]: [Some (before, after)] with
    [s = before ++ c ++ after] and no [c] in [after]. *)
Fixpoint rpartition (c : ascii) (s : string) : option (string * string) :=
  match s with
  | EmptyString => None
  | String a s' =>
      match rpartition c s' with
      | Some (b, t) => Some (String a b, t)
      | None => if bool_decide (a = c) then Some (EmptyString, s') else None
      end
  end.

(** [s.split('.')[-1]] *)
Definition last_dot_field (s : string) : string :=
  match rpartition "." s with
  | Some (_, t) => t
  | None => s
  end.

(** [x in l] for a list of strings. *)
Definition mem (x : string) (l : list string) : bool := bool_decide (x ∈ l).

(** [f"{n:0{w}d}"]: decimal, zero-padded to at least [w] characters, the
    sign first. *)
Definition zeros (n : nat) : string :=
  String.string_of_list_ascii (replicate n "0"%char).

Definition format_0d (w : nat) (n : Z) : string :=
  if n <? 0
  then let d := pretty (Z.to_N (- n)) in
       "-" +:+ zeros (w - 1 - String.length d) +:+ d
  else let d := pretty (Z.to_N n) in
       zeros (w - String.length d) +:+ d.

(** [str(n)] / [f"{n}"] *)
Definition str_int (n : Z) : string := pretty n.

End Py.

(** ** [os.path] *)

Module OsPath.

Definition all_dots (s : string) : bool :=
  forallb (λ a, bool_decide (a = "."%char)) (String.list_ascii_of_string s).

(** [os.path.basename(p)]: what follows the last slash. *)
Definition basename (p : string) : string :=
  match Py.rpartition "/" p with
  | Some (_, f) => f
  | None => p
  end.

(** [os.path.splitext(p)]: the extension starts at the last dot of the last
    path component, unless only dots precede it in that component. *)
Definition splitext (p : string) : string * string :=
  let '(dir, fname) :=
    match Py.rpartition "/" p with
    | Some (d, f) => (d +:+ "/", f)
    | None => (EmptyString, p)
    end in
  match Py.rpartition "." fname with
  | Some (root, e) =>
      if all_dots root then (p, EmptyString)
      else (dir +:+ root, "." +:+ e)
  | None => (p, EmptyString)
  end.

(** The directory part [os.path.join] puts before a relative name. *)
Definition dir_prefix (a : string) : string :=
  match a with
  | EmptyString => EmptyString
  | _ => if Py.endswith a "/" then a else a +:+ "/"
  end.

(** [os.path.join(a, b)] *)
Definition join (a b : string) : string :=
  if Py.startswith b "/" then b else dir_prefix a +:+ b.

End OsPath.

(** ** Shared data *)

(** The line feed, Python's ["\n"]. *)
Definition nl : string := String "010"%char EmptyString.

Definition nonempty (s : string) : bool :=
  match s with EmptyString => false | String _ _ => true end.

(** Python exceptions, by class; [str(e)] is the message. [ExternalError]
    stands for whatever an external collaborator raises (requests, ffmpeg,
    whisper, boto3, the operating system). *)
Inductive exn :=
| ValueError (msg : string)
| FileNotFoundError (msg : string)
| AttributeError (msg : string)
| ExternalError (msg : string).

Definition str_exn (e : exn) : string :=
  match e with
  | ValueError m | FileNotFoundError m | AttributeError m | ExternalError m => m
  end.

(** [torch.device] *)
Inductive device := cpu | mps | cuda.

(** One entry of [transcription_result["segments"]]. [seg_start] and
    [seg_end] are the times in whole microseconds, the value to which
    [timedelta(seconds=...)] rounds the float it is given. *)
Record segment := {
  seg_start : Z;
  seg_end : Z;
  seg_text : string
}.

(** The task options once the defaults are merged. *)
Record Options := {
  opt_model : string;
  opt_language : option string;
  opt_format : string;
  opt_max_line_length : option Z;
  opt_cpu : bool;
  opt_no_mps : bool;
  opt_media_key : option string
}.

(** The [options] dict as passed to the task: [None] is an absent key (for
    the three nullable entries, also a null value). *)
Record OptionsArg := {
  arg_model : option string;
  arg_language : option string;
  arg_format : option string;
  arg_max_line_length : option Z;
  arg_cpu : option bool;
  arg_no_mps : option bool;
  arg_media_key : option string
}.

(** The JSON record [RESULT_FOLDER/<task_id>.json]. *)
Record TaskRecord := {
  rec_task_id : string;
  rec_status : string;
  rec_subtitle_file : string;
  rec_subtitle_content : string;
  rec_media_url : option string;
  rec_options : Options;
  rec_obs_url : option string
}.

(** A regular file: raw content, or content that [json.load] reads as the
    given record. *)
Inductive file :=
| Data (content : string)
| Json (r : TaskRecord).

(** Celery task states, the built-in ones and the custom ones of the
    worker. *)
Inductive celery_state :=
| PENDING | STARTED | DOWNLOADING | EXTRACTING | TRANSCRIBING
| SUCCESS | FAILURE | RETRY | REVOKED.

Global Instance celery_state_eq_dec : EqDecision celery_state.
Proof. solve_decision. Defined.

(** [TASK_STATUS] of worker.py *)
Definition TASK_STATUS (s : celery_state) : string :=
  match s with
  | PENDING => "等待处理"
  | STARTED => "处理中"
  | DOWNLOADING => "下载中"
  | EXTRACTING => "提取音频中"
  | TRANSCRIBING => "生成字幕中"
  | SUCCESS => "处理完成"
  | FAILURE => "处理失败"
  | RETRY => "重试中"
  | REVOKED => "任务取消"
  end.

(** The [meta] dict of [update_state]. *)
Record meta := {
  meta_status : string;
  meta_progress : Z
}.

(** What the task function returns: the dict of the success path or the
    dict of the [except] branch. *)
Record success_response := {
  resp_status : string;
  resp_progress : Z;
  resp_task_id : string;
  resp_subtitle_file : string;
  resp_subtitle_url : string;
  resp_obs_url : option string
}.

Record failure_response := {
  fail_status : string;
  fail_error : string
}.

Inductive task_return :=
| Completed (r : success_response)
| Failed (r : failure_response).

(** [ALLOWED_EXTENSIONS] of config/settings.py *)
Definition ALLOWED_EXTENSIONS : list string :=
  ["mp3"; "wav"; "ogg"; "flac"; "m4a";
   "mp4"; "avi"; "mov"; "mkv"; "webm"; "flv"; "wmv"].

(** ** The environment

    Configuration read at import time and the outcome of every call that
    leaves the program. *)
Record World := {
  UPLOAD_FOLDER : string;
  RESULT_FOLDER : string;
  VIDEOS_FOLDER : string;
  USE_OBS_STORAGE : bool;
  OBS_ENDPOINT : string;
  OBS_SUBTITLES_BUCKET : string;
  (** [obs_storage.enabled] once [OBSStorage.__init__] has run *)
  obs_enabled : bool;
  mps_is_available : bool;
  cuda_is_available : bool;
  (** what [torch.device("mps")] raises, if anything *)
  torch_device_mps : option exn;
  (** [requests.get(url, stream=True)], [raise_for_status] and the body *)
  requests_get : string → exn + string;
  (** the ffmpeg run on a video file: the audio it writes *)
  ffmpeg : string → exn + string;
  (** [whisper.load_model(model_name, device=device)] *)
  whisper_load_model : string → device → option exn;
  (** [model.transcribe(audio_file, language=...)] for the model loaded on
      the given device *)
  whisper_transcribe :
    string → device → string → option string → exn + list segment;
  (** [client.upload_file(local_file_path, bucket, object_key, ...)] *)
  s3_upload_file : string → string → option exn;
  (** what [open(path, "w")] raises, if anything *)
  open_w : string → option exn
}.

(** ** State and exceptions

    The file system and the states the task has published with
    [update_state], threaded through a state-and-exception monad. *)
Record env_state := {
  fs : gmap string file;
  updates : list (celery_state * meta)
}.

Definition M (A : Type) : Type := env_state → (exn + A) * env_state.

Global Instance M_ret : MRet M := λ A x s, (inr x, s).

Global Instance M_bind : MBind M := λ A B f m s,
  match m s with
  | (inl e, s') => (inl e, s')
  | (inr a, s') => f a s'
  end.

Definition raise {A} (e : exn) : M A := λ s, (inl e, s).

(** [try: body  except Exception as e: handler e] *)
Definition try_except {A} (body : M A) (handler : exn → M A) : M A := λ s,
  match body s with
  | (inl e, s') => handler e s'
  | (inr a, s') => (inr a, s')
  end.

Definition get_fs : M (gmap string file) := λ s, (inr (fs s), s).

Definition put_file (p : string) (f : file) : M unit := λ s,
  (inr (), {| fs := <[p := f]> (fs s); updates := updates s |}).

(** [self.update_state(state=st, meta={'status': ..., 'progress': ...})] *)
Definition update_state (st : celery_state) (progress : Z) : M unit := λ s,
  (inr (),
   {| fs := fs s;
      updates := updates s ++
        [(st, {| meta_status := TASK_STATUS st; meta_progress := progress |})] |}).

Definition lift_result {A} (r : exn + A) : M A := λ s, (r, s).

Definition raise_if (o : option exn) : M unit :=
  match o with
  | Some e => raise e
  | None => mret ()
  end.

(** [os.path.exists(p) and os.path.isfile(p)]; every entry of the map is a
    regular file. *)
Definition is_file (m : gmap string file) (p : string) : bool :=
  bool_decide (is_Some (m !! p)).

(** [os.remove(p)]: [None] is the error raised for a missing path. The file
    system of the model has no permissions and no directories among its
    entries: removing an existing file succeeds. *)
Definition os_remove (m : gmap string file) (p : string)
  : option (gmap string file) :=
  if is_file m p then Some (delete p m) else None.

Fixpoint strip_prefix (pre s : string) : option string :=
  match pre, s with
  | EmptyString, _ => Some s
  | String a pre', String b s' =>
      if bool_decide (a = b) then strip_prefix pre' s' else None
  | String _ _, EmptyString => None
  end.

Definition no_slash (s : string) : bool :=
  forallb (λ a, negb (bool_decide (a = "/"%char)))
          (String.list_ascii_of_string s).

(** [os.listdir(d)], restricted to regular files: the names directly under
    [d]. *)
Definition listdir (m : gmap string file) (d : string) : list string :=
  omap (λ p, match strip_prefix (OsPath.dir_prefix d) p with
             | Some name =>
                 if nonempty name && no_slash name then Some name else None
             | None => None
             end)
       (elements (dom m)).

(** ** core/generator.py *)

Module Generator.

(** [datetime.timedelta], normalised: [0 <= seconds < 86400] and
    [0 <= microseconds < 1000000]. *)
Record timedelta := {
  td_days : Z;
  td_seconds : Z;
  td_microseconds : Z
}.

Definition timedelta_of_microseconds (us : Z) : timedelta :=
  {| td_days := us / 86400000000;
     td_seconds := (us mod 86400000000) / 1000000;
     td_microseconds := us mod 1000000 |}.

(** [format_timestamp(seconds, format_type)], generator.py 12-26 *)
Definition format_timestamp (us : Z) (format_type : string) : exn + string :=
  let td := timedelta_of_microseconds us in
  let hours := td_seconds td / 3600 in
  let remainder := td_seconds td mod 3600 in
  let minutes := remainder / 60 in
  let seconds := remainder mod 60 in
  let milliseconds := td_microseconds td / 1000 in
  if bool_decide (format_type = "srt") then
    inr (Py.format_0d 2 hours +:+ ":" +:+ Py.format_0d 2 minutes +:+ ":" +:+
         Py.format_0d 2 seconds +:+ "," +:+ Py.format_0d 3 milliseconds)
  else if bool_decide (format_type = "vtt") then
    inr (Py.format_0d 2 hours +:+ ":" +:+ Py.format_0d 2 minutes +:+ ":" +:+
         Py.format_0d 2 seconds +:+ "." +:+ Py.format_0d 3 milliseconds)
  else inl (ValueError ("Unsupported format type: " +:+ format_type)).

(** The [for word in words] loop, generator.py 168-176. *)
Fixpoint wrap_loop (max_line_length : Z) (words : list string)
    (lines : list string) (current_line : string) : list string * string :=
  match words with
  | [] => (lines, current_line)
  | word :: rest =>
      if (Py.len current_line + Py.len word + 1 >? max_line_length)
         && nonempty current_line
      then wrap_loop max_line_length rest (lines ++ [current_line]) word
      else if nonempty current_line
      then wrap_loop max_line_length rest lines
             (current_line +:+ " " +:+ word)
      else wrap_loop max_line_length rest lines word
  end.

(** generator.py 164-179: the lines the wrapping produces. *)
Definition wrap_lines (max_line_length : Z) (text : string) : list string :=
  let '(lines, current_line) :=
    wrap_loop max_line_length (Py.split text) [] EmptyString in
  if nonempty current_line then lines ++ [current_line] else lines.

(** generator.py 161-181 *)
Definition apply_max_line_length (max_line_length : option Z) (text : string)
  : string :=
  match max_line_length with
  | Some m =>
      if negb (m =? 0) && (Py.len text >? m)
      then Py.join nl (wrap_lines m text)
      else text
  | None => text
  end.

(** One iteration of the segment loop, generator.py 157-194: what it writes,
    or the exception [format_timestamp] raises before anything is written. *)
Definition write_entry (format_type : string) (max_line_length : option Z)
    (i : Z) (seg : segment) : exn + string :=
  let text := apply_max_line_length max_line_length (Py.strip (seg_text seg)) in
  match format_timestamp (seg_start seg) format_type with
  | inl e => inl e
  | inr start_formatted =>
      match format_timestamp (seg_end seg) format_type with
      | inl e => inl e
      | inr end_formatted =>
          if bool_decide (format_type = "srt") then
            inr (Py.str_int i +:+ nl +:+
                 start_formatted +:+ " --> " +:+ end_formatted +:+ nl +:+
                 text +:+ nl +:+ nl)
          else if bool_decide (format_type = "vtt") then
            inr (start_formatted +:+ " --> " +:+ end_formatted +:+ nl +:+
                 text +:+ nl +:+ nl)
          else inr EmptyString
      end
  end.

(** The segment loop: the text written so far and the exception that
    stopped it, if any. *)
Fixpoint write_segments (format_type : string) (max_line_length : option Z)
    (i : Z) (segments : list segment) (written : string)
  : string * option exn :=
  match segments with
  | [] => (written, None)
  | seg :: rest =>
      match write_entry format_type max_line_length i seg with
      | inl e => (written, Some e)
      | inr s =>
          write_segments format_type max_line_length (i + 1) rest
            (written +:+ s)
      end
  end.

(** The body of the [with open(output_file, "w")] block, generator.py
    151-194. *)
Definition render (format_type : string) (max_line_length : option Z)
    (segments : list segment) : string * option exn :=
  write_segments format_type max_line_length 1 segments
    (if bool_decide (format_type = "vtt") then "WEBVTT" +:+ nl +:+ nl
     else EmptyString).

(** generator.py 127-132: load the model, on the CPU if the device fails. *)
Definition load_model (w : World) (model_name : string) (dev : device)
  : M device :=
  match whisper_load_model w model_name dev with
  | None => mret dev
  | Some _ =>
      raise_if (whisper_load_model w model_name cpu);;
      mret cpu
  end.

(** [generate_subtitles(audio_file, output_file, format_type, model_name,
    language, max_line_length, device=device)], generator.py 106-197, as the
    worker calls it ([transcription_result] is [None], [output_file] is
    given). *)
Definition generate_subtitles (w : World) (audio_file output_file : string)
    (format_type model_name : string) (language : option string)
    (max_line_length : option Z) (dev : device) : M string :=
  dev' ← load_model w model_name dev;
  segments ← lift_result
    (whisper_transcribe w model_name dev' audio_file
       (if Py.truthy language then language else None));
  raise_if (open_w w output_file);;
  let '(content, err) := render format_type max_line_length segments in
  put_file output_file (Data content);;
  raise_if err;;
  mret output_file.

(** [extract_audio(video_file)], generator.py 28-104, with the default
    [audio_format="mp3"]. *)
Definition extract_audio (w : World) (video_file : string) : M string :=
  let output_audio := (OsPath.splitext video_file).1 +:+ ".mp3" in
  audio ← lift_result (ffmpeg w video_file);
  put_file output_audio (Data audio);;
  mret output_audio.

End Generator.

(** ** utils/obs_storage.py *)

Module OBSStorage.

(** [OBSStorage.upload_file(local_file_path)], obs_storage.py 65-108, with
    [object_key=None]: the success flag and the object URL or the error
    message. Every exception of the upload is caught inside. *)
Definition upload_file (w : World) (m : gmap string file)
    (local_file_path : string) : bool * string :=
  if negb (obs_enabled w) then (false, "OBS存储未启用")
  else if negb (is_file m local_file_path)
  then (false, "本地文件不存在: " +:+ local_file_path)
  else
    let object_key := OsPath.basename local_file_path in
    match s3_upload_file w local_file_path object_key with
    | Some e => (false, "上传文件到OBS失败: " +:+ str_exn e)
    | None =>
        (true,
         if Py.startswith (OBS_ENDPOINT w) "http"
         then OBS_ENDPOINT w +:+ "/" +:+ OBS_SUBTITLES_BUCKET w +:+ "/"
                +:+ object_key
         else "https://" +:+ OBS_ENDPOINT w +:+ "/" +:+ OBS_SUBTITLES_BUCKET w
                +:+ "/" +:+ object_key)
    end.

End OBSStorage.

(** ** api/worker.py *)

Module Worker.

(** [download_media(url, task_id)], worker.py 56-82. A failure of the
    request leaves no file; a failure while the body streams is not
    distinguished from it. *)
Definition download_media (w : World) (url task_id : string) : M string :=
  let ext := Py.lower (Py.last_dot_field url) in
  let ext := if Py.mem ext ALLOWED_EXTENSIONS then ext else "mp4" in
  let filename := task_id +:+ "." +:+ ext in
  let filepath := OsPath.join (UPLOAD_FOLDER w) filename in
  body ← lift_result (requests_get w url);
  raise_if (open_w w filepath);;
  put_file filepath (Data body);;
  mret filepath.

(** worker.py 92-103: [default_options.update(options)] *)
Definition merge_options (options : OptionsArg) : Options :=
  {| opt_model := default "base" (arg_model options);
     opt_language := arg_language options;
     opt_format := default "srt" (arg_format options);
     opt_max_line_length := arg_max_line_length options;
     opt_cpu := default false (arg_cpu options);
     opt_no_mps := default false (arg_no_mps options);
     opt_media_key := arg_media_key options |}.

(** worker.py 120-125 *)
Definition local_paths (w : World) (media_key : string) : list string :=
  [OsPath.join (UPLOAD_FOLDER w) media_key;
   OsPath.join (UPLOAD_FOLDER w) (media_key +:+ ".mp4");
   OsPath.join (VIDEOS_FOLDER w) media_key;
   OsPath.join (VIDEOS_FOLDER w) (media_key +:+ ".mp4")].

(** worker.py 136: the extensions the lookup tries. *)
Definition LOOKUP_EXTENSIONS : list string :=
  ["mp4"; "avi"; "mov"; "mkv"; "webm"; "flv"; "wmv";
   "mp3"; "wav"; "ogg"; "flac"; "m4a"].

(** worker.py 136-141: the inner loop, left at the first file found. *)
Fixpoint try_extensions (m : gmap string file) (base_path : string)
    (exts : list string) : option string :=
  match exts with
  | [] => None
  | ext :: rest =>
      if negb (Py.endswith base_path ("." +:+ ext)) then
        let test_path := (OsPath.splitext base_path).1 +:+ "." +:+ ext in
        if is_file m test_path then Some test_path
        else try_extensions m base_path rest
      else try_extensions m base_path rest
  end.

(** worker.py 128-144: the outer loop over [local_paths]. *)
Fixpoint find_local_media (m : gmap string file) (paths : list string)
  : option string :=
  match paths with
  | [] => None
  | base_path :: rest =>
      if is_file m base_path then Some base_path
      else match try_extensions m base_path LOOKUP_EXTENSIONS with
           | Some test_path => Some test_path
           | None => find_local_media m rest
           end
  end.

(** worker.py 113-161: the local media file of the task. *)
Definition resolve_media (w : World) (task_id : string)
    (media_url : option string) (options : Options) : M string :=
  if Py.truthy (opt_media_key options) then
    let media_key := default EmptyString (opt_media_key options) in
    m ← get_fs;
    match find_local_media m (local_paths w media_key) with
    | Some media_path => mret media_path
    | None =>
        raise (FileNotFoundError
                 ("找不到与media_key: " +:+ media_key +:+ "匹配的本地媒体文件"))
    end
  else
    if negb (Py.truthy media_url)
       || bool_decide (Py.strip (default EmptyString media_url) = EmptyString)
    then raise (ValueError "未提供media_key或有效的media_url")
    else
      update_state DOWNLOADING 10;;
      download_media w (default EmptyString media_url) task_id.

(** worker.py 164-178 *)
Definition select_device (w : World) (options : Options) : device :=
  if negb (opt_cpu options) then
    if mps_is_available w && negb (opt_no_mps options) then
      match torch_device_mps w with
      | None => mps
      | Some _ => cpu
      end
    else if cuda_is_available w then cuda
    else cpu
  else cpu.

Definition VIDEO_EXTENSIONS : list string :=
  ["mp4"; "avi"; "mov"; "mkv"; "webm"; "flv"; "wmv"].

(** worker.py 181 *)
Definition is_video (media_path : string) : bool :=
  Py.mem (Py.lower (Py.last_dot_field media_path)) VIDEO_EXTENSIONS.

(** worker.py 215-261: publish the subtitle file. The file read back is the
    one [generate_subtitles] has just written, raw content; the text of a
    record file, which never occurs here, is not modelled. *)
Definition publish (w : World) (task_id : string) (media_url : option string)
    (options : Options) (subtitle_file : string) : M task_return :=
  let subtitle_url := "/results/" +:+ OsPath.basename subtitle_file in
  m ← get_fs;
  let obs_url :=
    if USE_OBS_STORAGE w then
      let '(success, result) := OBSStorage.upload_file w m subtitle_file in
      if success then Some result else None
    else None in
  subtitle_content ←
    match m !! subtitle_file with
    | Some (Data content) => mret content
    | Some (Json _) => mret EmptyString
    | None => raise (FileNotFoundError subtitle_file)
    end;
  let result :=
    {| rec_task_id := task_id;
       rec_status := "SUCCESS";
       rec_subtitle_file := OsPath.basename subtitle_file;
       rec_subtitle_content := subtitle_content;
       rec_media_url := media_url;
       rec_options := options;
       rec_obs_url := if Py.truthy obs_url then obs_url else None |} in
  let json_path := OsPath.join (RESULT_FOLDER w) (task_id +:+ ".json") in
  raise_if (open_w w json_path);;
  put_file json_path (Json result);;
  mret (Completed
    {| resp_status := TASK_STATUS SUCCESS;
       resp_progress := 100;
       resp_task_id := task_id;
       resp_subtitle_file := OsPath.basename subtitle_file;
       resp_subtitle_url := subtitle_url;
       resp_obs_url := if Py.truthy obs_url then obs_url else None |}).

(** worker.py 111-261: the body of the [try]. *)
Definition task_body (w : World) (task_id : string)
    (media_url : option string) (options : Options) : M task_return :=
  media_path ← resolve_media w task_id media_url options;
  let dev := select_device w options in
  audio_path ←
    (if is_video media_path
     then update_state EXTRACTING 30;; Generator.extract_audio w media_path
     else mret media_path);
  update_state TRANSCRIBING 50;;
  let output_file :=
    OsPath.join (RESULT_FOLDER w) (task_id +:+ "." +:+ opt_format options) in
  subtitle_file ←
    Generator.generate_subtitles w audio_path output_file
      (opt_format options) (opt_model options) (opt_language options)
      (opt_max_line_length options) dev;
  publish w task_id media_url options subtitle_file.

(** [generate_subtitle_task(self, media_url, options)], worker.py 84-268,
    with [task_id = self.request.id]. *)
Definition generate_subtitle_task (w : World) (task_id : string)
    (media_url : option string) (options : OptionsArg) : M task_return :=
  let options := merge_options options in
  update_state STARTED 0;;
  try_except (task_body w task_id media_url options)
    (λ e, mret (Failed {| fail_status := TASK_STATUS FAILURE;
                          fail_error := str_exn e |})).

End Worker.

(** ** Celery's result backend

    What [AsyncResult(task_id)] shows: [state] and [info]. *)

Inductive info :=
| InfoNone
| InfoMeta (m : meta)
| InfoReturn (r : task_return)
| InfoExc (e : exn).

(** Celery stores the value a task function returns under [SUCCESS] and an
    exception that leaves it under [FAILURE]. *)
Definition celery_store (outcome : exn + task_return) : celery_state * info :=
  match outcome with
  | inr r => (SUCCESS, InfoReturn r)
  | inl e => (FAILURE, InfoExc e)
  end.

Definition initial_state (m : gmap string file) : env_state :=
  {| fs := m; updates := [] |}.

(** The successive backend entries of one task, from submission to the end
    of its execution on the file system [m]. *)
Definition lifetime (w : World) (m : gmap string file) (task_id : string)
    (media_url : option string) (options : OptionsArg)
  : list (celery_state * info) :=
  let '(outcome, s) :=
    Worker.generate_subtitle_task w task_id media_url options
      (initial_state m) in
  (PENDING, InfoNone)
    :: ((λ u : celery_state * meta, (u.1, InfoMeta u.2)) <$> updates s)
    ++ [celery_store outcome].

(** The entry the backend holds once the task has run. *)
Definition final_entry (w : World) (m : gmap string file) (task_id : string)
    (media_url : option string) (options : OptionsArg) : celery_state * info :=
  celery_store
    (Worker.generate_subtitle_task w task_id media_url options
       (initial_state m)).1.

(** The file system the task leaves. *)
Definition final_fs (w : World) (m : gmap string file) (task_id : string)
    (media_url : option string) (options : OptionsArg) : gmap string file :=
  fs (Worker.generate_subtitle_task w task_id media_url options
        (initial_state m)).2.

(** ** api/app.py *)

Module App.

Record SubtitleRequest := {
  req_media_url : option string;
  req_media_key : option string;
  req_model : string;
  req_language : option string;
  req_format : string;
  req_max_line_length : option Z;
  req_cpu : bool;
  req_no_mps : bool
}.

Record HTTPException := {
  status_code : Z;
  detail : string
}.

(** The arguments of [generate_subtitle_task.delay(media_url, options)]. *)
Record delayed_call := {
  call_media_url : option string;
  call_options : OptionsArg
}.

(** [create_subtitle_task(request)], app.py 156-193: the rejection or the
    task put on the queue. *)
Definition create_subtitle_task (request : SubtitleRequest)
  : HTTPException + delayed_call :=
  if negb (Py.truthy (req_media_url request))
     && negb (Py.truthy (req_media_key request))
  then inl {| status_code := 400;
              detail := "必须提供media_url或media_key参数之一" |}
  else
    let options (key : option string) :=
      {| arg_model := Some (req_model request);
         arg_language := req_language request;
         arg_format := Some (req_format request);
         arg_max_line_length := req_max_line_length request;
         arg_cpu := Some (req_cpu request);
         arg_no_mps := Some (req_no_mps request);
         arg_media_key := key |} in
    if Py.truthy (req_media_key request)
    then inr {| call_media_url := None;
                call_options := options (req_media_key request) |}
    else inr {| call_media_url := req_media_url request;
                call_options := options None |}.

Record TaskStatusResponse := {
  tsr_task_id : string;
  tsr_status : string;
  tsr_progress : Z;
  tsr_result : option task_return;
  tsr_error : option string
}.

(** [task.info.get('error', 'Unknown error')] *)
Definition info_get_error (i : info) : exn + string :=
  match i with
  | InfoMeta _ => inr "Unknown error"
  | InfoReturn (Failed r) => inr (fail_error r)
  | InfoReturn (Completed _) => inr "Unknown error"
  | InfoNone => inl (AttributeError "'NoneType' object has no attribute 'get'")
  | InfoExc _ => inl (AttributeError "exception object has no attribute 'get'")
  end.

(** [task.info.get('progress', 0)] *)
Definition info_get_progress (i : info) : exn + Z :=
  match i with
  | InfoMeta m => inr (meta_progress m)
  | InfoReturn (Completed r) => inr (resp_progress r)
  | InfoReturn (Failed _) => inr 0
  | InfoNone => inl (AttributeError "'NoneType' object has no attribute 'get'")
  | InfoExc _ => inl (AttributeError "exception object has no attribute 'get'")
  end.

(** [get_subtitle_task(task_id)], app.py 195-230, on the backend entry of
    the task. *)
Definition get_subtitle_task (entry : celery_state * info) (task_id : string)
  : exn + TaskStatusResponse :=
  let '(state, i) := entry in
  let response status progress result error :=
    {| tsr_task_id := task_id; tsr_status := status; tsr_progress := progress;
       tsr_result := result; tsr_error := error |} in
  match state with
  | PENDING => inr (response (TASK_STATUS PENDING) 0 None None)
  | FAILURE =>
      match info_get_error i with
      | inl e => inl e
      | inr msg => inr (response (TASK_STATUS FAILURE) 0 None (Some msg))
      end
  | STARTED | DOWNLOADING | EXTRACTING | TRANSCRIBING =>
      match info_get_progress i with
      | inl e => inl e
      | inr p => inr (response (TASK_STATUS state) p None None)
      end
  | SUCCESS =>
      inr (response (TASK_STATUS SUCCESS) 100
             (match i with InfoReturn r => Some r | _ => None end) None)
  | RETRY | REVOKED => inr (response EmptyString 0 None None)
  end.

(** [list_tasks()], app.py 261-281: a file that [json.load] rejects is
    skipped. *)
Definition list_tasks (w : World) (m : gmap string file) : list TaskRecord :=
  omap (λ filename,
          if Py.endswith filename ".json" then
            match m !! OsPath.join (RESULT_FOLDER w) filename with
            | Some (Json task_data) =>
                let task_id := (OsPath.splitext filename).1 in
                Some {| rec_task_id := task_id;
                        rec_status := rec_status task_data;
                        rec_subtitle_file := rec_subtitle_file task_data;
                        rec_subtitle_content := rec_subtitle_content task_data;
                        rec_media_url := rec_media_url task_data;
                        rec_options := rec_options task_data;
                        rec_obs_url := rec_obs_url task_data |}
            | _ => None
            end
          else None)
       (listdir m (RESULT_FOLDER w)).

Definition RESULT_EXTENSIONS : list string :=
  ["json"; "srt"; "vtt"; "mp3"; "wav"; "ogg"; "flac"; "m4a"].

(** app.py 299-306 and 309-316: one deletion loop over a folder. *)
Fixpoint delete_loop (folder task_id : string) (exts : list string)
    (m : gmap string file) (deleted_files : list string)
  : gmap string file * list string :=
  match exts with
  | [] => (m, deleted_files)
  | ext :: rest =>
      let file_path := OsPath.join folder (task_id +:+ "." +:+ ext) in
      if is_file m file_path then
        match os_remove m file_path with
        | Some m' =>
            delete_loop folder task_id rest m'
              (deleted_files ++ [OsPath.basename file_path])
        | None => delete_loop folder task_id rest m deleted_files
        end
      else delete_loop folder task_id rest m deleted_files
  end.

(** [delete_task(task_id)], app.py 283-318: the 404, or the file system
    left and the [deleted_files] reported. *)
Definition delete_task (w : World) (m : gmap string file) (task_id : string)
  : HTTPException + gmap string file * list string :=
  let json_file := OsPath.join (RESULT_FOLDER w) (task_id +:+ ".json") in
  if negb (is_file m json_file)
  then inl {| status_code := 404; detail := "任务不存在" |}
  else
    let '(m1, deleted1) :=
      delete_loop (RESULT_FOLDER w) task_id RESULT_EXTENSIONS m [] in
    inr (delete_loop (UPLOAD_FOLDER w) task_id ALLOWED_EXTENSIONS m1 deleted1).

End App.

(** ** Specification-side vocabulary *)

(** The words of each line the wrapping loop builds: [current] holds the
    words of the line being filled. *)
Fixpoint wrap_groups (max_line_length : Z) (words : list string)
    (current : list string) : list (list string) :=
  match words with
  | [] => match current with [] => [] | _ => [current] end
  | word :: rest =>
      if (Py.len (Py.join " " current) + Py.len word + 1 >? max_line_length)
         && nonempty (Py.join " " current)
      then current :: wrap_groups max_line_length rest [word]
      else wrap_groups max_line_length rest (current ++ [word])
  end.

(** Every line break was forced: the first word of the next line did not fit
    on the line before it. *)
Fixpoint greedy_breaks (max_line_length : Z) (groups : list (list string))
  : Prop :=
  match groups with
  | [] => True
  | g :: rest =>
      match rest with
      | (word :: _) :: _ =>
          max_line_length < Py.len (Py.join " " g) + 1 + Py.len word
      | _ => True
      end ∧ greedy_breaks max_line_length rest
  end.

(** A deployment to evaluate the code on: CUDA present, every collaborator
    succeeding, one transcribed segment. *)
Definition example_segments : list segment :=
  [{| seg_start := 0; seg_end := 2500000; seg_text := " Hello world " |}].

Definition example_world : World :=
  {| UPLOAD_FOLDER := "/srv/uploads";
     RESULT_FOLDER := "/srv/results";
     VIDEOS_FOLDER := "/srv/videos";
     USE_OBS_STORAGE := false;
     OBS_ENDPOINT := "obs.example.com";
     OBS_SUBTITLES_BUCKET := "srts";
     obs_enabled := false;
     mps_is_available := false;
     cuda_is_available := true;
     torch_device_mps := None;
     requests_get := λ _, inr "media-bytes";
     ffmpeg := λ _, inr "audio-bytes";
     whisper_load_model := λ _ _, None;
     whisper_transcribe := λ _ _ _ _, inr example_segments;
     s3_upload_file := λ _ _, None;
     open_w := λ _, None |}.

(** [w] with other outcomes for the download, the transcription and the
    object store. *)
Definition world_with (w : World)
    (get : string → exn + string)
    (transcribe : string → device → string → option string
                  → exn + list segment)
    (use_obs enabled : bool) (upload : string → string → option exn)
  : World :=
  {| UPLOAD_FOLDER := UPLOAD_FOLDER w;
     RESULT_FOLDER := RESULT_FOLDER w;
     VIDEOS_FOLDER := VIDEOS_FOLDER w;
     USE_OBS_STORAGE := use_obs;
     OBS_ENDPOINT := OBS_ENDPOINT w;
     OBS_SUBTITLES_BUCKET := OBS_SUBTITLES_BUCKET w;
     obs_enabled := enabled;
     mps_is_available := mps_is_available w;
     cuda_is_available := cuda_is_available w;
     torch_device_mps := torch_device_mps w;
     requests_get := get;
     ffmpeg := ffmpeg w;
     whisper_load_model := whisper_load_model w;
     whisper_transcribe := transcribe;
     s3_upload_file := upload;
     open_w := open_w w |}.

(** The same deployment with object storage switched off. *)
Definition without_obs (w : World) : World :=
  world_with w (requests_get w) (whisper_transcribe w) false (obs_enabled w)
    (s3_upload_file w).

(** The host of the URL cannot be reached. *)
Definition unreachable_world : World :=
  world_with example_world (λ _, inl (ExternalError "Connection refused"))
    (whisper_transcribe example_world) false false
    (s3_upload_file example_world).

(** Transcription fails on CUDA and would succeed on the CPU. *)
Definition cuda_failing_world : World :=
  world_with example_world (requests_get example_world)
    (λ _ dev _ _,
       match dev with
       | cpu => inr example_segments
       | _ => inl (ExternalError "CUDA out of memory")
       end)
    false false (s3_upload_file example_world).

(** The options the submission endpoint passes for a request that sets
    nothing but the media reference. *)
Definition default_args (format : string) (media_key : option string)
  : OptionsArg :=
  {| arg_model := Some "base";
     arg_language := None;
     arg_format := Some format;
     arg_max_line_length := None;
     arg_cpu := Some false;
     arg_no_mps := Some false;
     arg_media_key := media_key |}.

Definition failed (error : string) : task_return :=
  Failed {| fail_status := TASK_STATUS FAILURE; fail_error := error |}.

(** The digit character of [d], [0 <= d < 10]. *)
Definition digit (d : Z) : ascii := Ascii.ascii_of_N (48 + Z.to_N d).

Definition two_digits (n : Z) : string :=
  String (digit (n / 10)) (String (digit (n mod 10)) EmptyString).

Definition three_digits (n : Z) : string :=
  String (digit (n / 100)) (two_digits (n mod 100)).

(** The fields [format_timestamp] prints: hours, minutes and seconds of
    [timedelta.seconds], milliseconds of [timedelta.microseconds]. *)
Definition clock_hours (us : Z) : Z := (us mod 86400000000) / 1000000 / 3600.
Definition clock_minutes (us : Z) : Z :=
  ((us mod 86400000000) / 1000000) mod 3600 / 60.
Definition clock_seconds (us : Z) : Z :=
  (((us mod 86400000000) / 1000000) mod 3600) mod 60.
Definition clock_millis (us : Z) : Z := (us mod 1000000) / 1000.

(** [HH:MM:SS<sep>mmm] *)
Definition clock (sep : string) (us : Z) : string :=
  two_digits (clock_hours us) +:+ ":" +:+ two_digits (clock_minutes us)
  +:+ ":" +:+ two_digits (clock_seconds us) +:+ sep
  +:+ three_digits (clock_millis us).

(** The text of a block: the stripped segment text, wrapped if asked. *)
Definition block_text (max_line_length : option Z) (seg : segment) : string :=
  Generator.apply_max_line_length max_line_length (Py.strip (seg_text seg)).

Definition srt_block (max_line_length : option Z) (i : Z) (seg : segment)
  : string :=
  Py.str_int i +:+ nl +:+
  clock "," (seg_start seg) +:+ " --> " +:+ clock "," (seg_end seg) +:+ nl +:+
  block_text max_line_length seg +:+ nl +:+ nl.

Definition vtt_block (max_line_length : option Z) (i : Z) (seg : segment)
  : string :=
  clock "." (seg_start seg) +:+ " --> " +:+ clock "." (seg_end seg) +:+ nl +:+
  block_text max_line_length seg +:+ nl +:+ nl.

(** The blocks of the segments, numbered from [i]. *)
Fixpoint blocks (block : Z → segment → string) (i : Z)
    (segments : list segment) : string :=
  match segments with
  | [] => EmptyString
  | seg :: rest => block i seg +:+ blocks block (i + 1) rest
  end.

(** A segment that starts 25 hours into the recording. *)
Definition late_segment : segment :=
  {| seg_start := 90000000000; seg_end := 90005500000; seg_text := "Hello" |}.

(** A request that sets nothing but its media references. *)
Definition request_with (media_url media_key : option string)
  : App.SubtitleRequest :=
  {| App.req_media_url := media_url;
     App.req_media_key := media_key;
     App.req_model := "base";
     App.req_language := None;
     App.req_format := "srt";
     App.req_max_line_length := None;
     App.req_cpu := false;
     App.req_no_mps := false |}.

(** Whether the task goes through the download: no media key, and a URL
    that is not blank. *)
Definition downloads (media_url : option string) (options : Options) : bool :=
  negb (Py.truthy (opt_media_key options))
  && negb (negb (Py.truthy media_url)
           || bool_decide (Py.strip (default EmptyString media_url)
                           = EmptyString)).

(** The entry [update_state] appends. *)
Definition published (st : celery_state) (progress : Z) : celery_state * meta :=
  (st, {| meta_status := TASK_STATUS st; meta_progress := progress |}).

(** The progress checkpoint of each state. *)
Definition checkpoint (st : celery_state) : Z :=
  match st with
  | DOWNLOADING => 10
  | EXTRACTING => 30
  | TRANSCRIBING => 50
  | SUCCESS => 100
  | _ => 0
  end.

(** The answers of the status query over the lifetime of a task. *)
Definition status_queries (task_id : string)
    (entries : list (celery_state * info))
  : list (exn + App.TaskStatusResponse) :=
  (λ entry, App.get_subtitle_task entry task_id) <$> entries.

(** The paths tried from one base path: the base itself, then its root with
    each extension it does not already end with. *)
Definition extension_variants (base_path : string) (exts : list string)
  : list string :=
  (λ ext, (OsPath.splitext base_path).1 +:+ "." +:+ ext)
    <$> filter (λ ext, Py.endswith base_path ("." +:+ ext) = false) exts.

(** Every path the lookup of a media key tries, in the order it tries
    them. *)
Definition lookup_candidates (w : World) (media_key : string) : list string :=
  concat ((λ base_path,
             base_path
               :: extension_variants base_path Worker.LOOKUP_EXTENSIONS)
          <$> Worker.local_paths w media_key).

(** The first path of a list that is a regular file. *)
Definition first_existing (m : gmap string file) (paths : list string)
  : option string :=
  head (filter (λ p, is_Some (m !! p)) paths).

(** The candidates as the key and the key followed by an extension, in each
    directory. *)
Definition key_plus_extension_candidates (w : World) (media_key : string)
  : list string :=
  concat ((λ dir,
             OsPath.join dir media_key
               :: ((λ ext, OsPath.join dir (media_key +:+ "." +:+ ext))
                   <$> Worker.LOOKUP_EXTENSIONS))
          <$> [UPLOAD_FOLDER w; VIDEOS_FOLDER w]).

(** The message of the lookup that finds nothing. *)
Definition not_found_message (media_key : string) : string :=
  "找不到与media_key: " +:+ media_key +:+ "匹配的本地媒体文件".

(** A staging folder that holds [movie.avi] and nothing else. *)
Definition movie_avi_only : gmap string file :=
  {[ "/srv/uploads/movie.avi" := Data "avi-bytes" ]}.

(** The path of the record of a task. *)
Definition record_path (w : World) (task_id : string) : string :=
  OsPath.join (RESULT_FOLDER w) (task_id +:+ ".json").

(** Everything of the task before the result is published, worker.py
    113-213: the subtitle file written. *)
Definition produce_subtitles (w : World) (task_id : string)
    (media_url : option string) (options : Options) : M string :=
  media_path ← Worker.resolve_media w task_id media_url options;
  audio_path ←
    (if Worker.is_video media_path
     then update_state EXTRACTING 30;; Generator.extract_audio w media_path
     else mret media_path);
  update_state TRANSCRIBING 50;;
  Generator.generate_subtitles w audio_path
    (OsPath.join (RESULT_FOLDER w) (task_id +:+ "." +:+ opt_format options))
    (opt_format options) (opt_model options) (opt_language options)
    (opt_max_line_length options) (Worker.select_device w options).

(** The record and the response of a task published without a remote
    URL. *)
Definition local_record (task_id : string) (media_url : option string)
    (options : Options) (subtitle_file content : string) : TaskRecord :=
  {| rec_task_id := task_id;
     rec_status := "SUCCESS";
     rec_subtitle_file := OsPath.basename subtitle_file;
     rec_subtitle_content := content;
     rec_media_url := media_url;
     rec_options := options;
     rec_obs_url := None |}.

Definition local_response (task_id subtitle_file : string) : task_return :=
  Completed
    {| resp_status := TASK_STATUS SUCCESS;
       resp_progress := 100;
       resp_task_id := task_id;
       resp_subtitle_file := OsPath.basename subtitle_file;
       resp_subtitle_url := "/results/" +:+ OsPath.basename subtitle_file;
       resp_obs_url := None |}.

(** Object storage is enabled and every upload times out. *)
Definition upload_failing_world : World :=
  world_with example_world (requests_get example_world)
    (whisper_transcribe example_world) true true
    (λ _ _, Some (ExternalError "timed out")).

(** The format [txt] is accepted by the submission endpoint and is not one
    [format_timestamp] knows. *)
Definition txt_args : OptionsArg := default_args "txt" None.

(** The paths [delete_task] looks at: the id with each known extension, in
    the folder of results and in the folder of uploads. *)
Definition folder_paths (folder task_id : string) (exts : list string)
  : list string :=
  (λ ext, OsPath.join folder (task_id +:+ "." +:+ ext)) <$> exts.

Definition delete_candidates (w : World) (task_id : string) : list string :=
  folder_paths (RESULT_FOLDER w) task_id App.RESULT_EXTENSIONS
  ++ folder_paths (UPLOAD_FOLDER w) task_id ALLOWED_EXTENSIONS.

(** A record with the given id, and a file system with the artifacts of two
    completed tasks. *)
Definition example_record (task_id : string) : TaskRecord :=
  local_record task_id (Some "http://media.example/a.mp4")
    (Worker.merge_options (default_args "srt" None))
    ("/srv/results/" +:+ task_id +:+ ".srt") "subtitles".

Definition two_tasks : gmap string file :=
  {[ "/srv/results/t1.json" := Json (example_record "t1");
     "/srv/results/t1.srt" := Data "subtitles";
     "/srv/uploads/t1.mp4" := Data "media-bytes";
     "/srv/uploads/t1.mp3" := Data "audio-bytes";
     "/srv/results/t2.json" := Json (example_record "t2");
     "/srv/results/t2.srt" := Data "subtitles" ]}.

(** The state in which the body of the task starts: [STARTED] has been
    published. *)
Definition started_state (m : gmap string file) : env_state :=
  {| fs := m; updates := [published STARTED 0] |}.

(** The record cannot be written: [open] of [t1.json] is refused. *)
Definition record_write_failing_world : World :=
  {| UPLOAD_FOLDER := UPLOAD_FOLDER example_world;
     RESULT_FOLDER := RESULT_FOLDER example_world;
     VIDEOS_FOLDER := VIDEOS_FOLDER example_world;
     USE_OBS_STORAGE := false;
     OBS_ENDPOINT := OBS_ENDPOINT example_world;
     OBS_SUBTITLES_BUCKET := OBS_SUBTITLES_BUCKET example_world;
     obs_enabled := false;
     mps_is_available := false;
     cuda_is_available := true;
     torch_device_mps := None;
     requests_get := requests_get example_world;
     ffmpeg := ffmpeg example_world;
     whisper_load_model := whisper_load_model example_world;
     whisper_transcribe := whisper_transcribe example_world;
     s3_upload_file := s3_upload_file example_world;
     open_w := λ p, if bool_decide (p = "/srv/results/t1.json")
                    then Some (ExternalError "Permission denied") else None |}.

(** The character [c] does not occur in [s]. *)
Definition char_free (c : ascii) (s : string) : bool :=
  forallb (λ a, negb (bool_decide (a = c))) (String.list_ascii_of_string s).

(** A media key that is a plain name: not empty, without a slash and without
    a dot. *)
Definition plain_key (key : string) : bool :=
  nonempty key && char_free "/" key && char_free "." key.

(** A word of [split]: not empty. *)
Definition word_ok (s : string) : Prop := nonempty s = true.

(** The lines once the loop is left: the line being filled is kept if it is
    not empty. *)
Definition finish (r : list string * string) : list string :=
  if nonempty r.2 then r.1 ++ [r.2] else r.1.

(** A line is within the limit, or it is one single word. *)
Definition fits (max_line_length : Z) (g : list string) : Prop :=
  Py.len (Py.join " " g) ≤ max_line_length ∨ length g = 1%nat.

(** A computation that publishes no state. *)
Definition keeps_updates {A} (c : M A) : Prop :=
  ∀ s, updates (c s).2 = updates s.

(** A computation that writes no record: every record on the file system
    after it was there before it. *)
Definition keeps_records {A} (c : M A) : Prop :=
  ∀ s p r, fs (c s).2 !! p = Some (Json r) → fs s !! p = Some (Json r).

(** * Further code of the cited files, their callees and callers *)

(** ** utils/device_utils.py *)

Module DeviceUtils.

(** [get_optimal_device(no_mps, cpu)], device_utils.py 7-38 *)
Definition get_optimal_device (w : World) (no_mps cpu_flag : bool) : device :=
  if cpu_flag then cpu
  else if mps_is_available w && negb no_mps then
    match torch_device_mps w with
    | None => mps
    | Some _ => cpu
    end
  else if cuda_is_available w then cuda
  else cpu.

End DeviceUtils.

(** The processes and libraries the service and the command line start,
    beside those of [World]. *)
Record Server := {
  (** [subprocess.run(cmd, check=True, ...)] for an ffmpeg command: the
      exception, or the audio ffmpeg writes to its last argument *)
  subprocess_run : list string → exn + string;
  (** [str(e)] for an [HTTPException] *)
  str_http_exception : App.HTTPException → string
}.

(** ** core/generator.py, [extract_audio] with all its parameters *)

Module Core.

(** generator.py 47-89: the ffmpeg command. *)
Definition ffmpeg_cmd (video_file output_audio audio_format audio_quality
    : string) (sample_rate : Z) : list string :=
  ["ffmpeg"; "-i"; video_file; "-y"]
  ++ (if bool_decide (audio_format = "mp3") then
        ["-codec:a"; "libmp3lame"; "-b:a"; audio_quality;
         "-ar"; Py.str_int sample_rate]
      else if bool_decide (audio_format = "wav") then
        ["-codec:a"; "pcm_s16le"; "-ar"; Py.str_int sample_rate]
      else if bool_decide (audio_format = "ogg") then
        ["-codec:a"; "libvorbis"; "-b:a"; audio_quality;
         "-ar"; Py.str_int sample_rate]
      else if bool_decide (audio_format = "flac") then
        ["-codec:a"; "flac"; "-ar"; Py.str_int sample_rate]
      else if bool_decide (audio_format = "m4a") then
        ["-codec:a"; "aac"; "-b:a"; audio_quality;
         "-ar"; Py.str_int sample_rate]
      else ["-q:a"; "0"; "-map"; "a"])
  ++ [output_audio].

(** [extract_audio(video_file, output_audio, audio_format, audio_quality,
    sample_rate)], generator.py 28-104 *)
Definition extract_audio (sv : Server) (video_file : string)
    (output_audio : option string) (audio_format audio_quality : string)
    (sample_rate : Z) : M string :=
  let output_audio :=
    match output_audio with
    | Some path => path
    | None => (OsPath.splitext video_file).1 +:+ "." +:+ audio_format
    end in
  audio ← lift_result
    (subprocess_run sv
       (ffmpeg_cmd video_file output_audio audio_format audio_quality
          sample_rate));
  put_file output_audio (Data audio);;
  mret output_audio.

End Core.

(** ** api/app.py, the other endpoints *)

Module Api.

Record audio_response := {
  ar_task_id : string;
  ar_audio_url : string;
  ar_filename : string
}.

(** The [HTTPException] of the [except] branches, app.py 110 and 154. *)
Definition extraction_failure (msg : string) : App.HTTPException :=
  {| App.status_code := 500; App.detail := "音频提取失败: " +:+ msg |}.

(** [extract_audio_from_video_url(request)], app.py 76-110, with the uuid
    drawn for [task_id]. The [HTTPException] raised inside the [try] is an
    [Exception] and is caught by its [except]. *)
Definition extract_audio_from_video_url (w : World) (sv : Server)
    (task_id video_url audio_format : string)
  : env_state → (App.HTTPException + audio_response) * env_state := λ s,
  match Worker.download_media w video_url task_id s with
  | (inl e, s1) => (inl (extraction_failure (str_exn e)), s1)
  | (inr video_path, s1) =>
      let video_ext := Py.lower (Py.last_dot_field video_path) in
      if negb (Py.mem video_ext Worker.VIDEO_EXTENSIONS) then
        (inl (extraction_failure
                (str_http_exception sv
                   {| App.status_code := 400;
                      App.detail := "提供的URL不是视频文件" |})), s1)
      else
        match Core.extract_audio sv video_path
                (Some (OsPath.join (RESULT_FOLDER w)
                         (task_id +:+ "." +:+ audio_format)))
                "mp3" "192k" 44100 s1 with
        | (inl e, s2) => (inl (extraction_failure (str_exn e)), s2)
        | (inr audio_path, s2) =>
            (inr {| ar_task_id := task_id;
                    ar_audio_url := "/results/" +:+ OsPath.basename audio_path;
                    ar_filename := OsPath.basename audio_path |}, s2)
        end
  end.

(** app.py 152-153: [if os.path.exists(p): os.remove(p)]. Removing an
    existing file succeeds in the file system of the model. *)
Definition remove_if_exists (p : string) (s : env_state) : env_state :=
  if is_file (fs s) p then
    match os_remove (fs s) p with
    | Some m' => {| fs := m'; updates := updates s |}
    | None => s
    end
  else s.

(** [extract_audio_from_uploaded_video(file, audio_format)], app.py
    112-154, with the uuid drawn for [task_id]; [filename] and [content] are
    those of the uploaded file. *)
Definition extract_audio_from_uploaded_video (w : World) (sv : Server)
    (task_id filename content audio_format : string)
  : env_state → (App.HTTPException + audio_response) * env_state := λ s,
  let file_ext := Py.lower (Py.last_dot_field filename) in
  if negb (Py.mem file_ext Worker.VIDEO_EXTENSIONS) then
    (inl {| App.status_code := 400;
            App.detail := "上传的文件不是支持的视频格式" |}, s)
  else
    let video_path :=
      OsPath.join (UPLOAD_FOLDER w) (task_id +:+ "." +:+ file_ext) in
    match (raise_if (open_w w video_path);;
           put_file video_path (Data content);;
           Core.extract_audio sv video_path
             (Some (OsPath.join (RESULT_FOLDER w)
                      (task_id +:+ "." +:+ audio_format)))
             "mp3" "192k" 44100) s with
    | (inl e, s1) =>
        (inl (extraction_failure (str_exn e)), remove_if_exists video_path s1)
    | (inr audio_path, s1) =>
        (inr {| ar_task_id := task_id;
                ar_audio_url := "/results/" +:+ OsPath.basename audio_path;
                ar_filename := OsPath.basename audio_path |}, s1)
    end.

Inductive download_response :=
| RedirectResponse (url : string)
| FileResponse (path filename : string).

(** [download_subtitle(task_id)], app.py 232-259, on the backend entry of
    the task and the file system. *)
Definition download_subtitle (w : World) (m : gmap string file)
    (entry : celery_state * info) : App.HTTPException + download_response :=
  let '(state, i) := entry in
  if negb (bool_decide (state = SUCCESS)) then
    inl {| App.status_code := 404; App.detail := "任务未完成或不存在" |}
  else
    match i with
    | InfoReturn (Completed r) =>
        match resp_obs_url r with
        | Some url => inr (RedirectResponse url)
        | None =>
            let subtitle_file :=
              OsPath.join (RESULT_FOLDER w) (resp_subtitle_file r) in
            if is_file m subtitle_file
            then inr (FileResponse subtitle_file (resp_subtitle_file r))
            else inl {| App.status_code := 404;
                        App.detail := "字幕文件不存在" |}
        end
    | _ => inl {| App.status_code := 404; App.detail := "字幕文件不存在" |}
    end.

End Api.

(** ** cli/video_to_subtitle.py *)

Module Cli.

(** [os.remove(p)] inside [try ... except Exception: print]. *)
Definition remove_quietly (p : string) : M unit := λ s,
  match os_remove (fs s) p with
  | Some m' => (inr (), {| fs := m'; updates := updates s |})
  | None => (inr (), s)
  end.

(** video_to_subtitle.py 62-81: the device, chosen as the worker does. *)
Definition choose_device (w : World) (no_mps cpu_flag : bool) : device :=
  if negb cpu_flag then
    if mps_is_available w && negb no_mps then
      match torch_device_mps w with
      | None => mps
      | Some _ => cpu
      end
    else if cuda_is_available w then cuda
    else cpu
  else cpu.

(** [process_video_to_subtitle(...)], video_to_subtitle.py 13-114 *)
Definition process_video_to_subtitle (w : World) (sv : Server)
    (video_file : string) (output_subtitle : option string)
    (subtitle_format model_name : string) (language : option string)
    (max_line_length : option Z) (audio_format audio_quality : string)
    (sample_rate : Z) (keep_audio no_mps cpu_flag : bool) : M string :=
  audio_file ← Core.extract_audio sv video_file None audio_format
                 audio_quality sample_rate;
  let dev := choose_device w no_mps cpu_flag in
  let output_subtitle :=
    match output_subtitle with
    | Some path => path
    | None => (OsPath.splitext video_file).1 +:+ "." +:+ subtitle_format
    end in
  subtitle_file ←
    Generator.generate_subtitles w audio_file output_subtitle subtitle_format
      model_name language max_line_length dev;
  (if negb keep_audio && negb (bool_decide (audio_file = video_file))
   then remove_quietly audio_file
   else mret ());;
  mret subtitle_file.

End Cli.

(** ** Vocabulary of the further properties *)

(** The extension [download_media] gives the file of a URL. *)
Definition download_extension (url : string) : string :=
  if Py.mem (Py.lower (Py.last_dot_field url)) ALLOWED_EXTENSIONS
  then Py.lower (Py.last_dot_field url) else "mp4".

(** A computation that removes no file. *)
Definition keeps_files {A} (c : M A) : Prop :=
  ∀ s p, is_Some (fs s !! p) → is_Some (fs (c s).2 !! p).

(** No blank character occurs in [s]. *)
Definition blank_free (s : string) : bool :=
  forallb (λ a, negb (Py.isspace a)) (String.list_ascii_of_string s).

(** A task id that names files the way the service expects: not empty,
    without a slash, not starting with a dot. *)
Definition plain_id (task_id : string) : bool :=
  nonempty task_id && char_free "/" task_id
  && negb (Py.startswith task_id ".").

(** A deployment for the command line and the extraction endpoints. *)
Definition example_server : Server :=
  {| subprocess_run := λ _, inr "audio-bytes";
     str_http_exception := λ e, App.detail e |}.

(** Object storage is enabled and the upload succeeds. *)
Definition mirroring_world : World :=
  world_with example_world (requests_get example_world)
    (whisper_transcribe example_world) true true (λ _ _, None).

(** The word [split] has read so far, if it has read one. *)
Definition flush (cur : string) : list string :=
  match cur with EmptyString => [] | _ => [cur] end.

(** The model cannot be loaded on CUDA. *)
Definition load_failing_world : World :=
  {| UPLOAD_FOLDER := UPLOAD_FOLDER example_world;
     RESULT_FOLDER := RESULT_FOLDER example_world;
     VIDEOS_FOLDER := VIDEOS_FOLDER example_world;
     USE_OBS_STORAGE := false;
     OBS_ENDPOINT := OBS_ENDPOINT example_world;
     OBS_SUBTITLES_BUCKET := OBS_SUBTITLES_BUCKET example_world;
     obs_enabled := false;
     mps_is_available := false;
     cuda_is_available := true;
     torch_device_mps := None;
     requests_get := requests_get example_world;
     ffmpeg := ffmpeg example_world;
     whisper_load_model := λ _ dev,
       match dev with
       | cuda => Some (ExternalError "CUDA out of memory")
       | _ => None
       end;
     whisper_transcribe := whisper_transcribe example_world;
     s3_upload_file := s3_upload_file example_world;
     open_w := open_w example_world |}.

(** The audio extensions among [ALLOWED_EXTENSIONS], settings.py 29-32. *)
Definition AUDIO_EXTENSIONS : list string :=
  ["mp3"; "wav"; "ogg"; "flac"; "m4a"].

(** The URL of the object the store keeps for a file name. *)
Definition object_url (w : World) (name : string) : string :=
  (if Py.startswith (OBS_ENDPOINT w) "http" then EmptyString else "https://")
  +:+ OBS_ENDPOINT w +:+ "/" +:+ OBS_SUBTITLES_BUCKET w +:+ "/" +:+ name.

(** The name and the path of the subtitle file of a task. *)
Definition subtitle_name (task_id : string) (options : OptionsArg) : string :=
  task_id +:+ "." +:+ opt_format (Worker.merge_options options).

Definition subtitle_path (w : World) (task_id : string)
    (options : OptionsArg) : string :=
  OsPath.join (RESULT_FOLDER w) (subtitle_name task_id options).

Definition not_found (detail : string) : App.HTTPException :=
  {| App.status_code := 404; App.detail := detail |}.

(** The response of the completed task [t1] with format srt. *)
Definition example_response (obs_url : option string) : success_response :=
  {| resp_status := TASK_STATUS SUCCESS;
     resp_progress := 100;
     resp_task_id := "t1";
     resp_subtitle_file := "t1.srt";
     resp_subtitle_url := "/results/t1.srt";
     resp_obs_url := obs_url |}.

(** The command the extraction endpoints run: MP3 at 192k and 44100 Hz. *)
Definition mp3_command (video_path audio_path : string) : list string :=
  ["ffmpeg"; "-i"; video_path; "-y"; "-codec:a"; "libmp3lame";
   "-b:a"; "192k"; "-ar"; "44100"; audio_path].

(** The answer of the extraction endpoints for an audio file name. *)
Definition extracted (task_id name : string) : Api.audio_response :=
  {| Api.ar_task_id := task_id;
     Api.ar_audio_url := "/results/" +:+ name;
     Api.ar_filename := name |}.

(** ffmpeg fails on every command. *)
Definition failing_server : Server :=
  {| subprocess_run := λ _, inl (ExternalError "ffmpeg exited with status 1");
     str_http_exception := λ e, App.detail e |}.

(** The options the worker runs with for a request, read off the request. *)
Definition request_options (request : App.SubtitleRequest) : Options :=
  {| opt_model := App.req_model request;
     opt_language := App.req_language request;
     opt_format := App.req_format request;
     opt_max_line_length := App.req_max_line_length request;
     opt_cpu := App.req_cpu request;
     opt_no_mps := App.req_no_mps request;
     opt_media_key :=
       if Py.truthy (App.req_media_key request)
       then App.req_media_key request else None |}.

(** * Proofs *)

(** The stages of the task are reasoned about through their lemmas. *)
Arguments Worker.find_local_media : simpl never.
Arguments Worker.local_paths : simpl never.
Arguments Worker.download_media : simpl never.
Arguments Worker.resolve_media : simpl never.
Arguments Worker.publish : simpl never.
Arguments Worker.task_body : simpl never.
Arguments Generator.extract_audio : simpl never.
Arguments Generator.generate_subtitles : simpl never.
Arguments Generator.render : simpl never.
Arguments OBSStorage.upload_file : simpl never.
Arguments OsPath.join : simpl never.
Arguments OsPath.splitext : simpl never.
Arguments OsPath.basename : simpl never.
Arguments Py.endswith : simpl never.
Arguments Py.strip : simpl never.

(** ** Strings *)

Lemma app_cons a s t : String a s +:+ t = String a (s +:+ t).
Proof. reflexivity. Qed.

Lemma app_empty_l s : EmptyString +:+ s = s.
Proof. reflexivity. Qed.

Lemma app_empty_r s : s +:+ EmptyString = s.
Proof. induction s as [|a s IH]; [done|]. by rewrite app_cons, IH. Qed.

Lemma app_assoc_str s t u : (s +:+ t) +:+ u = s +:+ t +:+ u.
Proof. induction s as [|a s IH]; [done|]. by rewrite !app_cons, IH. Qed.

Lemma length_app_str s t :
  String.length (s +:+ t) = (String.length s + String.length t)%nat.
Proof. induction s as [|a s IH]; [done|]. rewrite app_cons. simpl. by rewrite IH. Qed.

Lemma len_app s t : Py.len (s +:+ t) = Py.len s + Py.len t.
Proof. unfold Py.len. rewrite length_app_str. lia. Qed.

Lemma len_nonneg s : 0 ≤ Py.len s.
Proof. unfold Py.len. lia. Qed.

Lemma nonempty_app_l s t : nonempty s = true → nonempty (s +:+ t) = true.
Proof. by destruct s. Qed.

Lemma nonempty_false s : nonempty s = false → s = EmptyString.
Proof. by destruct s. Qed.

(** ** Line wrapping *)

Section Wrapping.

Variable max_line_length : Z.

Lemma split_go_nonempty cur s :
  Forall word_ok (Py.split_go cur s).
Proof.
  revert cur. induction s as [|a s IH]; intros cur; simpl.
  - destruct cur; repeat constructor.
  - destruct (Py.isspace a).
    + apply Forall_app. split; [|apply IH].
      destruct cur; repeat constructor.
    + apply IH.
Qed.

Lemma split_nonempty text : Forall word_ok (Py.split text).
Proof. apply split_go_nonempty. Qed.

Lemma join_nonempty (g : list string) :
  Forall word_ok g → nonempty (Py.join " " g) = bool_decide (g ≠ []).
Proof.
  destruct g as [|x [|y g]]; intros Hg; [done| |].
  - inversion_clear Hg as [|?? Hx _]. simpl. rewrite Hx. done.
  - inversion_clear Hg as [|?? Hx _]. simpl.
    rewrite (nonempty_app_l _ _ Hx). done.
Qed.

Lemma join_snoc (g : list string) word :
  g ≠ [] → Py.join " " (g ++ [word]) = Py.join " " g +:+ " " +:+ word.
Proof.
  induction g as [|x g IH]; [done|]. intros _.
  destruct g as [|y g]; [done|].
  change (Py.join " " ((x :: y :: g) ++ [word]))
    with (x +:+ " " +:+ Py.join " " ((y :: g) ++ [word])).
  rewrite IH by done.
  change (Py.join " " (x :: y :: g)) with (x +:+ " " +:+ Py.join " " (y :: g)).
  by rewrite !app_assoc_str.
Qed.

(** The loop fills the lines that [wrap_groups] describes. *)
Lemma wrap_loop_groups words lines current :
  Forall word_ok words → Forall word_ok current →
  finish (Generator.wrap_loop max_line_length words lines
            (Py.join " " current))
  = lines ++ (Py.join " " <$> wrap_groups max_line_length words current).
Proof.
  revert lines current.
  induction words as [|word rest IH]; intros lines current Hw Hc.
  - unfold finish. simpl. rewrite join_nonempty by done.
    destruct current; simpl; [by rewrite app_nil_r|done].
  - inversion_clear Hw as [|?? Hword Hrest]. simpl.
    destruct ((Py.len (Py.join " " current) + Py.len word + 1 >? max_line_length)
              && nonempty (Py.join " " current)) eqn:Hbr.
    + change word with (Py.join " " [word]) at 1.
      rewrite IH by (done || by repeat constructor).
      by rewrite <- app_assoc.
    + destruct (nonempty (Py.join " " current)) eqn:Hne.
      * rewrite join_nonempty in Hne by done.
        apply bool_decide_eq_true in Hne.
        rewrite <- join_snoc by done.
        apply IH; [done|]. apply Forall_app. by repeat constructor.
      * rewrite join_nonempty in Hne by done.
        apply bool_decide_eq_false in Hne.
        assert (current = []) as -> by (by destruct current; [|exfalso; apply Hne]).
        change word with (Py.join " " ([] ++ [word])) at 1.
        apply IH; [done|]. by repeat constructor.
Qed.

Lemma wrap_groups_concat words current :
  concat (wrap_groups max_line_length words current) = current ++ words.
Proof.
  revert current. induction words as [|word rest IH]; intros current; simpl.
  - destruct current; simpl; by rewrite ?app_nil_r.
  - destruct (_ && _); simpl; rewrite IH; [done|]. by rewrite <- app_assoc.
Qed.

Lemma wrap_groups_no_empty words current :
  Forall (λ g, g ≠ []) (wrap_groups max_line_length words current).
Proof.
  revert current. induction words as [|word rest IH]; intros current; simpl.
  - destruct current; by repeat constructor.
  - destruct (_ && _) eqn:Hbr; [|apply IH].
    constructor; [|apply IH].
    apply andb_true_iff in Hbr as [_ Hne]. intros ->. done.
Qed.

Lemma wrap_groups_fit words current :
  Forall word_ok words → Forall word_ok current →
  current = [] ∨ fits max_line_length current →
  Forall (fits max_line_length) (wrap_groups max_line_length words current).
Proof.
  revert current.
  induction words as [|word rest IH]; intros current Hw Hc Hfit; simpl.
  - destruct current; [constructor|]. destruct Hfit as [?|?]; [done|].
    constructor; [done|constructor].
  - inversion_clear Hw as [|?? Hword Hrest].
    destruct (Py.len (Py.join " " current) + Py.len word + 1 >? max_line_length)
      eqn:Hgt; simpl.
    + rewrite join_nonempty by done. case_bool_decide as Hne.
      * constructor; [by destruct Hfit|].
        apply IH; [done|by repeat constructor|]. right. by right.
      * subst current. simpl.
        apply IH; [done|by repeat constructor|]. right. by right.
    + apply IH; [done|apply Forall_app; by repeat constructor|].
      right. destruct current as [|c current]; [by right|].
      left. rewrite join_snoc by done. rewrite !len_app.
      change (Py.len " ") with 1. lia.
Qed.

Lemma wrap_groups_head words c cs :
  ∃ g' tl, wrap_groups max_line_length words (c :: cs) = (c :: g') :: tl.
Proof.
  revert cs. induction words as [|word rest IH]; intros cs; simpl; [by eauto|].
  destruct (_ && _); [by eauto|]. apply IH.
Qed.

Lemma wrap_groups_greedy words current :
  greedy_breaks max_line_length (wrap_groups max_line_length words current).
Proof.
  revert current. induction words as [|word rest IH]; intros current; simpl.
  - by destruct current.
  - destruct (_ && _) eqn:Hbr; [|apply IH].
    split; [|apply IH].
    destruct (wrap_groups_head rest word []) as (g' & tl & ->).
    apply andb_true_iff in Hbr as [Hgt _]. lia.
Qed.

Lemma greedy_breaks_lookup groups i g word g' :
  greedy_breaks max_line_length groups →
  groups !! i = Some g → groups !! S i = Some (word :: g') →
  max_line_length < Py.len (Py.join " " g) + 1 + Py.len word.
Proof.
  revert i. induction groups as [|g0 groups IH]; intros i Hgr Hi HSi; [done|].
  destruct Hgr as [Hhd Htl]. destruct i as [|i].
  - simpl in Hi, HSi. simplify_eq. destruct groups as [|g1 groups]; [done|].
    simpl in HSi. by simplify_eq.
  - simpl in Hi. apply (IH i); done.
Qed.

End Wrapping.



(** ** The failure path, seen through the status query *)

(** The task function never raises: the [except] branch turns every
    exception of the body into a returned dict. *)
Lemma generate_subtitle_task_returns w task_id media_url options s :
  ∃ r, (Worker.generate_subtitle_task w task_id media_url options s).1 = inr r.
Proof.
  unfold Worker.generate_subtitle_task, mbind, M_bind, update_state, try_except.
  simpl. destruct (Worker.task_body _ _ _ _ _) as [[e|r] s']; simpl; eauto.
Qed.

(** Hence Celery always records the task as [SUCCESS], whatever it
    returned. *)
Lemma final_entry_success w m task_id media_url options :
  ∃ r, final_entry w m task_id media_url options = (SUCCESS, InfoReturn r).
Proof.
  unfold final_entry.
  destruct (generate_subtitle_task_returns w task_id media_url options
              (initial_state m)) as [r ->].
  by exists r.
Qed.

(** So the status query, once the task has run, always answers with the
    label of [SUCCESS], progress 100 and no [error]; what the task returned,
    its failure dict included, is the [result]. *)
Lemma status_query_after_run w m task_id media_url options :
  ∃ r, App.get_subtitle_task
         (final_entry w m task_id media_url options) task_id
       = inr {| App.tsr_task_id := task_id;
                App.tsr_status := TASK_STATUS SUCCESS;
                App.tsr_progress := 100;
                App.tsr_result := Some r;
                App.tsr_error := None |}.
Proof.
  destruct (final_entry_success w m task_id media_url options) as [r ->].
  by exists r.
Qed.

(** C1, at a download that fails. The exception is caught and its message
    is returned, but it is returned as the value of the task function:
    Celery stores it under [SUCCESS], and the status query answers with the
    label of [SUCCESS], progress 100 and no [error]; the failure is visible
    only inside [result]. *)
Theorem failed_task_is_reported_as_success :
  final_entry unreachable_world ∅ "t1" (Some "http://media.invalid/a.mp4")
    (default_args "srt" None)
  = (SUCCESS, InfoReturn (failed "Connection refused"))
  ∧ App.get_subtitle_task
      (final_entry unreachable_world ∅ "t1" (Some "http://media.invalid/a.mp4")
         (default_args "srt" None)) "t1"
    = inr {| App.tsr_task_id := "t1";
             App.tsr_status := TASK_STATUS SUCCESS;
             App.tsr_progress := 100;
             App.tsr_result := Some (failed "Connection refused");
             App.tsr_error := None |}.
Proof. split; vm_compute; reflexivity. Qed.

(** ** Transcription on the selected device *)

(** A model that does not load on the device is loaded on the CPU. *)
Lemma load_model_falls_back w model_name dev e s :
  whisper_load_model w model_name dev = Some e →
  whisper_load_model w model_name cpu = None →
  Generator.load_model w model_name dev s = (inr cpu, s).
Proof.
  intros Hdev Hcpu. unfold Generator.load_model. rewrite Hdev.
  unfold mbind, M_bind. by rewrite Hcpu.
Qed.

(** A transcription that fails is not tried again: the exception of the one
    call to [model.transcribe] leaves [generate_subtitles]. *)
Lemma transcribe_failure_propagates w audio out fmt model lang max dev e s :
  whisper_load_model w model dev = None →
  whisper_transcribe w model dev audio
    (if Py.truthy lang then lang else None) = inl e →
  Generator.generate_subtitles w audio out fmt model lang max dev s
  = (inl e, s).
Proof.
  intros Hload Htr.
  unfold Generator.generate_subtitles, Generator.load_model, mbind, M_bind.
  rewrite Hload. simpl. unfold lift_result. by rewrite Htr.
Qed.

(** C4, at a transcription that fails on CUDA and would succeed on the CPU:
    [generate_subtitles] raises the CUDA error without a second attempt, and
    the task returns it as its failure. *)
Theorem transcription_failure_is_not_retried_on_cpu :
  whisper_transcribe cuda_failing_world "base" cpu "/srv/uploads/t1.mp3" None
  = inr example_segments
  ∧ Generator.generate_subtitles cuda_failing_world "/srv/uploads/t1.mp3"
      "/srv/results/t1.srt" "srt" "base" None None cuda (initial_state ∅)
    = (inl (ExternalError "CUDA out of memory"), initial_state ∅)
  ∧ (Worker.generate_subtitle_task cuda_failing_world "t1"
       (Some "http://media.example/a.mp3") (default_args "srt" None)
       (initial_state ∅)).1
    = inr (failed "CUDA out of memory").
Proof. repeat split; vm_compute; reflexivity. Qed.

(** ** Timestamps and the shape of the subtitle file *)

Lemma format_0d_two n : 0 ≤ n < 100 → Py.format_0d 2 n = two_digits n.
Proof.
  intros Hn.
  assert (forallb (λ k, bool_decide
            (Py.format_0d 2 (Z.of_nat k) = two_digits (Z.of_nat k)))
            (seq 0 100) = true) as Hall by (vm_compute; reflexivity).
  rewrite forallb_forall in Hall.
  specialize (Hall (Z.to_nat n)). rewrite Z2Nat.id in Hall by lia.
  eapply bool_decide_eq_true_1, Hall, in_seq. lia.
Qed.

Lemma format_0d_three n : 0 ≤ n < 1000 → Py.format_0d 3 n = three_digits n.
Proof.
  intros Hn.
  assert (forallb (λ k, bool_decide
            (Py.format_0d 3 (Z.of_nat k) = three_digits (Z.of_nat k)))
            (seq 0 1000) = true) as Hall by (vm_compute; reflexivity).
  rewrite forallb_forall in Hall.
  specialize (Hall (Z.to_nat n)). rewrite Z2Nat.id in Hall by lia.
  eapply bool_decide_eq_true_1, Hall, in_seq. lia.
Qed.

Lemma clock_bounds us :
  0 ≤ clock_hours us < 24 ∧ 0 ≤ clock_minutes us < 60 ∧
  0 ≤ clock_seconds us < 60 ∧ 0 ≤ clock_millis us < 1000.
Proof.
  unfold clock_hours, clock_minutes, clock_seconds, clock_millis.
  pose proof (Z.mod_pos_bound us 86400000000 ltac:(lia)).
  pose proof (Z.mod_pos_bound us 1000000 ltac:(lia)).
  set (d := us mod 86400000000) in *. set (u := us mod 1000000) in *.
  assert (0 ≤ d / 1000000 < 86400).
  { split; [apply Z.div_pos; lia|apply Z.div_lt_upper_bound; lia]. }
  set (t := d / 1000000) in *.
  pose proof (Z.mod_pos_bound t 3600 ltac:(lia)).
  repeat split; try (apply Z.div_pos; lia);
    try (apply Z.div_lt_upper_bound; lia);
    try (apply Z.mod_pos_bound; lia).
Qed.

(** Every timestamp has the shape [HH:MM:SS,mmm] (SRT) or [HH:MM:SS.mmm]
    (VTT): two, two, two and three digits. *)
Lemma format_timestamp_srt us :
  Generator.format_timestamp us "srt" = inr (clock "," us).
Proof.
  destruct (clock_bounds us) as (Hh & Hm & Hs & Hms).
  unfold Generator.format_timestamp, clock. simpl.
  fold (clock_hours us) (clock_minutes us) (clock_seconds us) (clock_millis us).
  rewrite !format_0d_two, format_0d_three by lia. reflexivity.
Qed.

Lemma format_timestamp_vtt us :
  Generator.format_timestamp us "vtt" = inr (clock "." us).
Proof.
  destruct (clock_bounds us) as (Hh & Hm & Hs & Hms).
  unfold Generator.format_timestamp, clock. simpl.
  fold (clock_hours us) (clock_minutes us) (clock_seconds us) (clock_millis us).
  rewrite !format_0d_two, format_0d_three by lia. reflexivity.
Qed.

(** Below 24 hours the fields are the time itself, cut to the
    millisecond. *)
Lemma clock_value us :
  0 ≤ us < 86400000000 →
  ((clock_hours us * 60 + clock_minutes us) * 60 + clock_seconds us) * 1000
  + clock_millis us = us / 1000.
Proof.
  intros Hus. unfold clock_hours, clock_minutes, clock_seconds, clock_millis.
  rewrite (Z.mod_small us 86400000000) by lia.
  Z.to_euclidean_division_equations. lia.
Qed.

Lemma write_segments_srt max segments i written :
  Generator.write_segments "srt" max i segments written
  = (written +:+ blocks (srt_block max) i segments, None).
Proof.
  revert i written. induction segments as [|seg rest IH]; intros i written.
  - simpl. by rewrite app_empty_r.
  - cbn [Generator.write_segments blocks]. unfold Generator.write_entry.
    rewrite !format_timestamp_srt.
    fold (block_text max seg). cbn [bool_decide decide_rel]. simpl bool_decide.
    fold (srt_block max i seg). cbv iota.
    rewrite IH. by rewrite app_assoc_str.
Qed.

Lemma write_segments_vtt max segments i written :
  Generator.write_segments "vtt" max i segments written
  = (written +:+ blocks (vtt_block max) i segments, None).
Proof.
  revert i written. induction segments as [|seg rest IH]; intros i written.
  - simpl. by rewrite app_empty_r.
  - cbn [Generator.write_segments blocks]. unfold Generator.write_entry.
    rewrite !format_timestamp_vtt.
    fold (block_text max seg). cbn [bool_decide decide_rel]. simpl bool_decide.
    fold (vtt_block max i seg). cbv iota.
    rewrite IH. by rewrite app_assoc_str.
Qed.

(** The SRT file is the sequence of the blocks numbered from 1; the VTT file
    is the header, a blank line and the blocks without their numbers. *)
Lemma render_srt_shape max segments :
  Generator.render "srt" max segments
  = (blocks (srt_block max) 1 segments, None).
Proof. unfold Generator.render. by rewrite write_segments_srt. Qed.

Lemma render_vtt_shape max segments :
  Generator.render "vtt" max segments
  = ("WEBVTT" +:+ nl +:+ nl +:+ blocks (vtt_block max) 1 segments, None).
Proof.
  unfold Generator.render. rewrite write_segments_vtt. simpl.
  by rewrite !app_assoc_str.
Qed.

(** C8, at a segment that starts 25 hours into the recording. The file has
    the shape of the format, but [format_timestamp] reads [timedelta.seconds],
    which leaves out whole days: the segment is stamped 01:00:00,000 and
    01:00:05,500 where its times are 25:00:00,000 and 25:00:05,500. *)
Theorem timestamp_drops_whole_days :
  Generator.format_timestamp (seg_start late_segment) "srt"
  = inr "01:00:00,000"
  ∧ seg_start late_segment / 1000 = ((25 * 60 + 0) * 60 + 0) * 1000 + 0
  ∧ Generator.render "srt" None [late_segment]
    = ("1" +:+ nl +:+ "01:00:00,000 --> 01:00:05,500" +:+ nl +:+
       "Hello" +:+ nl +:+ nl, None)
  ∧ Generator.render "vtt" None [late_segment]
    = ("WEBVTT" +:+ nl +:+ nl +:+ "01:00:00.000 --> 01:00:05.500" +:+ nl +:+
       "Hello" +:+ nl +:+ nl, None).
Proof. repeat split; vm_compute; reflexivity. Qed.

(** ** Submission *)

(** C2, at a request that sets both references: it is accepted, the key is
    used and the URL is dropped. *)
Lemma both_references_are_accepted :
  Py.truthy (Some "http://media.example/a.mp4") = true
  ∧ Py.truthy (Some "abc123") = true
  ∧ App.create_subtitle_task
      (request_with (Some "http://media.example/a.mp4") (Some "abc123"))
    = inr {| App.call_media_url := None;
             App.call_options := default_args "srt" (Some "abc123") |}
  ∧ ¬ ∃ e, App.create_subtitle_task
             (request_with (Some "http://media.example/a.mp4") (Some "abc123"))
           = inl e.
Proof.
  repeat split; try (vm_compute; reflexivity).
  intros [e He]. vm_compute in He. discriminate He.
Qed.

(** C2, amended. A submission is rejected, with status 400 and before any
    task is put on the queue, exactly when it has neither a non-empty URL nor
    a non-empty key. Every other submission is queued: with the key and no
    URL when the key is non-empty (also when a URL was given), with the URL
    and no key otherwise. *)
Theorem submission_needs_a_media_reference (request : App.SubtitleRequest) :
  ((∃ e, App.create_subtitle_task request = inl e)
   ↔ Py.truthy (App.req_media_url request) = false
     ∧ Py.truthy (App.req_media_key request) = false)
  ∧ (∀ e, App.create_subtitle_task request = inl e → App.status_code e = 400)
  ∧ (∀ call, App.create_subtitle_task request = inr call →
       if Py.truthy (App.req_media_key request)
       then App.call_media_url call = None
            ∧ arg_media_key (App.call_options call)
              = App.req_media_key request
       else App.call_media_url call = App.req_media_url request
            ∧ Py.truthy (App.req_media_url request) = true
            ∧ arg_media_key (App.call_options call) = None).
Proof.
  unfold App.create_subtitle_task.
  destruct (Py.truthy (App.req_media_url request)) eqn:Hurl,
           (Py.truthy (App.req_media_key request)) eqn:Hkey; simpl.
  all: split_and!; try (intros call [= <-]; simpl; by split_and!);
    try by intros ? [= <-].
  all: try (split; [by intros [e He]|by intros [??]]).
  split; [done|by eauto].
Qed.

(** ** The states a task publishes *)

Lemma ku_ret {A} (x : A) : keeps_updates (mret x).
Proof. by intros s. Qed.

Lemma ku_raise {A} e : keeps_updates (@raise A e).
Proof. by intros s. Qed.

Lemma ku_get_fs : keeps_updates get_fs.
Proof. by intros s. Qed.

Lemma ku_put_file p f : keeps_updates (put_file p f).
Proof. by intros s. Qed.

Lemma ku_lift_result {A} (r : exn + A) : keeps_updates (lift_result r).
Proof. by intros s. Qed.

Lemma ku_raise_if o : keeps_updates (raise_if o).
Proof. by destruct o; intros s. Qed.

Lemma ku_bind {A B} (c : M A) (f : A → M B) :
  keeps_updates c → (∀ a, keeps_updates (f a)) → keeps_updates (c ≫= f).
Proof.
  intros Hc Hf s. unfold mbind, M_bind. specialize (Hc s).
  destruct (c s) as [[e|a] s']; simpl in *; [done|]. by rewrite Hf.
Qed.

Create HintDb ku discriminated.
#[local] Hint Resolve ku_ret ku_raise ku_get_fs ku_put_file ku_lift_result
  ku_raise_if : ku.
#[local] Hint Extern 2 (keeps_updates (_ ≫= _)) =>
  apply ku_bind; [|intros ?] : ku.

Lemma ku_download_media w url task_id :
  keeps_updates (Worker.download_media w url task_id).
Proof. unfold Worker.download_media. auto 10 with ku. Qed.

Lemma ku_extract_audio w video_file :
  keeps_updates (Generator.extract_audio w video_file).
Proof. unfold Generator.extract_audio. auto 10 with ku. Qed.

Lemma ku_load_model w model_name dev :
  keeps_updates (Generator.load_model w model_name dev).
Proof.
  unfold Generator.load_model.
  destruct (whisper_load_model w model_name dev); auto 10 with ku.
Qed.

Lemma ku_generate_subtitles w audio out fmt model lang max dev :
  keeps_updates (Generator.generate_subtitles w audio out fmt model lang max dev).
Proof.
  unfold Generator.generate_subtitles.
  apply ku_bind; [apply ku_load_model|intros dev'].
  apply ku_bind; [auto with ku|intros segments].
  apply ku_bind; [auto with ku|intros _].
  destruct (Generator.render fmt max segments) as [content err].
  auto 10 with ku.
Qed.

Lemma ku_publish w task_id media_url options subtitle_file :
  keeps_updates (Worker.publish w task_id media_url options subtitle_file).
Proof.
  unfold Worker.publish.
  apply ku_bind; [auto with ku|intros m].
  apply ku_bind; [destruct (m !! subtitle_file) as [[]|]; auto with ku|].
  intros content. auto 10 with ku.
Qed.

Lemma resolve_media_updates w task_id media_url options s :
  updates (Worker.resolve_media w task_id media_url options s).2
  = updates s
    ++ (if downloads media_url options then [published DOWNLOADING 10] else []).
Proof.
  unfold Worker.resolve_media, downloads.
  destruct (Py.truthy (opt_media_key options)); simpl.
  - rewrite app_nil_r. unfold mbind, M_bind, get_fs. simpl.
    by destruct (Worker.find_local_media _ _).
  - destruct (negb (Py.truthy media_url) || _); simpl.
    + by rewrite app_nil_r.
    + unfold mbind at 1, M_bind at 1. simpl.
      by rewrite ku_download_media.
Qed.

(** The states of the body: [DOWNLOADING] if the media is fetched, then
    [EXTRACTING] and [TRANSCRIBING] if the body gets there. *)
Lemma task_body_updates w task_id media_url options s :
  ∃ e t : bool,
    updates (Worker.task_body w task_id media_url options s).2
    = updates s
      ++ (if downloads media_url options then [published DOWNLOADING 10] else [])
      ++ (if e then [published EXTRACTING 30] else [])
      ++ (if t then [published TRANSCRIBING 50] else []).
Proof.
  unfold Worker.task_body. unfold mbind at 1, M_bind at 1.
  pose proof (resolve_media_updates w task_id media_url options s) as Hres.
  destruct (Worker.resolve_media w task_id media_url options s)
    as [[ex|media_path] s1]; simpl in Hres.
  { exists false, false. simpl. by rewrite ?app_nil_r. }
  unfold mbind at 1, M_bind at 1.
  destruct (Worker.is_video media_path).
  - unfold mbind at 1, M_bind at 1. simpl.
    pose proof (ku_extract_audio w media_path
      {| fs := fs s1; updates := updates s1 ++ [published EXTRACTING 30] |})
      as Hex.
    destruct (Generator.extract_audio w media_path _) as [[ex|audio] s2];
      simpl in Hex.
    { exists true, false. simpl. rewrite Hex, Hres.
      by rewrite ?app_nil_r, <- ?app_assoc. }
    unfold mbind at 1, M_bind at 1. simpl.
    match goal with |- context [(?c ≫= ?f) ?st] =>
      pose proof (ku_bind c f) as Hrest; specialize (Hrest
        ltac:(apply ku_generate_subtitles)
        ltac:(intros ?; apply ku_publish) st) end.
    exists true, true. rewrite Hrest. simpl. rewrite Hex, Hres.
    by rewrite ?app_nil_r, <- ?app_assoc.
  - simpl. unfold mbind at 1, M_bind at 1. simpl.
    match goal with |- context [(?c ≫= ?f) ?st] =>
      pose proof (ku_bind c f) as Hrest; specialize (Hrest
        ltac:(apply ku_generate_subtitles)
        ltac:(intros ?; apply ku_publish) st) end.
    exists false, true. rewrite Hrest. simpl. rewrite Hres.
    by rewrite ?app_nil_r, <- ?app_assoc.
Qed.

Lemma generate_subtitle_task_updates w task_id media_url options s :
  ∃ e t : bool,
    updates (Worker.generate_subtitle_task w task_id media_url options s).2
    = updates s ++ published STARTED 0
      :: (if downloads media_url (Worker.merge_options options)
          then [published DOWNLOADING 10] else [])
      ++ (if e then [published EXTRACTING 30] else [])
      ++ (if t then [published TRANSCRIBING 50] else []).
Proof.
  unfold Worker.generate_subtitle_task, mbind, M_bind, update_state, try_except.
  simpl.
  destruct (task_body_updates w task_id media_url (Worker.merge_options options)
    {| fs := fs s; updates := updates s ++ [published STARTED 0] |})
    as (e & t & Hup).
  exists e, t.
  destruct (Worker.task_body _ _ _ _ _) as [[ex|r] s']; simpl in *;
    rewrite Hup; by rewrite <- app_assoc.
Qed.

Lemma lifetime_shape w m task_id media_url options :
  ∃ (e t : bool) (r : task_return),
    lifetime w m task_id media_url options
    = (PENDING, InfoNone)
      :: ((λ u : celery_state * meta, (u.1, InfoMeta u.2))
          <$> (published STARTED 0
               :: (if downloads media_url (Worker.merge_options options)
                   then [published DOWNLOADING 10] else [])
               ++ (if e then [published EXTRACTING 30] else [])
               ++ (if t then [published TRANSCRIBING 50] else [])))
      ++ [(SUCCESS, InfoReturn r)].
Proof.
  destruct (generate_subtitle_task_updates w task_id media_url options
              (initial_state m)) as (e & t & Hup).
  destruct (generate_subtitle_task_returns w task_id media_url options
              (initial_state m)) as [r Hr].
  exists e, t, r. unfold lifetime.
  destruct (Worker.generate_subtitle_task _ _ _ _ _) as [outcome s].
  simpl in *. by rewrite Hup, Hr.
Qed.

(** C5. Over the lifetime of a task every status query is answered, the
    progress it reports is the checkpoint of the state (0 at PENDING and
    STARTED, 10 at DOWNLOADING, 30 at EXTRACTING, 50 at TRANSCRIBING, 100 at
    SUCCESS), the successive values never decrease, and the last one, at
    SUCCESS, is 100. *)
Theorem progress_follows_checkpoints_and_never_decreases
    (w : World) (m : gmap string file) (task_id : string)
    (media_url : option string) (options : OptionsArg) :
  ∃ responses : list App.TaskStatusResponse,
    status_queries task_id (lifetime w m task_id media_url options)
    = inr <$> responses
    ∧ Forall2 (λ entry r, App.tsr_progress r = checkpoint entry.1
                          ∧ App.tsr_status r = TASK_STATUS entry.1)
        (lifetime w m task_id media_url options) responses
    ∧ StronglySorted Z.le (App.tsr_progress <$> responses)
    ∧ (∃ r, last (lifetime w m task_id media_url options)
            = Some (SUCCESS, InfoReturn r))
    ∧ (App.tsr_progress <$> last responses) = Some 100.
Proof.
  destruct (lifetime_shape w m task_id media_url options)
    as (e & t & r & ->).
  match goal with |- context [status_queries _ ?l] =>
    exists (omap (λ entry,
              match App.get_subtitle_task entry task_id with
              | inr resp => Some resp
              | inl _ => None
              end) l)
  end.
  destruct (downloads _ _), e, t; simpl; unfold status_queries; simpl;
    (split_and!; [reflexivity | repeat constructor | repeat constructor; lia
                 | by eexists | reflexivity]).
Qed.

(** ** Resolution of a local media key *)

Lemma first_existing_cons m p paths :
  first_existing m (p :: paths)
  = if is_file m p then Some p else first_existing m paths.
Proof.
  unfold first_existing, is_file. rewrite filter_cons.
  destruct (decide (is_Some (m !! p))) as [H|H].
  - by rewrite bool_decide_eq_true_2.
  - by rewrite bool_decide_eq_false_2.
Qed.

Lemma first_existing_app m l1 l2 :
  first_existing m (l1 ++ l2)
  = match first_existing m l1 with
    | Some p => Some p
    | None => first_existing m l2
    end.
Proof.
  induction l1 as [|p l1 IH]; [done|].
  rewrite <- app_comm_cons, !first_existing_cons. by destruct (is_file m p).
Qed.

(** The inner loop returns the first existing variant. *)
Lemma try_extensions_first m base_path exts :
  Worker.try_extensions m base_path exts
  = first_existing m (extension_variants base_path exts).
Proof.
  induction exts as [|ext rest IH]; [done|].
  unfold extension_variants in *. cbn [Worker.try_extensions].
  rewrite filter_cons. case_decide as Hend;
    [|apply not_false_is_true in Hend]; rewrite Hend; cbn [negb].
  - rewrite fmap_cons, first_existing_cons.
    destruct (is_file m _); [done|apply IH].
  - apply IH.
Qed.

(** The two loops, with their [break]s, return the first existing path of
    the flattened candidate list. *)
Lemma find_local_media_first m paths :
  Worker.find_local_media m paths
  = first_existing m
      (concat ((λ base_path,
                  base_path
                    :: extension_variants base_path Worker.LOOKUP_EXTENSIONS)
               <$> paths)).
Proof.
  induction paths as [|base_path rest IH]; [done|].
  unfold Worker.find_local_media. fold Worker.find_local_media.
  rewrite fmap_cons. simpl concat.
  rewrite first_existing_cons, first_existing_app.
  rewrite try_extensions_first, IH. done.
Qed.

Lemma resolve_media_local w task_id media_url options key s :
  opt_media_key options = Some key → key ≠ EmptyString →
  Worker.resolve_media w task_id media_url options s
  = (match first_existing (fs s) (lookup_candidates w key) with
     | Some media_path => inr media_path
     | None => inl (FileNotFoundError (not_found_message key))
     end, s).
Proof.
  intros Hkey Hne. unfold Worker.resolve_media. rewrite Hkey.
  destruct key as [|a key]; [done|]. cbn [Py.truthy default].
  unfold mbind, M_bind, get_fs. cbn [fst snd].
  rewrite find_local_media_first. fold (lookup_candidates w (String a key)).
  by destruct (first_existing _ _).
Qed.

(** C3, at the key [movie.mp4] when only [movie.avi] is staged. No
    candidate of the form key or key-plus-extension exists, yet the lookup
    succeeds: it finds [movie.avi], the key with its extension replaced. *)
Lemma lookup_replaces_the_extension_of_the_key :
  first_existing movie_avi_only
    (key_plus_extension_candidates example_world "movie.mp4") = None
  ∧ Worker.find_local_media movie_avi_only
      (Worker.local_paths example_world "movie.mp4")
    = Some "/srv/uploads/movie.avi"
  ∧ ("/srv/uploads/movie.avi"
     ∉ key_plus_extension_candidates example_world "movie.mp4")
  ∧ ∃ r, (Worker.generate_subtitle_task example_world "t1" None
            (default_args "srt" (Some "movie.mp4"))
            (initial_state movie_avi_only)).1 = inr (Completed r).
Proof.
  split_and!.
  - vm_compute. reflexivity.
  - vm_compute. reflexivity.
  - apply (bool_decide_eq_false_1 _). vm_compute. reflexivity.
  - eexists. vm_compute. reflexivity.
Qed.

(** C3, amended. For a task submitted with a non-empty media key, the
    lookup tries, for the uploads folder and then the videos folder, first
    with the key and then with the key followed by [.mp4]: that path itself,
    then its root ([os.path.splitext]: the path without its last extension)
    followed by each of the twelve extensions the path does not already end
    with. The first of these paths that is a regular file is the media of
    the task; there is no download and the task never publishes
    [DOWNLOADING]; when none exists the task ends with the error of the
    failed lookup and the file system is left as it was. *)
Theorem local_key_lookup (w : World) (m : gmap string file)
    (task_id : string) (media_url : option string) (options : OptionsArg)
    (key : string) :
  arg_media_key options = Some key → key ≠ EmptyString →
  (∀ s, Worker.resolve_media w task_id media_url
          (Worker.merge_options options) s
        = (match first_existing (fs s) (lookup_candidates w key) with
           | Some media_path => inr media_path
           | None => inl (FileNotFoundError (not_found_message key))
           end, s))
  ∧ (DOWNLOADING ∉ (lifetime w m task_id media_url options).*1)
  ∧ (first_existing m (lookup_candidates w key) = None →
     (Worker.generate_subtitle_task w task_id media_url options
        (initial_state m)).1 = inr (failed (not_found_message key))
     ∧ final_fs w m task_id media_url options = m).
Proof.
  intros Hkey Hne. split_and!.
  - intros s. by apply resolve_media_local.
  - destruct (lifetime_shape w m task_id media_url options)
      as (e & t & r & ->).
    assert (downloads media_url (Worker.merge_options options) = false) as ->.
    { unfold downloads. cbn [Worker.merge_options opt_media_key].
      rewrite Hkey. by destruct key. }
    intros Hin. destruct e, t; simpl in Hin;
      repeat (apply elem_of_cons in Hin as [Hin|Hin]; [discriminate Hin|]);
      by apply elem_of_nil in Hin.
  - intros Hnone. unfold final_fs.
    unfold Worker.generate_subtitle_task, Worker.task_body.
    unfold mbind, M_bind, try_except, update_state. cbn [fst snd].
    rewrite (resolve_media_local w task_id media_url _ key) by done.
    cbn [fs initial_state]. rewrite Hnone. done.
Qed.

Lemma local_key_lookup_witness :
  DOWNLOADING
  ∉ (lifetime example_world movie_avi_only "t1" None
       (default_args "srt" (Some "movie.mp4"))).*1.
Proof.
  pose proof (local_key_lookup example_world movie_avi_only "t1" None
    (default_args "srt" (Some "movie.mp4")) "movie.mp4" eq_refl
    ltac:(discriminate)) as (_ & H & _).
  exact H.
Defined.

(** ** Publication and the object store *)

(** With object storage enabled and the upload failing, publication goes on
    exactly as it does with object storage switched off; if the subtitle
    file is there and the record can be written, it returns the success
    response without a remote URL. *)
Lemma publish_after_failed_upload
    (w : World) (task_id : string) (media_url : option string)
    (options : Options) (subtitle_file content : string) (s : env_state) :
  USE_OBS_STORAGE w = true →
  (OBSStorage.upload_file w (fs s) subtitle_file).1 = false →
  fs s !! subtitle_file = Some (Data content) →
  open_w w (record_path w task_id) = None →
  Worker.publish w task_id media_url options subtitle_file s
  = Worker.publish (without_obs w) task_id media_url options subtitle_file s
  ∧ Worker.publish w task_id media_url options subtitle_file s
    = (inr (local_response task_id subtitle_file),
       {| fs := <[record_path w task_id :=
                    Json (local_record task_id media_url options
                            subtitle_file content)]> (fs s);
          updates := updates s |}).
Proof.
  intros Huse Hfail Hfile Hopen.
  unfold Worker.publish, mbind, M_bind, get_fs. cbn [fst snd].
  rewrite Huse. cbn [without_obs world_with USE_OBS_STORAGE RESULT_FOLDER open_w].
  destruct (OBSStorage.upload_file w (fs s) subtitle_file) as [success result].
  cbn [fst] in Hfail. subst success. cbn [Py.truthy].
  rewrite Hfile. split; [reflexivity|].
  unfold mret, M_ret. fold (record_path w task_id). rewrite Hopen.
  reflexivity.
Qed.

(** ** Records on the file system *)

Lemma kr_ret {A} (x : A) : keeps_records (mret x).
Proof. by intros s p r. Qed.

Lemma kr_raise {A} e : keeps_records (@raise A e).
Proof. by intros s p r. Qed.

Lemma kr_get_fs : keeps_records get_fs.
Proof. by intros s p r. Qed.

Lemma kr_put_data p content : keeps_records (put_file p (Data content)).
Proof.
  intros s q r. unfold put_file. cbn [fs snd]. rewrite lookup_insert.
  by case_decide.
Qed.

Lemma kr_update_state st progress : keeps_records (update_state st progress).
Proof. by intros s p r. Qed.

Lemma kr_lift_result {A} (r : exn + A) : keeps_records (lift_result r).
Proof. by intros s p r'. Qed.

Lemma kr_raise_if o : keeps_records (raise_if o).
Proof. by destruct o; intros s p r. Qed.

Lemma kr_bind {A B} (c : M A) (f : A → M B) :
  keeps_records c → (∀ a, keeps_records (f a)) → keeps_records (c ≫= f).
Proof.
  intros Hc Hf s p r. unfold mbind, M_bind. specialize (Hc s p r).
  destruct (c s) as [[e|a] s']; cbn [fst snd] in *; [done|].
  intros H. by apply Hc, (Hf a).
Qed.

Create HintDb kr discriminated.
#[local] Hint Resolve kr_ret kr_raise kr_get_fs kr_put_data kr_update_state
  kr_lift_result kr_raise_if : kr.
#[local] Hint Extern 2 (keeps_records (_ ≫= _)) =>
  apply kr_bind; [|intros ?] : kr.

Lemma kr_download_media w url task_id :
  keeps_records (Worker.download_media w url task_id).
Proof. unfold Worker.download_media. auto 10 with kr. Qed.

Lemma kr_extract_audio w video_file :
  keeps_records (Generator.extract_audio w video_file).
Proof. unfold Generator.extract_audio. auto 10 with kr. Qed.

Lemma kr_generate_subtitles w audio out fmt model lang max dev :
  keeps_records
    (Generator.generate_subtitles w audio out fmt model lang max dev).
Proof.
  unfold Generator.generate_subtitles.
  apply kr_bind.
  { unfold Generator.load_model.
    destruct (whisper_load_model w model dev); auto 10 with kr. }
  intros dev'. apply kr_bind; [auto with kr|intros segments].
  apply kr_bind; [auto with kr|intros _].
  destruct (Generator.render fmt max segments) as [content err].
  auto 10 with kr.
Qed.

Lemma kr_resolve_media w task_id media_url options :
  keeps_records (Worker.resolve_media w task_id media_url options).
Proof.
  unfold Worker.resolve_media.
  destruct (Py.truthy (opt_media_key options)).
  - apply kr_bind; [auto with kr|intros m].
    destruct (Worker.find_local_media _ _); auto with kr.
  - destruct (_ || _); [auto with kr|].
    apply kr_bind; [auto with kr|intros _]. apply kr_download_media.
Qed.

Lemma kr_produce_subtitles w task_id media_url options :
  keeps_records (produce_subtitles w task_id media_url options).
Proof.
  unfold produce_subtitles.
  apply kr_bind; [apply kr_resolve_media|intros media_path].
  apply kr_bind.
  { destruct (Worker.is_video media_path); [|auto with kr].
    apply kr_bind; [auto with kr|intros _]. apply kr_extract_audio. }
  intros audio_path. apply kr_bind; [auto with kr|intros _].
  apply kr_generate_subtitles.
Qed.

(** The body of the task is the production of the subtitle file followed by
    its publication. *)
Lemma task_body_produce_publish w task_id media_url options s :
  Worker.task_body w task_id media_url options s
  = (produce_subtitles w task_id media_url options
       ≫= Worker.publish w task_id media_url options) s.
Proof.
  unfold Worker.task_body, produce_subtitles, mbind, M_bind.
  destruct (Worker.resolve_media _ _ _ _ _) as [[e|media_path] s1]; [done|].
  destruct (Worker.is_video media_path).
  - destruct (update_state EXTRACTING 30 s1) as [[e|[]] s2]; [done|].
    destruct (Generator.extract_audio _ _ _) as [[e|audio] s3]; [done|].
    destruct (update_state TRANSCRIBING 50 s3) as [[e|[]] s4]; [done|].
    by destruct (Generator.generate_subtitles _ _ _ _ _ _ _ _ _) as [[e|f] s5].
  - cbn [mret M_ret].
    destruct (update_state TRANSCRIBING 50 s1) as [[e|[]] s4]; [done|].
    by destruct (Generator.generate_subtitles _ _ _ _ _ _ _ _ _) as [[e|f] s5].
Qed.

(** Publication raises before it writes anything, or writes the record,
    with status SUCCESS, and returns the success response. *)
Lemma publish_cases w task_id media_url options subtitle_file s :
  (∃ e, Worker.publish w task_id media_url options subtitle_file s = (inl e, s))
  ∨ (∃ resp rec,
       Worker.publish w task_id media_url options subtitle_file s
       = (inr (Completed resp),
          {| fs := <[record_path w task_id := Json rec]> (fs s);
             updates := updates s |})
       ∧ rec_status rec = "SUCCESS" ∧ rec_task_id rec = task_id).
Proof.
  unfold Worker.publish, mbind, M_bind, get_fs. cbn [fst snd].
  fold (record_path w task_id).
  destruct (fs s !! subtitle_file) as [[content|rec]|]; cbn [mret M_ret].
  3: { left. by eexists. }
  all: unfold raise_if; destruct (open_w w (record_path w task_id));
    [left; by eexists|right; by do 2 eexists].
Qed.

(** What a run does to the records: none is written when it fails, one,
    with status SUCCESS and under the id of the task, when it completes. *)
Lemma generate_subtitle_task_records w task_id media_url options s :
  match Worker.generate_subtitle_task w task_id media_url options s with
  | (inr (Failed _), s') =>
      ∀ p r, fs s' !! p = Some (Json r) → fs s !! p = Some (Json r)
  | (inr (Completed _), s') =>
      ∃ rec, rec_status rec = "SUCCESS" ∧ rec_task_id rec = task_id
             ∧ fs s' !! record_path w task_id = Some (Json rec)
             ∧ ∀ p r, fs s' !! p = Some (Json r) →
                      r = rec ∨ fs s !! p = Some (Json r)
  | (inl _, _) => False
  end.
Proof.
  unfold Worker.generate_subtitle_task, try_except.
  unfold mbind at 1, M_bind at 1. cbn [update_state].
  set (s0 := {| fs := fs s; updates := _ |}).
  rewrite task_body_produce_publish. unfold mbind, M_bind.
  pose proof (kr_produce_subtitles w task_id media_url
                (Worker.merge_options options) s0) as Hkr.
  destruct (produce_subtitles _ _ _ _ s0) as [[e|subtitle_file] s1];
    cbn [fst snd] in Hkr.
  { cbn [mret M_ret]. intros p r. apply Hkr. }
  destruct (publish_cases w task_id media_url (Worker.merge_options options)
              subtitle_file s1) as [[e ->]|(resp & rec & -> & Hst & Hid)].
  { cbn [mret M_ret]. intros p r. apply Hkr. }
  exists rec. cbn [fs]. split_and!; [done|done|by rewrite lookup_insert_eq|].
  intros p r. cbn [fs]. rewrite lookup_insert. case_decide.
  - intros [= <-]. by left.
  - intros H'. right. by apply Hkr.
Qed.

(** ** Listing the folder of results *)

Lemma strip_prefix_Some pre p name :
  strip_prefix pre p = Some name → p = pre +:+ name.
Proof.
  revert p. induction pre as [|a pre IH]; intros p; simpl.
  - by intros [= ->].
  - destruct p as [|b p]; [done|]. case_bool_decide as Hab; [|done].
    subst b. intros H. rewrite app_cons. f_equal. by apply IH.
Qed.

Lemma strip_prefix_app pre name : strip_prefix pre (pre +:+ name) = Some name.
Proof.
  induction pre as [|a pre IH]; [done|].
  rewrite app_cons. simpl. by rewrite bool_decide_eq_true_2.
Qed.

Lemma no_slash_relative name :
  no_slash name = true → Py.startswith name "/" = false.
Proof.
  destruct name as [|a name]; [done|]. unfold no_slash. simpl.
  intros [Ha _]%andb_true_iff. apply negb_true_iff in Ha.
  apply bool_decide_eq_false in Ha.
  rewrite bool_decide_eq_false_2; [done|]. congruence.
Qed.

Lemma join_relative d name :
  no_slash name = true → OsPath.join d name = OsPath.dir_prefix d +:+ name.
Proof.
  intros H. unfold OsPath.join. by rewrite no_slash_relative.
Qed.

Lemma elem_of_listdir m d name :
  name ∈ listdir m d
  ↔ nonempty name = true ∧ no_slash name = true
    ∧ is_Some (m !! OsPath.join d name).
Proof.
  unfold listdir. rewrite list_elem_of_omap. split.
  - intros (p & Hp & Hname).
    apply elem_of_elements, elem_of_dom in Hp.
    destruct (strip_prefix _ p) as [name'|] eqn:Hstrip; [|done].
    destruct (nonempty name' && no_slash name') eqn:Hok; [|done].
    simplify_eq. apply andb_true_iff in Hok as [Hne Hns].
    apply strip_prefix_Some in Hstrip. subst p.
    by rewrite join_relative.
  - intros (Hne & Hns & Hin). exists (OsPath.join d name). split.
    + by apply elem_of_elements, elem_of_dom.
    + rewrite join_relative by done. rewrite strip_prefix_app.
      by rewrite Hne, Hns.
Qed.

(** The listing: one entry for each [*.json] of the folder that holds a
    record, with the stem of the file name as its task id. *)
Lemma elem_of_list_tasks w m r :
  r ∈ App.list_tasks w m
  ↔ ∃ filename task_data,
      filename ∈ listdir m (RESULT_FOLDER w)
      ∧ Py.endswith filename ".json" = true
      ∧ m !! OsPath.join (RESULT_FOLDER w) filename = Some (Json task_data)
      ∧ r = {| rec_task_id := (OsPath.splitext filename).1;
               rec_status := rec_status task_data;
               rec_subtitle_file := rec_subtitle_file task_data;
               rec_subtitle_content := rec_subtitle_content task_data;
               rec_media_url := rec_media_url task_data;
               rec_options := rec_options task_data;
               rec_obs_url := rec_obs_url task_data |}.
Proof.
  unfold App.list_tasks. rewrite list_elem_of_omap. split.
  - intros (filename & Hin & Hr). exists filename.
    destruct (Py.endswith filename ".json"); [|done].
    destruct (m !! _) as [[content|task_data]|]; try done.
    exists task_data. by simplify_eq.
  - intros (filename & task_data & Hin & Hend & Hfile & ->).
    exists filename. split; [done|]. by rewrite Hend, Hfile.
Qed.



(** ** Deletion *)

#[local] Set Warnings "-clear-no-such-hyp".

Lemma delete_loop_spec folder task_id exts m deleted :
  ∃ m' removed,
    App.delete_loop folder task_id exts m deleted
    = (m', deleted ++ (OsPath.basename <$> removed))
    ∧ NoDup removed
    ∧ (∀ q, q ∈ removed
            ↔ q ∈ folder_paths folder task_id exts ∧ is_Some (m !! q))
    ∧ (∀ q, m' !! q
            = if decide (q ∈ folder_paths folder task_id exts)
              then None else m !! q).
Proof.
  revert m deleted. induction exts as [|ext rest IH]; intros m deleted.
  - exists m, []. split_and!.
    + simpl. by rewrite app_nil_r.
    + constructor.
    + intros q. unfold folder_paths. rewrite fmap_nil.
      split; [by intros ?%elem_of_nil|by intros [?%elem_of_nil _]].
    + intros q. unfold folder_paths. rewrite fmap_nil.
      case_decide as Hq; [by apply elem_of_nil in Hq|done].
  - cbn [App.delete_loop]. unfold folder_paths in *. rewrite fmap_cons.
    set (p := OsPath.join folder (task_id +:+ "." +:+ ext)).
    unfold os_remove. destruct (is_file m p) eqn:Hp.
    + apply bool_decide_eq_true in Hp.
      destruct (IH (delete p m) (deleted ++ [OsPath.basename p]))
        as (m' & removed & -> & Hnd & Hin & Hlook).
      exists m', (p :: removed). split_and!.
      * by rewrite fmap_cons, <- app_assoc.
      * constructor; [|done]. intros [_ Hq]%Hin.
        rewrite lookup_delete_eq in Hq. by destruct Hq.
      * intros q. rewrite !elem_of_cons, Hin.
        destruct (decide (q = p)) as [->|Hne].
        { naive_solver. }
        rewrite lookup_delete_ne by done. naive_solver.
      * intros q. rewrite Hlook.
        destruct (decide (q = p)) as [->|Hne].
        { rewrite lookup_delete_eq. rewrite (decide_True _ _ (list_elem_of_here _ _)).
          by case_decide. }
        rewrite lookup_delete_ne by done.
        repeat case_decide; set_solver.
    + apply bool_decide_eq_false in Hp.
      destruct (IH m deleted) as (m' & removed & -> & Hnd & Hin & Hlook).
      exists m', removed. split_and!; [done|done| |].
      * intros q. rewrite elem_of_cons, Hin.
        split; [naive_solver|]. intros [[->|?] ?]; naive_solver.
      * intros q. rewrite Hlook.
        destruct (decide (q = p)) as [->|Hne].
        { rewrite (decide_True _ _ (list_elem_of_here _ _)).
          case_decide; [done|]. by apply eq_None_not_Some. }
        repeat case_decide; set_solver.
Qed.

Lemma endswith_suffix s suf :
  Py.endswith s suf = true → ∃ pre, s = pre +:+ suf.
Proof.
  induction s as [|a s IH]; cbn [Py.endswith].
  - intros [H|H]%orb_true_iff; [|done].
    apply bool_decide_eq_true in H as <-. by exists EmptyString.
  - intros [H|H]%orb_true_iff.
    + apply bool_decide_eq_true in H as <-. by exists EmptyString.
    + destruct (IH H) as [pre ->]. by exists (String a pre).
Qed.

Lemma rpartition_app_last c s t :
  Py.rpartition c t = None →
  Py.rpartition c (s +:+ String c t) = Some (s, t).
Proof.
  intros Ht. induction s as [|a s IH].
  - rewrite app_empty_l. simpl. rewrite Ht. by rewrite bool_decide_eq_true_2.
  - rewrite app_cons. simpl. by rewrite IH.
Qed.

Lemma no_slash_rpartition name :
  no_slash name = true → Py.rpartition "/" name = None.
Proof.
  unfold no_slash. induction name as [|a name IH]; [done|]. simpl.
  intros [Ha Hrest]%andb_true_iff. rewrite IH by done.
  apply negb_true_iff in Ha. by rewrite Ha.
Qed.

Lemma all_dots_startswith root rest :
  OsPath.all_dots root = true →
  Py.startswith (root +:+ String "." rest) "." = true.
Proof.
  destruct root as [|a root].
  - intros _. rewrite app_empty_l. cbn [Py.startswith].
    rewrite bool_decide_eq_true_2 by done. by destruct rest.
  - unfold OsPath.all_dots. simpl. intros [Ha _]%andb_true_iff.
    apply bool_decide_eq_true in Ha as ->. rewrite ?app_cons.
    cbn [Py.startswith]. rewrite bool_decide_eq_true_2 by done.
    by destruct (root +:+ String "." rest).
Qed.

(** A listed file whose stem is [task_id] is [task_id.json], unless the id
    starts with a dot. *)
Lemma listed_stem filename task_id :
  no_slash filename = true →
  Py.endswith filename ".json" = true →
  (OsPath.splitext filename).1 = task_id →
  Py.startswith task_id "." = false →
  filename = task_id +:+ ".json".
Proof.
  intros Hns [pre ->]%endswith_suffix Hstem Hdot.
  unfold OsPath.splitext in Hstem. rewrite no_slash_rpartition in Hstem by done.
  change ".json" with (String "." "json") in *.
  rewrite rpartition_app_last in Hstem by done.
  destruct (OsPath.all_dots pre) eqn:Hdots; cbn [fst] in Hstem.
  - subst task_id. by rewrite all_dots_startswith in Hdot.
  - rewrite app_empty_l in Hstem. by subst.
Qed.



(** ** The task with a failing object store *)

Lemma generate_subtitles_writes w audio out fmt model lang max dev s f s' :
  Generator.generate_subtitles w audio out fmt model lang max dev s
  = (inr f, s') →
  f = out ∧ ∃ content, fs s' !! out = Some (Data content).
Proof.
  unfold Generator.generate_subtitles, mbind, M_bind.
  destruct (Generator.load_model w model dev s) as [[e|dev'] s1]; [done|].
  unfold lift_result.
  destruct (whisper_transcribe w model dev' audio _) as [e|segments]; [done|].
  unfold raise_if at 1. destruct (open_w w out); [done|]. cbn [mret M_ret].
  destruct (Generator.render fmt max segments) as [content [e|]];
    cbn [put_file raise_if raise mret M_ret]; [done|].
  intros [= <- <-]. split; [done|]. exists content. cbn [fs].
  by rewrite lookup_insert_eq.
Qed.

Lemma produce_subtitles_writes w task_id media_url options s f s' :
  produce_subtitles w task_id media_url options s = (inr f, s') →
  ∃ content, fs s' !! f = Some (Data content).
Proof.
  unfold produce_subtitles, mbind, M_bind.
  destruct (Worker.resolve_media _ _ _ _ _) as [[e|media_path] s1]; [done|].
  destruct (Worker.is_video media_path).
  - destruct (update_state EXTRACTING 30 s1) as [[e|[]] s2]; [done|].
    destruct (Generator.extract_audio _ _ _) as [[e|audio] s3]; [done|].
    destruct (update_state TRANSCRIBING 50 s3) as [[e|[]] s4]; [done|].
    intros [-> H]%generate_subtitles_writes. exact H.
  - cbn [mret M_ret].
    destruct (update_state TRANSCRIBING 50 s1) as [[e|[]] s4]; [done|].
    intros [-> H]%generate_subtitles_writes. exact H.
Qed.

(** C7. Object storage is enabled, the subtitle file of the task has been
    produced (media resolved, audio extracted, transcription done and
    written), and its upload fails. Then the task does not fail for it: as
    long as its record can be written, it returns the success response, with
    the local file name, the local URL [/results/<file>] and no remote URL;
    the record written has status SUCCESS and no remote URL; and the whole
    run is the run of the same task with object storage switched off. *)
Theorem upload_failure_does_not_fail_the_task
    (w : World) (m : gmap string file) (task_id : string)
    (media_url : option string) (options : OptionsArg)
    (subtitle_file : string) (s1 : env_state) :
  USE_OBS_STORAGE w = true →
  produce_subtitles w task_id media_url (Worker.merge_options options)
    (started_state m) = (inr subtitle_file, s1) →
  (OBSStorage.upload_file w (fs s1) subtitle_file).1 = false →
  open_w w (record_path w task_id) = None →
  ∃ content,
    fs s1 !! subtitle_file = Some (Data content)
    ∧ Worker.generate_subtitle_task w task_id media_url options
        (initial_state m)
      = (inr (local_response task_id subtitle_file),
         {| fs := <[record_path w task_id :=
                      Json (local_record task_id media_url
                              (Worker.merge_options options)
                              subtitle_file content)]> (fs s1);
            updates := updates s1 |})
    ∧ Worker.generate_subtitle_task w task_id media_url options
        (initial_state m)
      = Worker.generate_subtitle_task (without_obs w) task_id media_url
          options (initial_state m).
Proof.
  intros Huse Hprod Hfail Hopen.
  destruct (produce_subtitles_writes _ _ _ _ _ _ _ Hprod) as [content Hfile].
  destruct (publish_after_failed_upload w task_id media_url
              (Worker.merge_options options) subtitle_file content s1
              Huse Hfail Hfile Hopen) as [Hsame Hpub].
  exists content. split; [done|].
  assert (Hstart : ∀ w', Worker.generate_subtitle_task w' task_id media_url
            options (initial_state m)
          = try_except
              (produce_subtitles w' task_id media_url
                 (Worker.merge_options options)
               ≫= Worker.publish w' task_id media_url
                    (Worker.merge_options options))
              (λ e, mret (Failed {| fail_status := TASK_STATUS FAILURE;
                                    fail_error := str_exn e |}))
              (started_state m)).
  { intros w'. unfold Worker.generate_subtitle_task, try_except.
    unfold mbind at 1, M_bind at 1. cbn [update_state initial_state fs updates].
    rewrite task_body_produce_publish. reflexivity. }
  rewrite !Hstart. unfold try_except, mbind, M_bind.
  change (produce_subtitles (without_obs w) task_id media_url
            (Worker.merge_options options) (started_state m))
    with (produce_subtitles w task_id media_url
            (Worker.merge_options options) (started_state m)).
  rewrite Hprod, <- Hsame, Hpub. done.
Qed.

Lemma upload_failure_does_not_fail_the_task_witness :
  (Worker.generate_subtitle_task upload_failing_world "t1"
     (Some "http://media.example/a.mp3") (default_args "srt" None)
     (initial_state ∅)).1
  = inr (local_response "t1" "/srv/results/t1.srt").
Proof.
  pose proof (upload_failure_does_not_fail_the_task upload_failing_world ∅
    "t1" (Some "http://media.example/a.mp3") (default_args "srt" None)
    "/srv/results/t1.srt"
    (produce_subtitles upload_failing_world "t1"
       (Some "http://media.example/a.mp3")
       (Worker.merge_options (default_args "srt" None))
       (started_state ∅)).2) as H.
  destruct H as (content & _ & H & _);
    [reflexivity|vm_compute; reflexivity|vm_compute; reflexivity
    |reflexivity|].
  rewrite H. reflexivity.
Defined.

(** ** The lookup of a plain key

    For a key that is a plain name the lookup is the search for the key and
    the key followed by an extension, in the uploads folder and then in the
    videos folder. *)

Lemma first_existing_None m paths :
  first_existing m paths = None ↔ ∀ p, p ∈ paths → is_file m p = false.
Proof.
  induction paths as [|q paths IH].
  - split; [by intros _ p ?%elem_of_nil|done].
  - rewrite first_existing_cons. destruct (is_file m q) eqn:Hq.
    + split; [done|]. intros H. specialize (H q (list_elem_of_here _ _)).
      congruence.
    + rewrite IH. split.
      * intros H p [->|Hp]%elem_of_cons; auto.
      * intros H p Hp. apply H. by right.
Qed.

Lemma first_existing_absorb m l1 l2 :
  l2 ⊆ l1 → first_existing m (l1 ++ l2) = first_existing m l1.
Proof.
  intros Hsub. rewrite first_existing_app.
  destruct (first_existing m l1) eqn:H1; [done|].
  apply first_existing_None. intros p Hp.
  by apply (proj1 (first_existing_None m l1) H1), Hsub.
Qed.

Lemma char_free_cons c a s :
  char_free c (String a s) = negb (bool_decide (a = c)) && char_free c s.
Proof. reflexivity. Qed.

Lemma char_free_app c s t :
  char_free c (s +:+ t) = char_free c s && char_free c t.
Proof.
  induction s as [|a s IH]; [done|].
  by rewrite app_cons, !char_free_cons, IH, andb_assoc.
Qed.

Lemma char_free_rpartition c s :
  char_free c s = true → Py.rpartition c s = None.
Proof.
  induction s as [|a s IH]; [done|]. rewrite char_free_cons.
  intros [Ha Hs]%andb_true_iff. cbn [Py.rpartition]. rewrite IH by done.
  apply negb_true_iff in Ha. by rewrite Ha.
Qed.

Lemma rpartition_app_free c s t :
  char_free c t = true →
  Py.rpartition c (s +:+ t)
  = match Py.rpartition c s with
    | Some (b, t0) => Some (b, t0 +:+ t)
    | None => None
    end.
Proof.
  intros Ht. induction s as [|a s IH].
  - rewrite app_empty_l. by rewrite char_free_rpartition.
  - rewrite app_cons. cbn [Py.rpartition]. rewrite IH.
    destruct (Py.rpartition c s) as [[b t0]|]; [done|].
    by destruct (bool_decide (a = c)).
Qed.

Lemma basename_app_free s t :
  char_free "/" t = true → OsPath.basename (s +:+ t) = OsPath.basename s +:+ t.
Proof.
  intros Ht. unfold OsPath.basename. rewrite rpartition_app_free by done.
  by destruct (Py.rpartition "/" s) as [[b t0]|].
Qed.

Lemma endswith_cons a s suf :
  Py.endswith (String a s) suf
  = bool_decide (String a s = suf) || Py.endswith s suf.
Proof. reflexivity. Qed.

Lemma endswith_refl s : Py.endswith s s = true.
Proof.
  destruct s; cbn [Py.endswith]; apply orb_true_iff; left;
    by apply bool_decide_eq_true_2.
Qed.

Lemma endswith_app s suf : Py.endswith (s +:+ suf) suf = true.
Proof.
  induction s as [|a s IH]; [by rewrite app_empty_l, endswith_refl|].
  rewrite app_cons, endswith_cons, IH. by rewrite orb_true_r.
Qed.

(** The prefix [os.path.join] puts before a name is empty or ends with a
    slash: nothing of it belongs to the last component. *)
Lemma dir_prefix_slash d :
  OsPath.dir_prefix d = EmptyString
  ∨ ∃ d', OsPath.dir_prefix d = d' +:+ "/".
Proof.
  unfold OsPath.dir_prefix. destruct d as [|a d]; [by left|]. right.
  destruct (Py.endswith (String a d) "/") eqn:Hend.
  - by apply endswith_suffix.
  - by eexists.
Qed.

Lemma split_last_component d name :
  char_free "/" name = true →
  match Py.rpartition "/" (OsPath.dir_prefix d +:+ name) with
  | Some (d0, f) => (d0 +:+ "/", f)
  | None => (EmptyString, OsPath.dir_prefix d +:+ name)
  end = (OsPath.dir_prefix d, name).
Proof.
  intros Hname. rewrite rpartition_app_free by done.
  destruct (dir_prefix_slash d) as [->|[d' ->]].
  - by rewrite app_empty_l.
  - change "/" with (String "/" EmptyString) at 2.
    rewrite (rpartition_app_last "/" d' EmptyString) by done.
    by rewrite app_empty_l.
Qed.

Lemma basename_dir_prefix d : OsPath.basename (OsPath.dir_prefix d) = EmptyString.
Proof.
  destruct (dir_prefix_slash d) as [->|[d' ->]]; [done|].
  unfold OsPath.basename. change "/" with (String "/" EmptyString) at 2.
  by rewrite (rpartition_app_last "/" d' EmptyString).
Qed.

Lemma join_free d name :
  char_free "/" name = true →
  OsPath.join d name = OsPath.dir_prefix d +:+ name.
Proof. apply join_relative. Qed.

Section PlainKey.

Variables (d key : string).
Hypothesis Hplain : plain_key key = true.

Lemma plain_key_parts :
  nonempty key = true ∧ char_free "/" key = true ∧ char_free "." key = true.
Proof.
  unfold plain_key in Hplain.
  apply andb_true_iff in Hplain as [[??]%andb_true_iff ?]. done.
Qed.

Lemma plain_key_ext_free ext :
  char_free "/" ext = true → char_free "/" (key +:+ "." +:+ ext) = true.
Proof.
  intros Hext. destruct plain_key_parts as (_ & Hs & _).
  rewrite !char_free_app, Hs, Hext. done.
Qed.

Lemma join_plain : OsPath.join d key = OsPath.dir_prefix d +:+ key.
Proof. apply join_relative. apply plain_key_parts. Qed.

Lemma join_plain_ext ext :
  char_free "/" ext = true →
  OsPath.join d (key +:+ "." +:+ ext) = OsPath.join d key +:+ "." +:+ ext.
Proof.
  intros Hext. rewrite join_plain.
  rewrite (join_free d (key +:+ "." +:+ ext))
    by (by apply plain_key_ext_free).
  by rewrite app_assoc_str.
Qed.

Lemma plain_key_not_all_dots : OsPath.all_dots key = false.
Proof.
  destruct plain_key_parts as (Hne & _ & Hdot).
  destruct key as [|a k]; [done|]. rewrite char_free_cons in Hdot.
  apply andb_true_iff in Hdot as [Ha _]. apply negb_true_iff in Ha.
  unfold OsPath.all_dots. simpl. by rewrite Ha.
Qed.

(** The key has no extension to replace. *)
Lemma splitext_plain :
  OsPath.splitext (OsPath.join d key) = (OsPath.join d key, EmptyString).
Proof.
  destruct plain_key_parts as (_ & Hs & Hdot).
  rewrite join_plain. unfold OsPath.splitext.
  rewrite split_last_component by done.
  by rewrite char_free_rpartition.
Qed.

(** The root of key-plus-[.mp4] is the key. *)
Lemma splitext_plain_mp4 :
  (OsPath.splitext (OsPath.join d (key +:+ ".mp4"))).1 = OsPath.join d key.
Proof.
  destruct plain_key_parts as (_ & Hs & Hdot).
  rewrite join_plain.
  rewrite (join_free d (key +:+ ".mp4"))
    by (by rewrite char_free_app, Hs).
  unfold OsPath.splitext.
  rewrite split_last_component by (by rewrite char_free_app, Hs).
  change ".mp4" with (String "." "mp4").
  rewrite rpartition_app_last by done.
  by rewrite plain_key_not_all_dots.
Qed.

(** A path that ends with the plain key does not end with an extension. *)
Lemma endswith_plain ext :
  char_free "/" ext = true →
  Py.endswith (OsPath.join d key) ("." +:+ ext) = false.
Proof.
  intros Hext. destruct plain_key_parts as (_ & Hs & Hdot).
  destruct (Py.endswith _ _) eqn:Hend; [|done].
  apply endswith_suffix in Hend as [pre Hpre].
  apply (f_equal OsPath.basename) in Hpre.
  rewrite join_plain, !basename_app_free, basename_dir_prefix in Hpre;
    [|done|done].
  rewrite app_empty_l in Hpre. rewrite Hpre in Hdot.
  change ("." +:+ ext) with (String "." ext) in Hdot.
  rewrite char_free_app, char_free_cons in Hdot.
  rewrite bool_decide_eq_true_2 in Hdot by done.
  by rewrite andb_false_r in Hdot.
Qed.

Lemma extension_variants_plain :
  extension_variants (OsPath.join d key) Worker.LOOKUP_EXTENSIONS
  = (λ ext, OsPath.join d (key +:+ "." +:+ ext)) <$> Worker.LOOKUP_EXTENSIONS.
Proof.
  unfold extension_variants. rewrite splitext_plain. cbn [fst].
  assert (Forall (λ ext, char_free "/" ext = true) Worker.LOOKUP_EXTENSIONS)
    as Hexts by (repeat constructor).
  induction Hexts as [|ext exts Hext _ IH]; [done|].
  rewrite filter_cons, decide_True by (by apply endswith_plain).
  rewrite !fmap_cons, IH. by rewrite join_plain_ext.
Qed.

Lemma extension_variants_plain_mp4 :
  OsPath.join d (key +:+ ".mp4")
    :: extension_variants (OsPath.join d (key +:+ ".mp4"))
         Worker.LOOKUP_EXTENSIONS
  ⊆ OsPath.join d key
      :: ((λ ext, OsPath.join d (key +:+ "." +:+ ext))
          <$> Worker.LOOKUP_EXTENSIONS).
Proof.
  intros p [->|Hp]%elem_of_cons.
  - right. apply list_elem_of_fmap. exists "mp4". split; [done|].
    unfold Worker.LOOKUP_EXTENSIONS. apply list_elem_of_here.
  - right. unfold extension_variants in Hp.
    apply list_elem_of_fmap in Hp as (ext & -> & Hext).
    apply list_elem_of_filter in Hext as [_ Hext].
    rewrite splitext_plain_mp4. apply list_elem_of_fmap. exists ext.
    split; [|done]. rewrite join_plain_ext; [done|].
    assert (Forall (λ ext, char_free "/" ext = true) Worker.LOOKUP_EXTENSIONS)
      as Hexts by (repeat constructor).
    by apply (proj1 (Forall_forall _ _) Hexts).
Qed.

End PlainKey.

(** For a plain key the lookup finds what the search for the key, then the
    key followed by each extension, in the uploads and then the videos
    folder finds. *)
Lemma plain_key_lookup w m key :
  plain_key key = true →
  first_existing m (lookup_candidates w key)
  = first_existing m (key_plus_extension_candidates w key).
Proof.
  intros Hplain.
  unfold lookup_candidates, key_plus_extension_candidates, Worker.local_paths.
  rewrite !fmap_cons, !fmap_nil. cbn [concat]. rewrite !app_nil_r.
  rewrite (extension_variants_plain (UPLOAD_FOLDER w) key Hplain).
  rewrite (extension_variants_plain (VIDEOS_FOLDER w) key Hplain).
  rewrite (app_assoc (_ :: _) (_ :: _)).
  rewrite (first_existing_app m (_ ++ _)).
  rewrite (first_existing_absorb m _ _
             (extension_variants_plain_mp4 (UPLOAD_FOLDER w) key Hplain)).
  rewrite (first_existing_absorb m _ _
             (extension_variants_plain_mp4 (VIDEOS_FOLDER w) key Hplain)).
  by rewrite <- first_existing_app.
Qed.

(** ** The code on concrete inputs *)

Example splitext_replaces_last_extension :
  OsPath.splitext "/srv/up/a.b.mp4" = ("/srv/up/a.b", ".mp4").
Proof. vm_compute. reflexivity. Qed.

Example splitext_keeps_leading_dots :
  OsPath.splitext "/srv/up.d/.json" = ("/srv/up.d/.json", "").
Proof. vm_compute. reflexivity. Qed.

Example join_relative_and_absolute :
  OsPath.join "/srv/up" "k.mp4" = "/srv/up/k.mp4"
  ∧ OsPath.join "/srv/up/" "k.mp4" = "/srv/up/k.mp4"
  ∧ OsPath.join "/srv/up" "/etc/k" = "/etc/k".
Proof. split_and!; vm_compute; reflexivity. Qed.

Example split_and_strip :
  Py.split "  ab  c d " = ["ab"; "c"; "d"] ∧ Py.strip "  ab  c d " = "ab  c d".
Proof. split; vm_compute; reflexivity. Qed.

Example format_0d_pads :
  (Py.format_0d 2 7, Py.format_0d 3 45, Py.format_0d 2 123)
  = ("07", "045", "123").
Proof. vm_compute. reflexivity. Qed.

Example endswith_and_lower :
  Py.endswith "a/b.mp4" ".mp4" = true ∧ Py.endswith "a/b.mp4" ".mp3" = false
  ∧ Py.lower "Mp4.AVI" = "mp4.avi" ∧ Py.last_dot_field "http://h/a.b.MP3" = "MP3".
Proof. split_and!; vm_compute; reflexivity. Qed.

(** A remote video: downloaded, its audio extracted, transcribed and
    published. *)
Example remote_video_run :
  (lifetime example_world ∅ "t1" (Some "http://media.example/a.mp4")
     (default_args "srt" None)).*1
  = [PENDING; STARTED; DOWNLOADING; EXTRACTING; TRANSCRIBING; SUCCESS]
  ∧ (Worker.generate_subtitle_task example_world "t1"
       (Some "http://media.example/a.mp4") (default_args "srt" None)
       (initial_state ∅)).1
    = inr (local_response "t1" "/srv/results/t1.srt")
  ∧ final_fs example_world ∅ "t1" (Some "http://media.example/a.mp4")
      (default_args "srt" None) !! "/srv/results/t1.srt"
    = Some (Data ("1" +:+ nl +:+ "00:00:00,000 --> 00:00:02,500" +:+ nl +:+
                  "Hello world" +:+ nl +:+ nl)).
Proof. split_and!; vm_compute; reflexivity. Qed.

(** The worker called with neither a key nor a URL: its own check raises
    inside the [try], after [STARTED] has been published. *)
Example worker_checks_the_reference_after_started :
  lifetime example_world ∅ "t1" None (default_args "srt" None)
  = [(PENDING, InfoNone);
     (STARTED, InfoMeta {| meta_status := TASK_STATUS STARTED;
                           meta_progress := 0 |});
     (SUCCESS, InfoReturn (failed "未提供media_key或有效的media_url"))].
Proof. vm_compute. reflexivity. Qed.

Example delete_reports_removed_files :
  App.delete_task example_world two_tasks "t1"
  = inr ({[ "/srv/results/t2.json" := Json (example_record "t2");
            "/srv/results/t2.srt" := Data "subtitles" ]},
         ["t1.json"; "t1.srt"; "t1.mp3"; "t1.mp4"])
  ∧ rec_task_id <$> App.list_tasks example_world two_tasks = ["t1"; "t2"].
Proof. split; vm_compute; reflexivity. Qed.

Example wrapping_keeps_long_words_whole :
  Generator.apply_max_line_length (Some 6) "a extraordinarily long word"
  = "a" +:+ nl +:+ "extraordinarily" +:+ nl +:+ "long" +:+ nl +:+ "word".
Proof. vm_compute. reflexivity. Qed.

(** * Further properties *)

(** ** Timestamps and rendering *)





(** X4. With a format other than srt and vtt nothing is ever written: with
    no segment the rendering succeeds with an empty file, with a first
    segment it raises the [ValueError] of [format_timestamp] before writing
    anything. *)
Theorem unknown_format_writes_nothing (format_type : string)
    (max_line_length : option Z) (seg : segment) (rest : list segment) :
  format_type ≠ "srt" → format_type ≠ "vtt" →
  Generator.render format_type max_line_length [] = (EmptyString, None)
  ∧ Generator.render format_type max_line_length (seg :: rest)
    = (EmptyString,
       Some (ValueError ("Unsupported format type: " +:+ format_type))).
Proof.
  intros Hsrt Hvtt. unfold Generator.render.
  rewrite (bool_decide_eq_false_2 _ Hvtt).
  split; [done|]. cbn [Generator.write_segments].
  unfold Generator.write_entry, Generator.format_timestamp.
  by rewrite (bool_decide_eq_false_2 _ Hsrt), (bool_decide_eq_false_2 _ Hvtt).
Qed.

Lemma unknown_format_writes_nothing_witness :
  Generator.render "txt" None example_segments
  = (EmptyString, Some (ValueError "Unsupported format type: txt")).
Proof.
  apply (unknown_format_writes_nothing "txt" None _ []); discriminate.
Defined.

(** ** Wrapping and the words of the text *)

Lemma wrap_lines_groups max_line_length text :
  Generator.wrap_lines max_line_length text
  = Py.join " " <$> wrap_groups max_line_length (Py.split text) [].
Proof.
  pose proof (wrap_loop_groups max_line_length (Py.split text) [] []
                (split_nonempty text) (Forall_nil_2 _)) as H.
  unfold finish in H. unfold Generator.wrap_lines.
  change (Py.join " " []) with EmptyString in H.
  by destruct (Generator.wrap_loop _ _ _ _) as [lines cur].
Qed.

Lemma split_go_nil cur : Py.split_go cur EmptyString = flush cur.
Proof. by destruct cur. Qed.

Lemma split_go_cons cur a s :
  Py.split_go cur (String a s)
  = if Py.isspace a then flush cur ++ Py.split_go EmptyString s
    else Py.split_go (cur +:+ String a EmptyString) s.
Proof. by destruct cur. Qed.

(** A blank ends the word being read and starts the splitting afresh. *)
Lemma split_go_app_blank cur s1 a s2 :
  Py.isspace a = true →
  Py.split_go cur (s1 +:+ String a s2) = Py.split_go cur s1 ++ Py.split s2.
Proof.
  intros Ha. revert cur. induction s1 as [|b s1 IH]; intros cur.
  - rewrite app_empty_l, split_go_cons, Ha, split_go_nil. done.
  - rewrite app_cons, !split_go_cons. destruct (Py.isspace b).
    + by rewrite IH, app_assoc.
    + apply IH.
Qed.

Lemma blank_free_cons a s :
  blank_free (String a s) = negb (Py.isspace a) && blank_free s.
Proof. reflexivity. Qed.

Lemma blank_free_app s t :
  blank_free (s +:+ t) = blank_free s && blank_free t.
Proof.
  induction s as [|a s IH]; [done|].
  by rewrite app_cons, !blank_free_cons, IH, andb_assoc.
Qed.

(** Without a blank the whole string is one word. *)
Lemma split_go_word cur word :
  blank_free word = true →
  Py.split_go cur word = flush (cur +:+ word).
Proof.
  revert cur. induction word as [|a word IH]; intros cur Hw.
  - by rewrite split_go_nil, app_empty_r.
  - rewrite blank_free_cons in Hw. apply andb_true_iff in Hw as [Ha Hw].
    apply negb_true_iff in Ha. rewrite split_go_cons, Ha, IH by done.
    by rewrite app_assoc_str.
Qed.

(** The words [split] returns are not empty and hold no blank. *)
Lemma split_go_words cur s :
  blank_free cur = true →
  Forall (λ word, nonempty word = true ∧ blank_free word = true)
         (Py.split_go cur s).
Proof.
  revert cur. induction s as [|a s IH]; intros cur Hcur.
  - rewrite split_go_nil. destruct cur; by repeat constructor.
  - rewrite split_go_cons. destruct (Py.isspace a) eqn:Ha.
    + apply Forall_app. split; [destruct cur; by repeat constructor|].
      by apply IH.
    + apply IH. rewrite blank_free_app, Hcur, blank_free_cons, Ha. done.
Qed.

Lemma split_join_words (g : list string) :
  Forall (λ word, nonempty word = true ∧ blank_free word = true) g →
  Py.split (Py.join " " g) = g.
Proof.
  induction g as [|x g IH]; [done|]. intros Hg.
  inversion_clear Hg as [|?? [Hne Hbf] Hrest].
  assert (Py.split x = [x]) as Hx.
  { unfold Py.split. rewrite split_go_word by done. by destruct x. }
  destruct g as [|y g]; [done|].
  change (Py.join " " (x :: y :: g))
    with (x +:+ String " " (Py.join " " (y :: g))).
  unfold Py.split at 1. rewrite split_go_app_blank by done.
  fold (Py.split x). by rewrite Hx, IH.
Qed.

Lemma split_join_lines (lines : list string) :
  Py.split (Py.join nl lines) = concat (Py.split <$> lines).
Proof.
  induction lines as [|l lines IH]; [done|].
  destruct lines as [|l' lines].
  - simpl. by rewrite app_nil_r.
  - change (Py.join nl (l :: l' :: lines))
      with (l +:+ String "010" (Py.join nl (l' :: lines))).
    unfold Py.split at 1. rewrite split_go_app_blank by done.
    fold (Py.split l). rewrite IH. done.
Qed.

Lemma Forall_concat_groups {A} (P : A → Prop) (groups : list (list A)) :
  Forall P (concat groups) → Forall (Forall P) groups.
Proof.
  induction groups as [|g groups IH]; [constructor|]. simpl.
  intros [??]%Forall_app. constructor; auto.
Qed.

Lemma split_join_groups (groups : list (list string)) :
  Forall (Forall (λ word, nonempty word = true ∧ blank_free word = true))
         groups →
  Py.split <$> (Py.join " " <$> groups) = groups.
Proof.
  induction 1 as [|g groups Hg _ IH]; [done|].
  rewrite !fmap_cons, IH. f_equal. by apply split_join_words.
Qed.


Lemma wrap_groups_negative m (words : list string) (c : string) :
  m < 0 → Forall word_ok (c :: words) →
  wrap_groups m words [c] = [c] :: ((λ word, [word]) <$> words).
Proof.
  intros Hm. revert c. induction words as [|word rest IH]; intros c Hok.
  - done.
  - inversion_clear Hok as [|?? Hc Hrest]. cbn [wrap_groups].
    change (Py.join " " [c]) with c. rewrite Hc.
    pose proof (len_nonneg c). pose proof (len_nonneg word).
    replace (Py.len c + Py.len word + 1 >? m) with true by lia.
    cbn [andb]. by rewrite IH.
Qed.



(** ** The subtitle generator and the device *)

Ltac run_monad :=
  unfold raise_if, lift_result, put_file, get_fs, raise in *;
  unfold mbind, M_bind, mret, M_ret in *;
  cbv beta iota in *.

(** X7. When [generate_subtitles] returns, it returns the output path it
    was given; the model was loaded on the device asked for or on the CPU,
    the audio was transcribed on that device, and the only change to the
    file system is the output file, which holds the complete rendering of
    the transcribed segments. *)
Theorem subtitles_are_the_rendered_transcription
    (w : World) (audio out fmt model : string) (lang : option string)
    (max : option Z) (dev : device) (s : env_state) (f : string)
    (s' : env_state) :
  Generator.generate_subtitles w audio out fmt model lang max dev s
  = (inr f, s') →
  f = out
  ∧ ∃ dev' segments,
      (dev' = dev ∨ dev' = cpu)
      ∧ whisper_load_model w model dev' = None
      ∧ whisper_transcribe w model dev' audio
          (if Py.truthy lang then lang else None) = inr segments
      ∧ (Generator.render fmt max segments).2 = None
      ∧ s' = {| fs := <[out := Data (Generator.render fmt max segments).1]>
                        (fs s);
                updates := updates s |}.
Proof.
  unfold Generator.generate_subtitles, Generator.load_model. run_monad.
  destruct (whisper_load_model w model dev) as [e|] eqn:Hdev.
  - destruct (whisper_load_model w model cpu) as [e'|] eqn:Hcpu; cbv beta iota; [done|].
    destruct (whisper_transcribe w model cpu audio
                (if Py.truthy lang then lang else None)) as [e'|segments] eqn:Ht;
      cbv beta iota; [done|].
    destruct (open_w w out); cbv beta iota; [done|].
    destruct (Generator.render fmt max segments) as [content [err|]] eqn:Hr;
      cbv beta iota; [done|].
    intros [= <- <-]. split; [done|]. exists cpu, segments.
    rewrite Hr. by split_and!; [right|..].
  - destruct (whisper_transcribe w model dev audio
                (if Py.truthy lang then lang else None)) as [e'|segments] eqn:Ht;
      cbv beta iota; [done|].
    destruct (open_w w out); cbv beta iota; [done|].
    destruct (Generator.render fmt max segments) as [content [err|]] eqn:Hr;
      cbv beta iota; [done|].
    intros [= <- <-]. split; [done|]. exists dev, segments.
    rewrite Hr. by split_and!; [left|..].
Qed.

Lemma subtitles_are_the_rendered_transcription_witness :
  (Generator.generate_subtitles example_world "/srv/uploads/t1.mp3"
     "/srv/results/t1.srt" "srt" "base" None None cuda (initial_state ∅)).1
  = inr "/srv/results/t1.srt".
Proof.
  destruct (Generator.generate_subtitles example_world "/srv/uploads/t1.mp3"
              "/srv/results/t1.srt" "srt" "base" None None cuda
              (initial_state ∅)) as [[e|f] s'] eqn:Hrun.
  - vm_compute in Hrun. discriminate Hrun.
  - destruct (subtitles_are_the_rendered_transcription _ _ _ _ _ _ _ _ _ _ _
                Hrun) as [-> _].
    reflexivity.
Defined.

(** X8. Whether it returns or raises, [generate_subtitles] changes no file
    but its output file, and publishes no state. *)
Theorem generate_subtitles_touches_only_the_output
    (w : World) (audio out fmt model : string) (lang : option string)
    (max : option Z) (dev : device) (s : env_state) (p : string) :
  p ≠ out →
  fs (Generator.generate_subtitles w audio out fmt model lang max dev s).2
    !! p = fs s !! p
  ∧ updates
      (Generator.generate_subtitles w audio out fmt model lang max dev s).2
    = updates s.
Proof.
  intros Hp. split; [|apply ku_generate_subtitles].
  unfold Generator.generate_subtitles, Generator.load_model. run_monad.
  destruct (whisper_load_model w model dev) as [e|].
  - destruct (whisper_load_model w model cpu) as [e'|]; cbv beta iota; [done|].
    destruct (whisper_transcribe w model cpu audio
                (if Py.truthy lang then lang else None)) as [e'|segments];
      cbv beta iota; [done|].
    destruct (open_w w out); cbv beta iota; [done|].
    destruct (Generator.render fmt max segments) as [content [err|]];
      cbn [fs snd]; by rewrite lookup_insert_ne.
  - destruct (whisper_transcribe w model dev audio
                (if Py.truthy lang then lang else None)) as [e'|segments];
      cbv beta iota; [done|].
    destruct (open_w w out); cbv beta iota; [done|].
    destruct (Generator.render fmt max segments) as [content [err|]];
      cbn [fs snd]; by rewrite lookup_insert_ne.
Qed.

Lemma generate_subtitles_touches_only_the_output_witness :
  fs (Generator.generate_subtitles example_world "/srv/uploads/t1.mp3"
        "/srv/results/t1.srt" "srt" "base" None None cuda
        (initial_state two_tasks)).2 !! "/srv/results/t2.srt"
  = Some (Data "subtitles").
Proof.
  destruct (generate_subtitles_touches_only_the_output example_world
              "/srv/uploads/t1.mp3" "/srv/results/t1.srt" "srt" "base" None
              None cuda (initial_state two_tasks) "/srv/results/t2.srt")
    as [-> _]; [discriminate|].
  reflexivity.
Defined.

(** X9. A model that cannot be loaded on the device asked for makes the
    whole call behave as the call for the CPU: same result or exception,
    same file written. *)
Theorem failed_load_is_a_cpu_run
    (w : World) (audio out fmt model : string) (lang : option string)
    (max : option Z) (dev : device) (e : exn) (s : env_state) :
  whisper_load_model w model dev = Some e →
  Generator.generate_subtitles w audio out fmt model lang max dev s
  = Generator.generate_subtitles w audio out fmt model lang max cpu s.
Proof.
  intros Hdev.
  unfold Generator.generate_subtitles, Generator.load_model. run_monad.
  rewrite Hdev. by destruct (whisper_load_model w model cpu).
Qed.

Lemma failed_load_is_a_cpu_run_witness :
  Generator.generate_subtitles load_failing_world "/srv/uploads/t1.mp3"
    "/srv/results/t1.srt" "srt" "base" None None cuda (initial_state ∅)
  = Generator.generate_subtitles load_failing_world "/srv/uploads/t1.mp3"
      "/srv/results/t1.srt" "srt" "base" None None cpu (initial_state ∅).
Proof.
  apply (failed_load_is_a_cpu_run load_failing_world _ _ _ _ _ _ cuda
           (ExternalError "CUDA out of memory")).
  reflexivity.
Defined.

(** X10. The worker and the command line choose the device exactly as
    [get_optimal_device] does. *)
Theorem device_choice_agrees (w : World) (options : Options)
    (no_mps cpu_flag : bool) :
  Worker.select_device w options
  = DeviceUtils.get_optimal_device w (opt_no_mps options) (opt_cpu options)
  ∧ Cli.choose_device w no_mps cpu_flag
    = DeviceUtils.get_optimal_device w no_mps cpu_flag.
Proof.
  unfold Worker.select_device, Cli.choose_device,
    DeviceUtils.get_optimal_device.
  split; [by destruct (opt_cpu options)|by destruct cpu_flag].
Qed.

(** X11. MPS comes before CUDA: CUDA is chosen exactly when the CPU is not
    forced, CUDA is available and MPS is unavailable or switched off; and
    MPS exactly when the CPU is not forced, MPS is available, not switched
    off and its device can be created. So a failing MPS device leaves the
    CPU, even where CUDA is available. *)
Theorem cuda_only_without_mps (w : World) (no_mps cpu_flag : bool) :
  (DeviceUtils.get_optimal_device w no_mps cpu_flag = cuda
   ↔ cpu_flag = false ∧ cuda_is_available w = true
     ∧ mps_is_available w && negb no_mps = false)
  ∧ (DeviceUtils.get_optimal_device w no_mps cpu_flag = mps
     ↔ cpu_flag = false ∧ mps_is_available w && negb no_mps = true
       ∧ torch_device_mps w = None).
Proof.
  unfold DeviceUtils.get_optimal_device.
  destruct cpu_flag, (mps_is_available w && negb no_mps),
    (torch_device_mps w), (cuda_is_available w); naive_solver.
Qed.

(** ** Downloads *)

Lemma mem_true x l : Py.mem x l = true ↔ x ∈ l.
Proof. unfold Py.mem. apply bool_decide_eq_true. Qed.

Lemma mem_false x l : Py.mem x l = false ↔ x ∉ l.
Proof. unfold Py.mem. apply bool_decide_eq_false. Qed.

(** What follows the last dot of [s.e], for [e] without a dot, is [e]. *)
Lemma last_dot_field_app s e :
  char_free "." e = true → Py.last_dot_field (s +:+ "." +:+ e) = e.
Proof.
  intros He. unfold Py.last_dot_field.
  change ("." +:+ e) with (String "." e).
  by rewrite rpartition_app_last by by apply char_free_rpartition.
Qed.

Lemma join_ends d name : ∃ pre, OsPath.join d name = pre +:+ name.
Proof.
  unfold OsPath.join. destruct (Py.startswith name "/").
  - by exists EmptyString.
  - by eexists.
Qed.

Lemma download_extension_allowed url :
  download_extension url ∈ ALLOWED_EXTENSIONS.
Proof.
  unfold download_extension.
  destruct (Py.mem _ ALLOWED_EXTENSIONS) eqn:Hmem.
  - by apply mem_true.
  - unfold ALLOWED_EXTENSIONS. set_solver.
Qed.

Lemma download_stores_lemma
    (w : World) (url task_id : string) (s : env_state) :
  download_extension url ∈ ALLOWED_EXTENSIONS
  ∧ match Worker.download_media w url task_id s with
    | (inr path, s') =>
        path = OsPath.join (UPLOAD_FOLDER w)
                 (task_id +:+ "." +:+ download_extension url)
        ∧ ∃ body, requests_get w url = inr body
                  ∧ s' = {| fs := <[path := Data body]> (fs s);
                            updates := updates s |}
    | (inl e, s') => s' = s
    end.
Proof.
  split; [apply download_extension_allowed|].
  unfold Worker.download_media. fold (download_extension url). run_monad.
  destruct (requests_get w url) as [e|body]; cbv beta iota; [done|].
  destruct (open_w w _); cbv beta iota; [done|].
  split; [done|]. by exists body.
Qed.


Lemma download_is_video_unless_audio_lemma
    (w : World) (url task_id : string) (s : env_state) (path : string)
    (s' : env_state) :
  Worker.download_media w url task_id s = (inr path, s') →
  Worker.is_video path
  = negb (Py.mem (Py.lower (Py.last_dot_field url)) AUDIO_EXTENSIONS).
Proof.
  intros Hrun.
  pose proof (download_stores_lemma w url task_id s)
    as [Hext Hpath].
  rewrite Hrun in Hpath. destruct Hpath as [-> _].
  destruct (join_ends (UPLOAD_FOLDER w)
              (task_id +:+ "." +:+ download_extension url)) as [pre ->].
  unfold Worker.is_video. rewrite <- app_assoc_str.
  assert (char_free "." (download_extension url) = true) as Hfree.
  { unfold ALLOWED_EXTENSIONS in Hext.
    repeat (apply elem_of_cons in Hext as [->|Hext]; [done|]).
    by apply elem_of_nil in Hext. }
  rewrite last_dot_field_app by done.
  unfold download_extension in *.
  destruct (Py.mem (Py.lower (Py.last_dot_field url)) ALLOWED_EXTENSIONS)
    eqn:Hmem.
  - apply mem_true in Hmem. unfold ALLOWED_EXTENSIONS in Hmem.
    repeat (apply elem_of_cons in Hmem as [->|Hmem]; [done|]).
    by apply elem_of_nil in Hmem.
  - apply mem_false in Hmem. symmetry.
    replace (Py.mem (Py.lower (Py.last_dot_field url)) AUDIO_EXTENSIONS)
      with false; [done|].
    symmetry. apply mem_false. intros Hin. apply Hmem.
    unfold AUDIO_EXTENSIONS in Hin. unfold ALLOWED_EXTENSIONS. set_solver.
Qed.

(** X13. A downloaded file goes through the audio extraction unless the
    last dot field of its URL is, in any letter case, one of the five audio
    extensions: a URL with no extension, an unknown one or a query string
    after it is stored as mp4 and handed to ffmpeg as a video. *)
Theorem download_is_video_unless_audio
    (w : World) (url task_id : string) (s : env_state) (path : string)
    (s' : env_state) :
  Worker.download_media w url task_id s = (inr path, s') →
  Worker.is_video path
  = negb (Py.mem (Py.lower (Py.last_dot_field url)) AUDIO_EXTENSIONS).
Proof. apply download_is_video_unless_audio_lemma. Qed.

Lemma download_is_video_unless_audio_witness :
  Worker.is_video
    (OsPath.join (UPLOAD_FOLDER example_world) "t1.mp4") = true.
Proof.
  exact (download_is_video_unless_audio example_world
           "http://media.example/a.MP3?token=1" "t1" (initial_state ∅)
           _ _ eq_refl).
Defined.

Lemma last_dot_field_mp3 base :
  Py.lower (Py.last_dot_field (base +:+ ".mp3")) = "mp3".
Proof.
  change (base +:+ ".mp3") with (base +:+ "." +:+ "mp3").
  by rewrite last_dot_field_app.
Qed.

(** X14. The audio the worker extracts from a video never replaces the
    video: the path [extract_audio] derives, the video path with its
    extension replaced by [.mp3], differs from the path of every file the
    worker takes for a video, and the video file is left as it was. *)
Theorem extraction_leaves_the_video
    (w : World) (media_path : string) (s : env_state) :
  Worker.is_video media_path = true →
  (OsPath.splitext media_path).1 +:+ ".mp3" ≠ media_path
  ∧ fs (Generator.extract_audio w media_path s).2 !! media_path
    = fs s !! media_path.
Proof.
  intros Hvideo.
  assert ((OsPath.splitext media_path).1 +:+ ".mp3" ≠ media_path) as Hne.
  { intros Heq. unfold Worker.is_video in Hvideo.
    rewrite <- Heq, last_dot_field_mp3 in Hvideo. done. }
  split; [done|]. unfold Generator.extract_audio. run_monad.
  destruct (ffmpeg w media_path); cbv beta iota; [done|].
  cbn [fs snd]. by rewrite lookup_insert_ne.
Qed.

Lemma extraction_leaves_the_video_witness :
  fs (Generator.extract_audio example_world "/srv/uploads/t1.mp4"
        (initial_state two_tasks)).2 !! "/srv/uploads/t1.mp4"
  = Some (Data "media-bytes").
Proof.
  destruct (extraction_leaves_the_video example_world "/srv/uploads/t1.mp4"
              (initial_state two_tasks) eq_refl) as [_ ->].
  reflexivity.
Defined.

(** ** The object store *)

Lemma startswith_nonempty s pre :
  Py.startswith s pre = true → nonempty pre = true → nonempty s = true.
Proof. by destruct s, pre. Qed.

Lemma startswith_app s pre t :
  Py.startswith s pre = true → Py.startswith (s +:+ t) pre = true.
Proof.
  revert s. induction pre as [|a pre IH]; intros s.
  { intros _. by destruct (s +:+ t). }
  destruct s as [|b s]; [done|]. rewrite app_cons. cbn [Py.startswith].
  intros [-> H]%andb_true_iff. by rewrite IH.
Qed.

(** The URL of an uploaded object, obs_storage.py 96-101. *)
Lemma upload_file_success w m local_file_path :
  (OBSStorage.upload_file w m local_file_path).1 = true →
  obs_enabled w = true ∧ is_Some (m !! local_file_path)
  ∧ s3_upload_file w local_file_path (OsPath.basename local_file_path) = None
  ∧ (OBSStorage.upload_file w m local_file_path).2
    = (if Py.startswith (OBS_ENDPOINT w) "http" then EmptyString
       else "https://")
      +:+ OBS_ENDPOINT w +:+ "/" +:+ OBS_SUBTITLES_BUCKET w +:+ "/"
      +:+ OsPath.basename local_file_path.
Proof.
  unfold OBSStorage.upload_file, is_file.
  destruct (obs_enabled w); cbn [negb]; [|done].
  case_bool_decide as Hfile; cbn [negb]; [|done].
  destruct (s3_upload_file w _ _); [done|]. intros _. cbn [snd].
  split_and!; [done..|]. by destruct (Py.startswith _ _).
Qed.

(** X15. An upload succeeds exactly when the store is enabled, the local
    file exists and the client raises nothing; the URL it then returns
    starts with [http], whether or not the configured endpoint does, and
    ends with the bucket and the base name of the file; the outcome does not
    depend on any other file. *)
Theorem upload_succeeds_with_an_http_url
    (w : World) (m : gmap string file) (local_file_path : string) :
  ((OBSStorage.upload_file w m local_file_path).1 = true
   ↔ obs_enabled w = true ∧ is_Some (m !! local_file_path)
     ∧ s3_upload_file w local_file_path (OsPath.basename local_file_path)
       = None)
  ∧ ((OBSStorage.upload_file w m local_file_path).1 = true →
     Py.startswith (OBSStorage.upload_file w m local_file_path).2 "http"
     = true
     ∧ Py.endswith (OBSStorage.upload_file w m local_file_path).2
         ("/" +:+ OBS_SUBTITLES_BUCKET w +:+ "/"
          +:+ OsPath.basename local_file_path) = true).
Proof.
  split.
  - split.
    + intros H. apply upload_file_success in H. naive_solver.
    + intros (Hen & Hfile & Hup). unfold OBSStorage.upload_file, is_file.
      rewrite Hen, bool_decide_eq_true_2, Hup by done. done.
  - intros H. apply upload_file_success in H as (_ & _ & _ & ->).
    split.
    + destruct (Py.startswith (OBS_ENDPOINT w) "http") eqn:Hhttp; [|done].
      rewrite app_empty_l. by apply startswith_app.
    + rewrite <- !app_assoc_str. rewrite !app_assoc_str.
      rewrite <- (app_assoc_str _ (OBS_ENDPOINT w)).
      apply endswith_app.
Qed.

Lemma upload_succeeds_with_an_http_url_witness :
  Py.startswith
    (OBSStorage.upload_file mirroring_world two_tasks
       "/srv/results/t1.srt").2 "http" = true.
Proof.
  apply (upload_succeeds_with_an_http_url mirroring_world two_tasks
           "/srv/results/t1.srt").
  reflexivity.
Defined.

(** ** What a run leaves behind *)

Lemma kf_ret {A} (x : A) : keeps_files (mret x).
Proof. by intros s p. Qed.

Lemma kf_raise {A} e : keeps_files (@raise A e).
Proof. by intros s p. Qed.

Lemma kf_get_fs : keeps_files get_fs.
Proof. by intros s p. Qed.

Lemma kf_put_file p f : keeps_files (put_file p f).
Proof.
  intros s q Hq. unfold put_file. cbn [fs snd].
  destruct (decide (p = q)) as [->|Hne].
  - by rewrite lookup_insert_eq.
  - by rewrite lookup_insert_ne.
Qed.

Lemma kf_update_state st progress : keeps_files (update_state st progress).
Proof. by intros s p. Qed.

Lemma kf_lift_result {A} (r : exn + A) : keeps_files (lift_result r).
Proof. by intros s p. Qed.

Lemma kf_raise_if o : keeps_files (raise_if o).
Proof. by destruct o; intros s p. Qed.

Lemma kf_bind {A B} (c : M A) (f : A → M B) :
  keeps_files c → (∀ a, keeps_files (f a)) → keeps_files (c ≫= f).
Proof.
  intros Hc Hf s p Hp. unfold mbind, M_bind. specialize (Hc s p Hp).
  destruct (c s) as [[e|a] s']; cbn [fst snd] in *; [done|].
  by apply Hf.
Qed.

Lemma kf_try_except {A} (body : M A) (handler : exn → M A) :
  keeps_files body → (∀ e, keeps_files (handler e)) →
  keeps_files (try_except body handler).
Proof.
  intros Hb Hh s p Hp. unfold try_except. specialize (Hb s p Hp).
  destruct (body s) as [[e|a] s']; cbn [fst snd] in *; [|done].
  by apply Hh.
Qed.

Create HintDb kf discriminated.
#[local] Hint Resolve kf_ret kf_raise kf_get_fs kf_put_file kf_update_state
  kf_lift_result kf_raise_if kf_bind kf_try_except : kf.

Lemma kf_download_media w url task_id :
  keeps_files (Worker.download_media w url task_id).
Proof. unfold Worker.download_media. auto 10 with kf. Qed.

Lemma kf_extract_audio w video_file :
  keeps_files (Generator.extract_audio w video_file).
Proof. unfold Generator.extract_audio. auto 10 with kf. Qed.

Lemma kf_generate_subtitles w audio out fmt model lang max dev :
  keeps_files (Generator.generate_subtitles w audio out fmt model lang max dev).
Proof.
  unfold Generator.generate_subtitles.
  apply kf_bind.
  { unfold Generator.load_model.
    destruct (whisper_load_model w model dev); auto 10 with kf. }
  intros dev'. apply kf_bind; [auto with kf|intros segments].
  apply kf_bind; [auto with kf|intros _].
  destruct (Generator.render fmt max segments) as [content err].
  auto 10 with kf.
Qed.

Lemma kf_resolve_media w task_id media_url options :
  keeps_files (Worker.resolve_media w task_id media_url options).
Proof.
  unfold Worker.resolve_media.
  destruct (Py.truthy (opt_media_key options)).
  - apply kf_bind; [auto with kf|intros m].
    destruct (Worker.find_local_media _ _); auto with kf.
  - destruct (_ || _); [auto with kf|].
    apply kf_bind; [auto with kf|intros _]. apply kf_download_media.
Qed.

Lemma kf_publish w task_id media_url options subtitle_file :
  keeps_files (Worker.publish w task_id media_url options subtitle_file).
Proof.
  unfold Worker.publish.
  apply kf_bind; [auto with kf|intros m].
  apply kf_bind; [destruct (m !! subtitle_file) as [[]|]; auto with kf|].
  intros content. auto 10 with kf.
Qed.

Lemma kf_generate_subtitle_task w task_id media_url options :
  keeps_files (Worker.generate_subtitle_task w task_id media_url options).
Proof.
  unfold Worker.generate_subtitle_task.
  apply kf_bind; [auto with kf|intros _].
  apply kf_try_except; [|auto with kf].
  unfold Worker.task_body.
  apply kf_bind; [apply kf_resolve_media|intros media_path].
  apply kf_bind.
  { destruct (Worker.is_video media_path); [|auto with kf].
    apply kf_bind; [auto with kf|intros _]. apply kf_extract_audio. }
  intros audio_path. apply kf_bind; [auto with kf|intros _].
  apply kf_bind; [apply kf_generate_subtitles|intros subtitle_file].
  apply kf_publish.
Qed.

(** X16. The task removes no file: every path that held a file before the
    run holds one after it, whether the run completes or fails. *)
Theorem task_removes_no_file
    (w : World) (task_id : string) (media_url : option string)
    (options : OptionsArg) (s : env_state) (p : string) :
  is_Some (fs s !! p) →
  is_Some
    (fs (Worker.generate_subtitle_task w task_id media_url options s).2 !! p).
Proof. apply kf_generate_subtitle_task. Qed.

Lemma task_removes_no_file_witness :
  is_Some
    (fs (Worker.generate_subtitle_task unreachable_world "t1"
           (Some "http://media.invalid/a.mp4") (default_args "srt" None)
           (initial_state two_tasks)).2 !! "/srv/results/t1.srt").
Proof.
  apply (task_removes_no_file unreachable_world "t1"
           (Some "http://media.invalid/a.mp4") (default_args "srt" None)
           (initial_state two_tasks) "/srv/results/t1.srt").
  vm_compute. by eexists.
Defined.

(** ** From the run to the listing and the download *)

Lemma produce_subtitles_output w task_id media_url options s f s' :
  produce_subtitles w task_id media_url options s = (inr f, s') →
  f = OsPath.join (RESULT_FOLDER w) (task_id +:+ "." +:+ opt_format options)
  ∧ ∃ content, fs s' !! f = Some (Data content).
Proof.
  unfold produce_subtitles, mbind, M_bind.
  destruct (Worker.resolve_media _ _ _ _ _) as [[e|media_path] s1]; [done|].
  destruct (Worker.is_video media_path).
  - destruct (update_state EXTRACTING 30 s1) as [[e|[]] s2]; [done|].
    destruct (Generator.extract_audio _ _ _) as [[e|audio] s3]; [done|].
    destruct (update_state TRANSCRIBING 50 s3) as [[e|[]] s4]; [done|].
    intros [-> H]%generate_subtitles_writes. done.
  - cbn [mret M_ret].
    destruct (update_state TRANSCRIBING 50 s1) as [[e|[]] s4]; [done|].
    intros [-> H]%generate_subtitles_writes. done.
Qed.

(** A run that completes has produced the subtitle file and published it. *)
Lemma task_completed w task_id media_url options s resp s' :
  Worker.generate_subtitle_task w task_id media_url options s
  = (inr (Completed resp), s') →
  ∃ s1,
    produce_subtitles w task_id media_url (Worker.merge_options options)
      (update_state STARTED 0 s).2
    = (inr (subtitle_path w task_id options), s1)
    ∧ (∃ content,
         fs s1 !! subtitle_path w task_id options = Some (Data content))
    ∧ Worker.publish w task_id media_url (Worker.merge_options options)
        (subtitle_path w task_id options) s1
      = (inr (Completed resp), s').
Proof.
  unfold Worker.generate_subtitle_task, try_except.
  unfold mbind at 1. unfold M_bind at 1.
  destruct (update_state STARTED 0 s) as [[e|[]] s0] eqn:Hst; [done|].
  cbn [snd]. rewrite task_body_produce_publish. unfold mbind, M_bind.
  destruct (produce_subtitles _ _ _ _ _) as [[e|f] s1] eqn:Hprod; [done|].
  apply produce_subtitles_output in Hprod as [-> Hfile].
  fold (subtitle_name task_id options) in *.
  fold (subtitle_path w task_id options) in *.
  destruct (Worker.publish _ _ _ _ _ _) as [[e|r] s2] eqn:Hpub; [done|].
  intros [= -> ->]. by exists s1.
Qed.

(** What a publication that returns has done. *)
Lemma publish_returns w task_id media_url options subtitle_file s r s' :
  Worker.publish w task_id media_url options subtitle_file s = (inr r, s') →
  ∃ rec resp,
    r = Completed resp
    ∧ s' = {| fs := <[record_path w task_id := Json rec]> (fs s);
              updates := updates s |}
    ∧ rec_task_id rec = task_id ∧ rec_status rec = "SUCCESS"
    ∧ rec_subtitle_file rec = OsPath.basename subtitle_file
    ∧ resp_subtitle_file resp = OsPath.basename subtitle_file
    ∧ rec_obs_url rec = resp_obs_url resp
    ∧ resp_obs_url resp
      = (if USE_OBS_STORAGE w
            && (OBSStorage.upload_file w (fs s) subtitle_file).1
         then Some (object_url w (OsPath.basename subtitle_file))
         else None).
Proof.
  unfold Worker.publish, mbind, M_bind, get_fs. cbn [fst snd].
  fold (record_path w task_id).
  set (obs_url :=
    if USE_OBS_STORAGE w
    then let '(success, result) :=
           OBSStorage.upload_file w (fs s) subtitle_file in
         if success then Some result else None
    else None).
  assert ((if Py.truthy obs_url then obs_url else None)
          = if USE_OBS_STORAGE w
               && (OBSStorage.upload_file w (fs s) subtitle_file).1
            then Some (object_url w (OsPath.basename subtitle_file))
            else None) as Hurl.
  { unfold obs_url. destruct (USE_OBS_STORAGE w); [|done]. cbn [andb].
    pose proof (upload_file_success w (fs s) subtitle_file) as Hup.
    destruct (OBSStorage.upload_file w (fs s) subtitle_file)
      as [[] result]; cbn [fst snd] in *; [|done].
    destruct (Hup eq_refl) as (_ & _ & _ & ->). fold (object_url w
      (OsPath.basename subtitle_file)).
    unfold object_url.
    destruct (Py.startswith (OBS_ENDPOINT w) "http") eqn:Hhttp; [|done].
    rewrite app_empty_l.
    by destruct (OBS_ENDPOINT w). }
  destruct (fs s !! subtitle_file) as [[content|rec0]|]; cbn [mret M_ret];
    [| |done].
  all: unfold raise_if; destruct (open_w w (record_path w task_id));
    [done|]; cbn [mret M_ret raise]; unfold put_file; cbn [fs updates];
    intros [= <- <-]; do 2 eexists; split_and!; try reflexivity;
    cbn [resp_obs_url]; exact Hurl.
Qed.

Lemma splitext_json task_id :
  char_free "/" task_id = true → OsPath.all_dots task_id = false →
  OsPath.splitext (task_id +:+ ".json") = (task_id, ".json").
Proof.
  intros Hslash Hdots. unfold OsPath.splitext.
  rewrite (char_free_rpartition "/") by by rewrite char_free_app, Hslash.
  change (task_id +:+ ".json") with (task_id +:+ String "." "json").
  rewrite rpartition_app_last by done. by rewrite Hdots.
Qed.

Lemma basename_join d name :
  char_free "/" name = true → OsPath.basename (OsPath.join d name) = name.
Proof.
  intros Hname. rewrite join_free by done.
  by rewrite basename_app_free, basename_dir_prefix by done.
Qed.

(** X17. A task that completes is listed: for a task id without a slash
    that is not made of dots only, the listing of the folder of results
    after the run has an entry under the id of the task, with status
    SUCCESS, the name of the subtitle file and the remote URL of the
    response. *)
Theorem completed_task_is_listed
    (w : World) (m : gmap string file) (task_id : string)
    (media_url : option string) (options : OptionsArg)
    (resp : success_response) :
  char_free "/" task_id = true →
  OsPath.all_dots task_id = false →
  (Worker.generate_subtitle_task w task_id media_url options
     (initial_state m)).1 = inr (Completed resp) →
  ∃ rec,
    rec ∈ App.list_tasks w (final_fs w m task_id media_url options)
    ∧ rec_task_id rec = task_id ∧ rec_status rec = "SUCCESS"
    ∧ rec_subtitle_file rec = resp_subtitle_file resp
    ∧ rec_obs_url rec = resp_obs_url resp.
Proof.
  intros Hslash Hdots Hrun. unfold final_fs.
  destruct (Worker.generate_subtitle_task _ _ _ _ _) as [out s'] eqn:Ht.
  cbn [fst snd] in *. subst out.
  apply task_completed in Ht as (s1 & _ & _ & Hpub).
  apply publish_returns in Hpub
    as (rec & resp' & [= <-] & -> & Hid & Hst & Hfile & Hfile' & Hobs & _).
  cbn [fs].
  assert (no_slash (task_id +:+ ".json") = true) as Hname.
  { change (char_free "/" (task_id +:+ ".json") = true).
    by rewrite char_free_app, Hslash. }
  eexists. split.
  - apply elem_of_list_tasks. exists (task_id +:+ ".json"), rec.
    split_and!; [|apply endswith_app| |reflexivity].
    + apply elem_of_listdir. split_and!; [by destruct task_id|done|].
      fold (record_path w task_id). by rewrite lookup_insert_eq.
    + fold (record_path w task_id). by rewrite lookup_insert_eq.
  - cbn. rewrite splitext_json by done. by rewrite Hfile', <- Hobs.
Qed.

Lemma completed_task_is_listed_witness :
  ∃ rec,
    rec ∈ App.list_tasks example_world
            (final_fs example_world ∅ "t1" (Some "http://media.example/a.mp4")
               (default_args "srt" None))
    ∧ rec_task_id rec = "t1" ∧ rec_subtitle_file rec = "t1.srt".
Proof.
  assert ((Worker.generate_subtitle_task example_world "t1"
             (Some "http://media.example/a.mp4") (default_args "srt" None)
             (initial_state ∅)).1
          = inr (Completed (example_response None))) as Hrun
    by (vm_compute; reflexivity).
  destruct (completed_task_is_listed example_world ∅ "t1"
              (Some "http://media.example/a.mp4") (default_args "srt" None)
              (example_response None) eq_refl eq_refl Hrun)
    as (rec & Hin & Hid & _ & Hfile & _).
  exists rec. by split_and!.
Defined.

(** X18. A task that completes can be downloaded: for a task id and a
    format without a slash, the download endpoint answers, on the file
    system and the backend entry the run leaves, with a redirect to the
    remote URL when the response has one and with the subtitle file of the
    task, under the name [<task_id>.<format>], when it has none. *)
Theorem completed_task_is_downloadable
    (w : World) (m : gmap string file) (task_id : string)
    (media_url : option string) (options : OptionsArg)
    (resp : success_response) :
  char_free "/" (subtitle_name task_id options) = true →
  (Worker.generate_subtitle_task w task_id media_url options
     (initial_state m)).1 = inr (Completed resp) →
  Api.download_subtitle w (final_fs w m task_id media_url options)
    (final_entry w m task_id media_url options)
  = inr (match resp_obs_url resp with
         | Some url => Api.RedirectResponse url
         | None =>
             Api.FileResponse (subtitle_path w task_id options)
               (subtitle_name task_id options)
         end).
Proof.
  intros Hslash Hrun. unfold final_fs, final_entry.
  destruct (Worker.generate_subtitle_task _ _ _ _ _) as [out s'] eqn:Ht.
  cbn [fst snd] in *. subst out.
  apply task_completed in Ht as (s1 & _ & [content Hfile] & Hpub).
  apply publish_returns in Hpub
    as (rec & resp' & [= <-] & -> & _ & _ & _ & Hname & _ & _).
  unfold subtitle_path in Hname. rewrite basename_join in Hname by done.
  cbn [celery_store Api.download_subtitle fs]. cbn [bool_decide negb].
  rewrite bool_decide_eq_true_2 by done. cbn [negb].
  destruct (resp_obs_url resp); [done|]. rewrite Hname.
  fold (subtitle_path w task_id options). unfold is_file.
  rewrite bool_decide_eq_true_2; [done|].
  destruct (decide (record_path w task_id = subtitle_path w task_id options))
    as [->|Hne].
  - by rewrite lookup_insert_eq.
  - rewrite lookup_insert_ne by done. by rewrite Hfile.
Qed.

Lemma completed_task_is_downloadable_witness :
  Api.download_subtitle example_world
    (final_fs example_world ∅ "t1" (Some "http://media.example/a.mp4")
       (default_args "srt" None))
    (final_entry example_world ∅ "t1" (Some "http://media.example/a.mp4")
       (default_args "srt" None))
  = inr (Api.FileResponse "/srv/results/t1.srt" "t1.srt").
Proof.
  assert ((Worker.generate_subtitle_task example_world "t1"
             (Some "http://media.example/a.mp4") (default_args "srt" None)
             (initial_state ∅)).1
          = inr (Completed (example_response None))) as Hrun
    by (vm_compute; reflexivity).
  rewrite (completed_task_is_downloadable example_world ∅ "t1"
             (Some "http://media.example/a.mp4") (default_args "srt" None)
             (example_response None) eq_refl Hrun).
  reflexivity.
Defined.

(** X19. A run that fails cannot be downloaded, and the answer blames the
    file, not the task: the entry the run leaves is a SUCCESS entry, so the
    endpoint goes past its test of the state and answers 404 with the
    detail of a missing subtitle file, whatever the file system holds. *)
Theorem failed_task_download_blames_the_file
    (w : World) (m m' : gmap string file) (task_id : string)
    (media_url : option string) (options : OptionsArg)
    (r : failure_response) :
  (Worker.generate_subtitle_task w task_id media_url options
     (initial_state m)).1 = inr (Failed r) →
  Api.download_subtitle w m' (final_entry w m task_id media_url options)
  = inl (not_found "字幕文件不存在").
Proof.
  intros Hrun. unfold final_entry. rewrite Hrun. done.
Qed.

Lemma failed_task_download_blames_the_file_witness :
  Api.download_subtitle unreachable_world two_tasks
    (final_entry unreachable_world ∅ "t1" (Some "http://media.invalid/a.mp4")
       (default_args "srt" None))
  = inl (not_found "字幕文件不存在").
Proof.
  assert ((Worker.generate_subtitle_task unreachable_world "t1"
             (Some "http://media.invalid/a.mp4") (default_args "srt" None)
             (initial_state ∅)).1
          = inr (failed "Connection refused")) as Hrun
    by (vm_compute; reflexivity).
  apply (failed_task_download_blames_the_file unreachable_world ∅ two_tasks
           "t1" (Some "http://media.invalid/a.mp4") (default_args "srt" None)
           _ Hrun).
Defined.

(** X20. With the object store enabled and its uploads succeeding, a task
    that completes answers with the URL of the object, built from the
    endpoint, the bucket and [<task_id>.<format>], and its download is a
    redirect to that URL whatever the file system holds then, also once the
    local files are deleted. *)
Theorem mirrored_task_redirects
    (w : World) (m m' : gmap string file) (task_id : string)
    (media_url : option string) (options : OptionsArg)
    (resp : success_response) :
  USE_OBS_STORAGE w = true → obs_enabled w = true →
  (∀ path key, s3_upload_file w path key = None) →
  char_free "/" (subtitle_name task_id options) = true →
  (Worker.generate_subtitle_task w task_id media_url options
     (initial_state m)).1 = inr (Completed resp) →
  resp_obs_url resp
  = Some (object_url w (subtitle_name task_id options))
  ∧ Api.download_subtitle w m' (final_entry w m task_id media_url options)
    = inr (Api.RedirectResponse
             (object_url w (subtitle_name task_id options))).
Proof.
  intros Huse Hen Hup Hslash Hrun. unfold final_entry.
  destruct (Worker.generate_subtitle_task _ _ _ _ _) as [out s'] eqn:Ht.
  cbn [fst snd] in *. subst out.
  apply task_completed in Ht as (s1 & _ & [content Hfile] & Hpub).
  apply publish_returns in Hpub
    as (rec & resp' & [= <-] & -> & _ & _ & _ & _ & _ & Hurl).
  assert ((OBSStorage.upload_file w (fs s1) (subtitle_path w task_id options)).1
          = true) as Hok.
  { apply upload_succeeds_with_an_http_url. by rewrite Hfile. }
  rewrite Huse, Hok in Hurl. cbn [andb] in Hurl.
  unfold subtitle_path in Hurl. rewrite basename_join in Hurl by done.
  split; [done|]. cbn [celery_store Api.download_subtitle].
  rewrite bool_decide_eq_true_2 by done. cbn [negb]. by rewrite Hurl.
Qed.

Lemma mirrored_task_redirects_witness :
  Api.download_subtitle mirroring_world ∅
    (final_entry mirroring_world ∅ "t1" (Some "http://media.example/a.mp4")
       (default_args "srt" None))
  = inr (Api.RedirectResponse "https://obs.example.com/srts/t1.srt").
Proof.
  assert ((Worker.generate_subtitle_task mirroring_world "t1"
             (Some "http://media.example/a.mp4") (default_args "srt" None)
             (initial_state ∅)).1
          = inr (Completed
                   (example_response
                      (Some "https://obs.example.com/srts/t1.srt")))) as Hrun
    by (vm_compute; reflexivity).
  apply (mirrored_task_redirects mirroring_world ∅ ∅ "t1"
           (Some "http://media.example/a.mp4") (default_args "srt" None)
           _ eq_refl eq_refl (λ _ _, eq_refl) eq_refl Hrun).
Defined.

(** ** Deletion and the other tasks *)

(** What a deletion that finds the record does to the file system. *)
Lemma delete_task_spec w m task_id :
  is_Some (m !! record_path w task_id) →
  ∃ m' removed,
    App.delete_task w m task_id = inr (m', OsPath.basename <$> removed)
    ∧ (∀ p, p ∈ removed
            ↔ p ∈ delete_candidates w task_id ∧ is_Some (m !! p))
    ∧ (∀ p, m' !! p
            = if decide (p ∈ delete_candidates w task_id)
              then None else m !! p).
Proof.
  intros Hsome. unfold App.delete_task. fold (record_path w task_id).
  unfold is_file at 1. rewrite bool_decide_eq_true_2 by done. cbn [negb].
  destruct (delete_loop_spec (RESULT_FOLDER w) task_id App.RESULT_EXTENSIONS
              m []) as (m1 & r1 & -> & Hnd1 & Hin1 & Hlook1).
  destruct (delete_loop_spec (UPLOAD_FOLDER w) task_id ALLOWED_EXTENSIONS
              m1 ([] ++ (OsPath.basename <$> r1)))
    as (m2 & r2 & -> & Hnd2 & Hin2 & Hlook2).
  exists m2, (r1 ++ r2). split_and!.
  - by rewrite fmap_app, app_nil_l.
  - intros p. rewrite elem_of_app, Hin1, Hin2, Hlook1.
    unfold delete_candidates. rewrite elem_of_app.
    case_decide; [|naive_solver].
    split; [intros [?|[_ [??]]]; [naive_solver|done]|naive_solver].
  - intros p. rewrite Hlook2, Hlook1. unfold delete_candidates.
    repeat case_decide; set_solver.
Qed.

Lemma delete_task_found w m task_id m' deleted :
  App.delete_task w m task_id = inr (m', deleted) →
  is_Some (m !! record_path w task_id).
Proof.
  unfold App.delete_task. fold (record_path w task_id). unfold is_file.
  case_bool_decide; [done|]. by cbn [negb].
Qed.

Lemma app_inv_head_str s a b : s +:+ a = s +:+ b → a = b.
Proof.
  induction s as [|c s IH]; [done|]. rewrite !app_cons. intros [= H]. auto.
Qed.

Lemma last_dot_field_json pre filename :
  Py.endswith filename ".json" = true →
  Py.last_dot_field (pre +:+ filename) = "json".
Proof.
  intros [x ->]%endswith_suffix. rewrite <- app_assoc_str.
  by apply (last_dot_field_app (pre +:+ x) "json").
Qed.

Lemma plain_id_not_dots task_id :
  plain_id task_id = true → OsPath.all_dots task_id = false.
Proof.
  unfold plain_id. intros [[Hne _]%andb_true_iff Hdot%negb_true_iff]%andb_true_iff.
  destruct task_id as [|a task_id]; [done|].
  cbn [Py.startswith] in Hdot. unfold OsPath.all_dots. cbn.
  destruct task_id; rewrite ?andb_true_r in Hdot;
    case_bool_decide; case_bool_decide; naive_solver.
Qed.

(** The files [delete_task] removes that the listing could show are the
    record of the task alone. *)
Lemma listed_candidate w task_id filename :
  plain_id task_id = true →
  no_slash filename = true →
  Py.endswith filename ".json" = true →
  OsPath.join (RESULT_FOLDER w) filename ∈ delete_candidates w task_id →
  (OsPath.splitext filename).1 = task_id.
Proof.
  intros Hplain Hns Hend Hin.
  pose proof (plain_id_not_dots _ Hplain) as Hdots.
  unfold plain_id in Hplain.
  apply andb_true_iff in Hplain as [[_ Hslash]%andb_true_iff _].
  assert (∀ folder ext, char_free "." ext = true →
            OsPath.join (RESULT_FOLDER w) filename
            = OsPath.join folder (task_id +:+ "." +:+ ext) →
            ext = "json") as Hext.
  { intros folder ext Hfree Heq.
    destruct (join_ends folder (task_id +:+ "." +:+ ext)) as [pre Hpre].
    rewrite Hpre, (join_relative _ filename) in Heq by done.
    apply (f_equal Py.last_dot_field) in Heq.
    rewrite last_dot_field_json in Heq by done.
    rewrite <- app_assoc_str, last_dot_field_app in Heq by done. done. }
  unfold delete_candidates, folder_paths in Hin.
  apply elem_of_app in Hin as [Hin|Hin];
    apply list_elem_of_fmap in Hin as (ext & Heq & Hin).
  - assert (char_free "." ext = true) as Hfree.
    { clear -Hin. unfold App.RESULT_EXTENSIONS in Hin.
      repeat (apply elem_of_cons in Hin as [->|Hin]; [done|]).
      by apply elem_of_nil in Hin. }
    pose proof (Hext _ _ Hfree Heq) as ->.
    assert (no_slash (task_id +:+ "." +:+ "json") = true) as Hns'.
    { change (char_free "/" (task_id +:+ "." +:+ "json") = true).
      by rewrite char_free_app, Hslash. }
    rewrite (join_relative _ filename), (join_relative _ (task_id +:+ _))
      in Heq by done.
    apply app_inv_head_str in Heq as ->.
    change (task_id +:+ "." +:+ "json") with (task_id +:+ ".json").
    by rewrite splitext_json.
  - assert (char_free "." ext = true) as Hfree.
    { clear -Hin. unfold ALLOWED_EXTENSIONS in Hin.
      repeat (apply elem_of_cons in Hin as [->|Hin]; [done|]).
      by apply elem_of_nil in Hin. }
    pose proof (Hext _ _ Hfree Heq) as ->.
    unfold ALLOWED_EXTENSIONS in Hin. set_solver.
Qed.

(** X21. Deleting a task leaves the other tasks in the listing: for a task
    id that is not empty, has no slash and does not start with a dot, the
    entries of the listing under any other id are the same before and after
    the deletion. *)
Theorem delete_keeps_the_other_tasks
    (w : World) (m m' : gmap string file) (task_id : string)
    (deleted : list string) (r : TaskRecord) :
  plain_id task_id = true →
  App.delete_task w m task_id = inr (m', deleted) →
  rec_task_id r ≠ task_id →
  r ∈ App.list_tasks w m' ↔ r ∈ App.list_tasks w m.
Proof.
  intros Hplain Hdel Hother.
  destruct (delete_task_spec w m task_id (delete_task_found _ _ _ _ _ Hdel))
    as (m2 & removed & Hdel' & _ & Hlook).
  rewrite Hdel in Hdel'. injection Hdel' as <- _.
  rewrite !elem_of_list_tasks.
  assert (∀ filename, no_slash filename = true →
            Py.endswith filename ".json" = true →
            (OsPath.splitext filename).1 ≠ task_id →
            m' !! OsPath.join (RESULT_FOLDER w) filename
            = m !! OsPath.join (RESULT_FOLDER w) filename) as Hsame.
  { intros filename Hns Hend Hstem. rewrite Hlook.
    case_decide as Hin; [|done].
    by apply listed_candidate in Hin. }
  split; intros (filename & task_data & Hin & Hend & Hfile & ->);
    cbn [rec_task_id] in Hother;
    apply elem_of_listdir in Hin as (Hne & Hns & Hsome);
    exists filename, task_data;
    (split_and!; [apply elem_of_listdir; split_and!; [done..|]|done| |done]).
  - by rewrite <- Hsame.
  - by rewrite <- Hsame.
  - by rewrite Hsame.
  - by rewrite Hsame.
Qed.

Lemma delete_keeps_the_other_tasks_witness :
  ∃ m' deleted,
    App.delete_task example_world two_tasks "t1" = inr (m', deleted)
    ∧ (example_record "t2" ∈ App.list_tasks example_world m'
       ↔ example_record "t2" ∈ App.list_tasks example_world two_tasks).
Proof.
  destruct (App.delete_task example_world two_tasks "t1")
    as [e|[m' deleted]] eqn:Hdel; [vm_compute in Hdel; discriminate Hdel|].
  exists m', deleted. split; [reflexivity|].
  apply (delete_keeps_the_other_tasks example_world two_tasks m' "t1" deleted
           (example_record "t2") eq_refl Hdel).
  discriminate.
Defined.



(** ** The extraction endpoints *)

Lemma startswith_app_refl pre t : Py.startswith (pre +:+ t) pre = true.
Proof.
  induction pre as [|a pre IH]; [by destruct t|].
  rewrite app_cons. cbn [Py.startswith].
  by rewrite bool_decide_eq_true_2, IH.
Qed.

Lemma extraction_failure_shape msg :
  App.status_code (Api.extraction_failure msg) = 500
  ∧ Py.startswith (App.detail (Api.extraction_failure msg)) "音频提取失败: "
    = true.
Proof. split; [done|]. apply startswith_app_refl. Qed.

(** X23. The URL extraction endpoint never answers 400: its test for a
    video raises inside the [try] whose [except] catches every exception, so
    every failure, the URL that is not a video included, is answered 500
    with a detail that starts with the extraction-failure text. *)
Theorem url_extraction_failures_are_500
    (w : World) (sv : Server) (task_id video_url audio_format : string)
    (s : env_state) (e : App.HTTPException) (s' : env_state) :
  Api.extract_audio_from_video_url w sv task_id video_url audio_format s
  = (inl e, s') →
  App.status_code e = 500
  ∧ Py.startswith (App.detail e) "音频提取失败: " = true.
Proof.
  unfold Api.extract_audio_from_video_url.
  destruct (Worker.download_media w video_url task_id s)
    as [[e0|video_path] s1].
  { intros [= <- _]. apply extraction_failure_shape. }
  destruct (negb _).
  { intros [= <- _]. apply extraction_failure_shape. }
  destruct (Core.extract_audio _ _ _ _ _ _ _) as [[e0|audio_path] s2].
  - intros [= <- _]. apply extraction_failure_shape.
  - done.
Qed.

Lemma url_extraction_failures_are_500_witness :
  ∃ e,
    (Api.extract_audio_from_video_url example_world example_server "t1"
       "http://media.example/a.mp3" "mp3" (initial_state ∅)).1 = inl e
    ∧ App.status_code e = 500.
Proof.
  destruct (Api.extract_audio_from_video_url example_world example_server
              "t1" "http://media.example/a.mp3" "mp3" (initial_state ∅))
    as [[e|r] s'] eqn:Hrun; [|vm_compute in Hrun; discriminate Hrun].
  exists e. split; [reflexivity|].
  apply (url_extraction_failures_are_500 example_world example_server "t1"
           "http://media.example/a.mp3" "mp3" (initial_state ∅) e s' Hrun).
Defined.

(** X24. A URL whose file is stored as audio is refused after it has been
    downloaded: the answer is the 500 that wraps the text of the 400, and
    the downloaded file stays in the folder of uploads. *)
Theorem audio_url_is_refused_after_the_download
    (w : World) (sv : Server) (task_id video_url audio_format : string)
    (s : env_state) (path : string) (s1 : env_state) :
  Worker.download_media w video_url task_id s = (inr path, s1) →
  Py.mem (Py.lower (Py.last_dot_field video_url)) AUDIO_EXTENSIONS = true →
  Api.extract_audio_from_video_url w sv task_id video_url audio_format s
  = (inl (Api.extraction_failure
            (str_http_exception sv
               {| App.status_code := 400;
                  App.detail := "提供的URL不是视频文件" |})), s1)
  ∧ is_Some (fs s1 !! path).
Proof.
  intros Hrun Haudio.
  pose proof (download_is_video_unless_audio_lemma w video_url task_id s path
                s1 Hrun) as Hvideo.
  rewrite Haudio in Hvideo. unfold Worker.is_video in Hvideo.
  unfold Api.extract_audio_from_video_url. rewrite Hrun, Hvideo. cbn [negb].
  split; [done|].
  pose proof (download_stores_lemma w video_url task_id s) as Hpath.
  rewrite Hrun in Hpath. destruct Hpath as (_ & _ & body & _ & ->). cbn [fs].
  by rewrite lookup_insert_eq.
Qed.

Lemma audio_url_is_refused_after_the_download_witness :
  is_Some
    (fs (Api.extract_audio_from_video_url example_world example_server "t1"
           "http://media.example/a.mp3" "mp3" (initial_state ∅)).2
     !! "/srv/uploads/t1.mp3").
Proof.
  assert (Worker.download_media example_world "http://media.example/a.mp3"
            "t1" (initial_state ∅)
          = (inr "/srv/uploads/t1.mp3",
             {| fs := {[ "/srv/uploads/t1.mp3" := Data "media-bytes" ]};
                updates := [] |})) as Hrun by (vm_compute; reflexivity).
  destruct (audio_url_is_refused_after_the_download example_world
              example_server "t1" "http://media.example/a.mp3" "mp3"
              (initial_state ∅) _ _ Hrun eq_refl) as [-> Hfile].
  exact Hfile.
Defined.

Lemma core_extract_audio_returns sv video out fmt quality rate s r s' :
  Core.extract_audio sv video (Some out) fmt quality rate s = (inr r, s') →
  r = out
  ∧ ∃ audio, subprocess_run sv (Core.ffmpeg_cmd video out fmt quality rate)
             = inr audio
             ∧ s' = {| fs := <[out := Data audio]> (fs s);
                       updates := updates s |}.
Proof.
  unfold Core.extract_audio. run_monad.
  destruct (subprocess_run sv _) as [e|audio]; cbv beta iota; [done|].
  intros [= <- <-]. split; [done|]. by exists audio.
Qed.

(** X25. The URL extraction endpoint encodes MP3 whatever format is asked
    for: when it answers, ffmpeg has run on the downloaded file with the
    libmp3lame codec at 192k and 44100 Hz, and what it wrote is stored in
    the folder of results under [<task_id>.<audio_format>], the name the
    answer gives. *)
Theorem url_extraction_encodes_mp3
    (w : World) (sv : Server) (task_id video_url audio_format : string)
    (s : env_state) (r : Api.audio_response) (s' : env_state) :
  char_free "/" (task_id +:+ "." +:+ audio_format) = true →
  Api.extract_audio_from_video_url w sv task_id video_url audio_format s
  = (inr r, s') →
  r = extracted task_id (task_id +:+ "." +:+ audio_format)
  ∧ ∃ audio,
      subprocess_run sv
        (mp3_command
           (OsPath.join (UPLOAD_FOLDER w)
              (task_id +:+ "." +:+ download_extension video_url))
           (OsPath.join (RESULT_FOLDER w)
              (task_id +:+ "." +:+ audio_format)))
      = inr audio
      ∧ fs s' !! OsPath.join (RESULT_FOLDER w)
                   (task_id +:+ "." +:+ audio_format)
        = Some (Data audio).
Proof.
  intros Hslash. unfold Api.extract_audio_from_video_url.
  pose proof (download_stores_lemma w video_url task_id s) as Hpath.
  destruct (Worker.download_media w video_url task_id s)
    as [[e0|video_path] s1]; [done|].
  destruct Hpath as (_ & -> & _).
  destruct (negb _); [done|].
  destruct (Core.extract_audio _ _ _ _ _ _ _) as [[e0|audio_path] s2] eqn:Hex;
    [done|].
  apply core_extract_audio_returns in Hex as (-> & audio & Hrun & ->).
  intros [= <- <-]. rewrite basename_join by done. split; [done|].
  exists audio. split; [exact Hrun|]. cbn [fs]. by rewrite lookup_insert_eq.
Qed.

Lemma url_extraction_encodes_mp3_witness :
  (Api.extract_audio_from_video_url example_world example_server "t1"
     "http://media.example/a.mp4" "wav" (initial_state ∅)).1
  = inr (extracted "t1" "t1.wav").
Proof.
  destruct (Api.extract_audio_from_video_url example_world example_server
              "t1" "http://media.example/a.mp4" "wav" (initial_state ∅))
    as [[e|r] s'] eqn:Hrun; [vm_compute in Hrun; discriminate Hrun|].
  destruct (url_extraction_encodes_mp3 example_world example_server "t1"
              "http://media.example/a.mp4" "wav" _ _ _ eq_refl Hrun)
    as [-> _].
  reflexivity.
Defined.

(** X26. The upload extraction endpoint refuses a file name that is not a
    video with 400 before it touches anything; any later failure is
    answered 500 and leaves the file system as it was but for the path of
    the uploaded video, which holds no file. *)
Theorem upload_extraction_cleans_up
    (w : World) (sv : Server)
    (task_id filename content audio_format : string)
    (s : env_state) (e : App.HTTPException) (s' : env_state) :
  Api.extract_audio_from_uploaded_video w sv task_id filename content
    audio_format s = (inl e, s') →
  (App.status_code e = 400 ∧ Worker.is_video filename = false ∧ s' = s)
  ∨ (App.status_code e = 500 ∧ Worker.is_video filename = true
     ∧ fs s'
       = delete (OsPath.join (UPLOAD_FOLDER w)
                   (task_id +:+ "." +:+ Py.lower (Py.last_dot_field filename)))
           (fs s)
     ∧ updates s' = updates s).
Proof.
  unfold Api.extract_audio_from_uploaded_video. fold (Worker.is_video filename).
  destruct (Worker.is_video filename); cbn [negb].
  2: { intros [= <- <-]. by left. }
  set (video_path := OsPath.join _ _).
  unfold Core.extract_audio. run_monad.
  destruct (open_w w video_path); cbv beta iota.
  { intros [= <- <-]. right. split_and!; [done..| |].
    - unfold Api.remove_if_exists, os_remove, is_file.
      case_bool_decide as Hfile; cbn [fs]; [done|].
      symmetry. apply delete_id.
      destruct (fs s !! video_path) eqn:Hl; [|done].
      exfalso. apply Hfile. by eexists.
    - unfold Api.remove_if_exists, os_remove.
      by destruct (is_file (fs s) video_path). }
  destruct (subprocess_run sv _); cbv beta iota; [|done].
  intros [= <- <-]. right. split_and!; [done..| |].
  - unfold Api.remove_if_exists, os_remove, is_file. cbn [fs].
    rewrite bool_decide_eq_true_2 by by rewrite lookup_insert_eq.
    cbn [fs]. apply delete_insert_eq.
  - unfold Api.remove_if_exists, os_remove, is_file. cbn [fs].
    by rewrite bool_decide_eq_true_2 by by rewrite lookup_insert_eq.
Qed.

Lemma upload_extraction_cleans_up_witness :
  fs (Api.extract_audio_from_uploaded_video example_world failing_server
        "t3" "clip.MP4" "video-bytes" "mp3" (initial_state two_tasks)).2
  = delete "/srv/uploads/t3.mp4" two_tasks.
Proof.
  destruct (Api.extract_audio_from_uploaded_video example_world
              failing_server "t3" "clip.MP4" "video-bytes" "mp3"
              (initial_state two_tasks)) as [[e|r] s'] eqn:Hrun;
    [|vm_compute in Hrun; discriminate Hrun].
  destruct (upload_extraction_cleans_up _ _ _ _ _ _ _ _ _ Hrun)
    as [(_ & Hvideo & _)|(_ & _ & Hfs & _)].
  - vm_compute in Hvideo. discriminate Hvideo.
  - exact Hfs.
Defined.

(** ** The command line *)

Lemma generate_subtitles_cases w audio out fmt model lang max dev s :
  (∃ e, Generator.generate_subtitles w audio out fmt model lang max dev s
        = (inl e, s))
  ∨ (∃ r content,
       Generator.generate_subtitles w audio out fmt model lang max dev s
       = (r, {| fs := <[out := Data content]> (fs s);
                updates := updates s |})
       ∧ (r = inr out ∨ ∃ e, r = inl e)).
Proof.
  unfold Generator.generate_subtitles, Generator.load_model. run_monad.
  destruct (whisper_load_model w model dev) as [e|].
  - destruct (whisper_load_model w model cpu) as [e'|]; cbv beta iota;
      [left; by eexists|].
    destruct (whisper_transcribe w model cpu audio
                (if Py.truthy lang then lang else None)) as [e'|segments];
      cbv beta iota; [left; by eexists|].
    destruct (open_w w out); cbv beta iota; [left; by eexists|].
    destruct (Generator.render fmt max segments) as [content [err|]];
      cbv beta iota; right; do 2 eexists; (split; [reflexivity|]);
      [right; by eexists|by left].
  - destruct (whisper_transcribe w model dev audio
                (if Py.truthy lang then lang else None)) as [e'|segments];
      cbv beta iota; [left; by eexists|].
    destruct (open_w w out); cbv beta iota; [left; by eexists|].
    destruct (Generator.render fmt max segments) as [content [err|]];
      cbv beta iota; right; do 2 eexists; (split; [reflexivity|]);
      [right; by eexists|by left].
Qed.

Section CommandLine.

Variables (w : World) (sv : Server).
Variables (video_file : string) (output_subtitle : option string).
Variables (subtitle_format model_name : string) (language : option string).
Variables (max_line_length : option Z) (audio_format audio_quality : string).
Variables (sample_rate : Z) (keep_audio no_mps cpu_flag : bool).

Let audio : string :=
  (OsPath.splitext video_file).1 +:+ "." +:+ audio_format.

Let subtitles : string :=
  match output_subtitle with
  | Some path => path
  | None => (OsPath.splitext video_file).1 +:+ "." +:+ subtitle_format
  end.

Let run : M string :=
  Cli.process_video_to_subtitle w sv video_file output_subtitle
    subtitle_format model_name language max_line_length audio_format
    audio_quality sample_rate keep_audio no_mps cpu_flag.


(** X28. When [process_video_to_subtitle] raises, either ffmpeg failed and
    nothing has changed, or the audio had been extracted and is left
    behind: the removal of the intermediate file is not reached. *)
Theorem command_line_failure_leaves_the_audio (s : env_state) (e : exn)
    (s' : env_state) :
  run s = (inl e, s') →
  (s' = s
   ∧ subprocess_run sv
       (Core.ffmpeg_cmd video_file audio audio_format audio_quality
          sample_rate) = inl e)
  ∨ (subtitles ≠ audio ∧ ∃ bytes, fs s' !! audio = Some (Data bytes)
       ∧ subprocess_run sv
           (Core.ffmpeg_cmd video_file audio audio_format audio_quality
              sample_rate) = inr bytes)
  ∨ (subtitles = audio ∧ is_Some (fs s' !! audio)).
Proof.
  unfold run, Cli.process_video_to_subtitle, Core.extract_audio.
  fold audio subtitles.
  unfold mbind at 1 2. unfold M_bind at 1 2. unfold lift_result at 1.
  destruct (subprocess_run sv _) as [e0|bytes].
  { intros [= <- <-]. by left. }
  unfold mbind at 1 2. unfold M_bind at 1 2. unfold put_file at 1.
  cbn [mret M_ret]. cbv beta iota.
  set (s1 := {| fs := <[audio := Data bytes]> (fs s); updates := updates s |}).
  unfold mbind at 1. unfold M_bind at 1.
  intros Hrun. right.
  assert (is_Some (fs s' !! audio)
          ∧ (subtitles ≠ audio → fs s' !! audio = Some (Data bytes)))
    as [Hsome Hbytes].
  { destruct (generate_subtitles_cases w audio subtitles subtitle_format
                model_name language max_line_length
                (Cli.choose_device w no_mps cpu_flag) s1)
      as [[e1 Hgen]|(r & content & Hgen & [->|[e1 ->]])];
      rewrite Hgen in Hrun.
    - injection Hrun as <- <-. unfold s1. cbn [fs].
      by rewrite lookup_insert_eq.
    - exfalso. revert Hrun. unfold mbind, M_bind.
      destruct (negb keep_audio && _); [|done].
      unfold Cli.remove_quietly. by destruct (os_remove _ _).
    - injection Hrun as <- <-. unfold s1. cbn [fs]. split.
      + rewrite !lookup_insert. repeat case_decide; by eauto.
      + intros Hne. rewrite lookup_insert_ne by done.
        by rewrite lookup_insert_eq. }
  destruct (decide (subtitles = audio)) as [Heq|Hne].
  - by right.
  - left. split; [done|]. exists bytes. by split; [apply Hbytes|].
Qed.

End CommandLine.


Lemma command_line_failure_leaves_the_audio_witness :
  is_Some
    (fs (Cli.process_video_to_subtitle load_failing_world example_server
           "/home/u/talk.mp4" None "txt" "base" None None "mp3" "192k" 44100
           false false false (initial_state ∅)).2 !! "/home/u/talk.mp3").
Proof.
  destruct (Cli.process_video_to_subtitle load_failing_world example_server
              "/home/u/talk.mp4" None "txt" "base" None None "mp3" "192k"
              44100 false false false (initial_state ∅))
    as [[e|f] s'] eqn:Hrun; [|vm_compute in Hrun; discriminate Hrun].
  destruct (command_line_failure_leaves_the_audio _ _ _ _ _ _ _ _ _ _ _ _ _
              _ _ _ _ Hrun) as [[_ Hff]|[(_ & bytes & Hfile & _)|[_ Hsome]]].
  - vm_compute in Hff. discriminate Hff.
  - cbn [snd]. exists (Data bytes). exact Hfile.
  - exact Hsome.
Defined.

(** ** From the request to the options of the worker *)

(** X29. For a request the submission endpoint accepts, the options the
    worker runs with are the fields of the request: none of the defaults of
    the worker applies, the media key is kept exactly when it is not empty,
    and in that case the task is queued without the URL. *)
Theorem submitted_options_are_the_request
    (request : App.SubtitleRequest) (call : App.delayed_call) :
  App.create_subtitle_task request = inr call →
  Worker.merge_options (App.call_options call) = request_options request
  ∧ App.call_media_url call
    = (if Py.truthy (App.req_media_key request) then None
       else App.req_media_url request)
  ∧ (Py.truthy (App.req_media_key request) = true
     ∨ Py.truthy (App.req_media_url request) = true).
Proof.
  unfold App.create_subtitle_task, request_options, Worker.merge_options.
  destruct (Py.truthy (App.req_media_key request));
    destruct (Py.truthy (App.req_media_url request)); cbn [negb andb];
    try done; intros [= <-]; cbn; split_and!; auto.
Qed.

Lemma submitted_options_are_the_request_witness :
  Worker.merge_options
    (default_args "srt" (Some "movie"))
  = request_options (request_with (Some "http://media.example/a.mp4")
                       (Some "movie")).
Proof.
  destruct (submitted_options_are_the_request
              (request_with (Some "http://media.example/a.mp4")
                 (Some "movie"))
              {| App.call_media_url := None;
                 App.call_options := default_args "srt" (Some "movie") |}
              eq_refl) as [H _].
  exact H.
Defined.

(** ** Local media and the network *)


